(** * GitHub contribution reports: a shallow embedding

    The repository holds two Python scripts that query the GitHub REST API
    and aggregate a user's activity:

    - [tools/analyze_github.py]      (module [Analyzer] below)
    - [h1_2025_github_report.py]     (module [H1] below)

    Conventions of the embedding.

    - Python [str] is [string]; [str.lower] is modelled on ASCII letters.
    - A JSON object coming from the API is a record whose fields are the
      keys the scripts read; a field of type [option] is [None] when the
      key is absent or [null].  Four reads tell the two apart in a way the
      properties below turn on, and their keys are [JField]s: the name of
      a label ([lbl.get("name", "").lower()]), the labels of an issue item
      ([it.get("labels", [])] in the analyzer), the repository of a commit
      item ([it.get("repository", {}).get("full_name")] in the H1 report)
      and the three size counts of a pull request
      ([pr.get("additions", 0)] and the like).
    - A Python [float] holding a value rounded to two decimals is the
      integer number of hundredths (a [Z]); [round(x, 2)] is rounding to
      the nearest hundredth, the choice at an exact tie being a parameter
      because in CPython it depends on the binary representation of [x].
    - Network, clock and [time.sleep] are effects of a small monad that
      threads a trace of events; a [while True] loop takes fuel. *)

From Stdlib Require Import ZArith List String Ascii Bool Lia Arith.
From Stdlib Require Import Permutation Sorted DecimalString OrdersEx RelationClasses.
Import ListNotations.

Set Implicit Arguments.

Local Open Scope list_scope.
Local Open Scope string_scope.

(** ** Python strings *)

Module PyStr.

(** [c.lower()] for one ASCII character. *)
Definition lower_ascii (c : ascii) : ascii :=
  let n := nat_of_ascii c in
  if (65 <=? n)%nat && (n <=? 90)%nat then ascii_of_nat (n + 32) else c.

(** [s.lower()]. *)
Fixpoint lower (s : string) : string :=
  match s with
  | EmptyString => EmptyString
  | String c t => String (lower_ascii c) (lower t)
  end.

(** [hay.startswith(needle)]. *)
Fixpoint startswith (needle hay : string) : bool :=
  match needle, hay with
  | EmptyString, _ => true
  | String _ _, EmptyString => false
  | String a n', String b h' => Ascii.eqb a b && startswith n' h'
  end.

(** [needle in hay] for two strings. *)
Fixpoint contains (needle hay : string) : bool :=
  startswith needle hay ||
  match hay with
  | EmptyString => false
  | String _ t => contains needle t
  end.

(** The mathematical notion [contains] decides. *)
Definition Substring (needle hay : string) : Prop :=
  exists pre post, hay = pre ++ needle ++ post.

(** Python truthiness of an optional string: [None] and the empty string
    are falsy. *)
Definition truthy (o : option string) : bool :=
  match o with
  | Some (String _ _) => true
  | _ => false
  end.

(** [o or ""]. *)
Definition or_empty (o : option string) : string :=
  match o with
  | Some s => s
  | None => ""
  end.

End PyStr.

(** ** Rounding to two decimals

    [round(num / den, 2)] with [num / den] counted in hundredths: the
    nearest integer to the quotient.  [up] says which way an exact tie
    goes. *)

Module Round.

Definition round_half (up : bool) (num den : Z) : Z :=
  let q := (num / den)%Z in
  let r := (num mod den)%Z in
  if (2 * r <? den)%Z then q
  else if (den <? 2 * r)%Z then (q + 1)%Z
  else if up then (q + 1)%Z else q.

End Round.

(** ** The Python runtime and the world outside the scripts *)

(** Exceptions the modelled code can meet. *)
Inductive exn : Type :=
| HTTPError (code : Z) (body : string) (headers : list (string * string))
| URLError
| JSONDecodeError
| ValueError
| AttributeError
| ZeroDivisionError.

(** Result of running a piece of code: a value, an exception on its way
    up, or a loop that is still running when the fuel is spent. *)
Inductive outcome (A : Type) : Type :=
| Done (a : A)
| Raised (e : exn)
| Diverged.

Arguments Done {A} a.
Arguments Raised {A} e.
Arguments Diverged {A}.

(** Library functions the scripts call and this development does not
    define: [int(s)] on a string, [datetime.fromisoformat(s)] as the
    instant it denotes (microseconds since the epoch, UTC; [None] where
    Python raises [ValueError]), and the direction of [round] at a tie,
    for a quotient of a time difference and for the mean of a list. *)
Record Python : Type := {
  py_int : string -> option Z;
  fromisoformat : string -> option Z;
  tie_delta : Z -> bool;
  tie_mean : list Z -> bool
}.

(** A [datetime] normalised to UTC: microseconds since the epoch. *)
Definition datetime : Type := Z.

(** [str(n)] for an integer. *)
Definition str_of_Z (z : Z) : string :=
  DecimalString.NilZero.string_of_int (Z.to_int z).

(** *** JSON shapes of the API *)

(** A key that the scripts read in a way that tells the absent key from
    the [null] value. *)
Inductive JField (A : Type) : Type :=
| Absent
| Null
| Present (a : A).

Arguments Absent {A}.
Arguments Null {A}.
Arguments Present {A} a.

(** [d.get(k)]: [None] for an absent key and for [null]. *)
Definition get {A} (f : JField A) : option A :=
  match f with
  | Present a => Some a
  | Absent | Null => None
  end.

(** [d.get(k, default)]: the default for an absent key only; [null] stays
    [None]. *)
Definition get_or {A} (f : JField A) (default : A) : option A :=
  match f with
  | Absent => Some default
  | Null => None
  | Present a => Some a
  end.

(** A label of an issue. *)
Record Label : Type := { lbl_name_key : JField string }.

(** [lbl.get("name")]. *)
Definition lbl_name (lbl : Label) : option string := get (lbl_name_key lbl).

(** One element of ["items"] in a search response (issues, pull requests
    or commits): the keys the scripts read. *)
Record Item : Type := {
  it_repository_url : option string;
  it_number : option Z;
  it_title : option string;
  it_state : option string;
  it_created_at : option string;
  it_closed_at : option string;
  it_updated_at : option string;
  it_labels_key : JField (list Label);
  it_html_url : option string;
  it_pull_request_url : option string;       (* item["pull_request"]["url"] *)
  it_sha : option string;
  it_repository : JField (option string);    (* item["repository"], by its "full_name" *)
  it_commit_message : option string          (* item["commit"]["message"] *)
}.

(** [item.get("labels")]. *)
Definition it_labels (item : Item) : option (list Label) := get (it_labels_key item).

(** [(item.get("repository") or {}).get("full_name")]. *)
Definition it_repository_full_name (item : Item) : option string :=
  match it_repository item with
  | Present full_name => full_name
  | Absent | Null => None
  end.

(** A pull request object ([/repos/{repo}/pulls/{n}]). *)
Record PullJson : Type := {
  pj_number : option Z;
  pj_title : option string;
  pj_state : option string;
  pj_created_at : option string;
  pj_merged_at : option string;
  pj_closed_at : option string;
  pj_additions_key : JField Z;
  pj_deletions_key : JField Z;
  pj_changed_files_key : JField Z;
  pj_commits : option Z;
  pj_merge_commit_sha : option string;
  pj_html_url : option string;
  pj_merged : option bool;
  pj_base_repo_full_name : option string;    (* pr["base"]["repo"]["full_name"] *)
  pj_fetch_error : option string             (* "_fetch_error" *)
}.

(** [pr.get("additions")], [pr.get("deletions")],
    [pr.get("changed_files")]. *)
Definition pj_additions (pr : PullJson) : option Z := get (pj_additions_key pr).
Definition pj_deletions (pr : PullJson) : option Z := get (pj_deletions_key pr).
Definition pj_changed_files (pr : PullJson) : option Z := get (pj_changed_files_key pr).

(** A commit object ([/repos/{repo}/commits/{sha}]). *)
Record CommitJson : Type := {
  cj_sha : option string;
  cj_html_url : option string;
  cj_stats_additions : option Z;             (* c["stats"]["additions"] *)
  cj_stats_deletions : option Z;
  cj_stats_total : option Z;
  cj_files : option (list string);           (* one entry per changed file *)
  cj_author_date : option string;            (* c["commit"]["author"]["date"] *)
  cj_committer_date : option string;
  cj_message : option string;                (* c["commit"]["message"] *)
  cj_fetch_error : option string
}.

(** A decoded response body. *)
Inductive Payload : Type :=
| JSearch (items : option (list Item))   (* an object, with or without "items" *)
| JPull (pr : PullJson)
| JCommit (c : CommitJson)
| JList (l : list PullJson)              (* a JSON array *)
| JMalformed.                            (* not JSON: json.loads raises *)

(** *** Requests, responses, events *)

Record Request : Type := {
  req_url : string;
  req_params : list (string * string);
  req_accept : string
}.

Inductive Response : Type :=
| Success (body : Payload) (headers : list (string * string))
| Failure (e : exn).     (* urlopen raises: an HTTP status >= 400, a transport error *)

(** What the outside world can observe of a run.  Sleeps are counted in
    milliseconds. *)
Inductive Event : Type :=
| EvGet (r : Request)
| EvSleep (ms : Z).

Definition Trace : Type := list Event.

(** The world: what the server answers to a request and what the clock
    shows ([int(time.time())], seconds), each given everything that has
    happened so far. *)
Record Env : Type := {
  respond : Trace -> Request -> Response;
  clock : Trace -> Z
}.

(** *** The monad of the scripts *)

Definition M (A : Type) : Type := Env -> Trace -> outcome A * Trace.

Definition ret {A} (a : A) : M A := fun _ tr => (Done a, tr).

Definition bind {A B} (m : M A) (k : A -> M B) : M B :=
  fun env tr =>
    match m env tr with
    | (Done a, tr') => k a env tr'
    | (Raised e, tr') => (Raised e, tr')
    | (Diverged, tr') => (Diverged, tr')
    end.

Definition raise {A} (e : exn) : M A := fun _ tr => (Raised e, tr).

Definition diverge {A} : M A := fun _ tr => (Diverged, tr).

(** [try: m  except Exception as e: handler e]. *)
Definition try_except {A} (m : M A) (handler : exn -> M A) : M A :=
  fun env tr =>
    match m env tr with
    | (Raised e, tr') => handler e env tr'
    | r => r
    end.

(** A pure computation that may raise. *)
Definition lift {A} (o : outcome A) : M A := fun _ tr => (o, tr).

(** [urlopen(req)]. *)
Definition urlopen (req : Request) : M (Payload * list (string * string)) :=
  fun env tr =>
    match respond env tr req with
    | Success body headers => (Done (body, headers), (tr ++ [EvGet req])%list)
    | Failure e => (Raised e, (tr ++ [EvGet req])%list)
    end.

(** [time.sleep(ms / 1000)]. *)
Definition sleep (ms : Z) : M unit := fun _ tr => (Done tt, (tr ++ [EvSleep ms])%list).

(** [int(time.time())]. *)
Definition time_time : M Z := fun env tr => (Done (clock env tr), tr).

Declare Scope monad_scope.
Delimit Scope monad_scope with monad.
Notation "x <- m ;; k" := (bind m (fun x => k))
  (at level 61, m at next level, right associativity) : monad_scope.
Notation "' p <- m ;; k" := (bind m (fun x => let p := x in k))
  (at level 61, p pattern, m at next level, right associativity) : monad_scope.
Notation "m ;;; k" := (bind m (fun _ => k))
  (at level 61, right associativity) : monad_scope.
Local Open Scope monad_scope.

(** The requests of a trace, in order. *)
Definition gets (tr : Trace) : list Request :=
  flat_map (fun e => match e with EvGet r => [r] | EvSleep _ => [] end) tr.

(** [e.headers.get(name)] on the header block of a response: names are
    compared without case, the first match wins. *)
Fixpoint message_get (name : string) (headers : list (string * string)) : option string :=
  match headers with
  | [] => None
  | (k, v) :: rest =>
      if String.eqb (PyStr.lower k) (PyStr.lower name) then Some v
      else message_get name rest
  end.

(** [d.get(k)] on a dictionary built from a list of pairs: a later pair
    with the same key replaces an earlier one. *)
Fixpoint dict_get (k : string) (d : list (string * string)) : option string :=
  match d with
  | [] => None
  | (k', v) :: rest =>
      match dict_get k rest with
      | Some v' => Some v'
      | None => if String.eqb k' k then Some v else None
      end
  end.

(** A few list and string helpers shared by the two scripts. *)

(** [s.split(sep)] for a one-character separator. *)
Fixpoint split (sep : ascii) (s : string) : list string :=
  match s with
  | EmptyString => [""]
  | String c t =>
      if Ascii.eqb c sep then "" :: split sep t
      else match split sep t with
           | h :: r => String c h :: r
           | [] => [String c ""]
           end
  end.

(** [s.rstrip(c)] for a one-character set. *)
Fixpoint rstrip (c : ascii) (s : string) : string :=
  match s with
  | EmptyString => ""
  | String a t =>
      match rstrip c t with
      | EmptyString => if Ascii.eqb a c then "" else String a ""
      | t' => String a t'
      end
  end.

(** [s.lstrip(c)]. *)
Fixpoint lstrip (c : ascii) (s : string) : string :=
  match s with
  | String a t => if Ascii.eqb a c then lstrip c t else s
  | EmptyString => ""
  end.

(** ASCII whitespace, as removed by [s.strip()]. *)
Definition is_space (a : ascii) : bool :=
  let n := nat_of_ascii a in
  ((9 <=? n)%nat && (n <=? 13)%nat) || (n =? 32)%nat || ((28 <=? n)%nat && (n <=? 31)%nat).

Fixpoint lstrip_space (s : string) : string :=
  match s with
  | String a t => if is_space a then lstrip_space t else s
  | EmptyString => ""
  end.

Fixpoint rstrip_space (s : string) : string :=
  match s with
  | EmptyString => ""
  | String a t =>
      match rstrip_space t with
      | EmptyString => if is_space a then "" else String a ""
      | t' => String a t'
      end
  end.

(** [s.strip()]. *)
Definition strip (s : string) : string := rstrip_space (lstrip_space s).

(** [s.replace("Z", "+00:00")]. *)
Fixpoint replace_Z (s : string) : string :=
  match s with
  | EmptyString => ""
  | String c t =>
      if Ascii.eqb c "Z"%char then "+00:00" ++ replace_Z t
      else String c (replace_Z t)
  end.

(** [sum(xs)]. *)
Definition sum (xs : list Z) : Z := fold_right Z.add 0%Z xs.

(** [len(xs)]. *)
Definition len {A} (xs : list A) : Z := Z.of_nat (List.length xs).

(** The values of a list of optional numbers that are not [None]. *)
Definition non_null (l : list (option Z)) : list Z :=
  flat_map (fun o => match o with Some x => [x] | None => [] end) l.

(** [o or 0]. *)
Definition or_zero (o : option Z) : Z :=
  match o with Some z => z | None => 0%Z end.

(** [num / den] as an exact fraction; Python raises on a zero divisor. *)
Definition truediv (num den : Z) : outcome (Z * Z) :=
  if (den =? 0)%Z then Raised ZeroDivisionError else Done (num, den).

(** [round(sum(xs) / len(xs), 2) if xs else None], the values being
    counted in hundredths. *)
Definition average (py : Python) (xs : list Z) : outcome (option Z) :=
  match xs with
  | [] => Done None
  | _ :: _ =>
      match truediv (sum xs) (len xs) with
      | Done (n, d) => Done (Some (Round.round_half (tie_mean py xs) n d))
      | Raised e => Raised e
      | Diverged => Diverged
      end
  end.

(** [str(e)] of an exception, as far as the scripts store it. *)
Definition str_of_exn (e : exn) : string :=
  match e with
  | HTTPError code _ _ => "HTTP Error " ++ str_of_Z code
  | URLError => "<urlopen error>"
  | JSONDecodeError => "Expecting value"
  | ValueError => "invalid literal"
  | AttributeError => "object has no attribute"
  | ZeroDivisionError => "division by zero"
  end.

(** [d[k] = v] on a dictionary kept as an association list. *)
Fixpoint dict_set (k v : string) (d : list (string * string)) : list (string * string) :=
  match d with
  | [] => [(k, v)]
  | (k', v') :: rest =>
      if String.eqb k' k then (k, v) :: rest else (k', v') :: dict_set k v rest
  end.

(** [k in d]. *)
Definition dict_mem (k : string) (d : list (string * string)) : bool :=
  existsb (fun kv => String.eqb (fst kv) k) d.

(** The n-th element of a list of strings, from the front and from the
    back ([parts[n]], [parts[-n]]). *)
Definition nth_str (n : nat) (l : list string) : string := nth n l "".
Definition nth_last (n : nat) (l : list string) : string := nth n (rev l) "".

Definition GITHUB_API : string := "https://api.github.com".

(** *** Reading a decoded body

    The scripts read a body with [get]; what they find depends on its
    shape. *)

(** [data.get("items", [])] on a decoded body. *)
Definition get_items (data : Payload) : outcome (list Item) :=
  match data with
  | JSearch (Some items) => Done items
  | JSearch None | JPull _ | JCommit _ => Done []
  | JList _ => Raised AttributeError
  | JMalformed => Raised JSONDecodeError
  end.

(** A JSON object none of whose keys is one a pull request is read by. *)
Definition empty_pull : PullJson :=
  {| pj_number := None; pj_title := None; pj_state := None;
     pj_created_at := None; pj_merged_at := None; pj_closed_at := None;
     pj_additions_key := Absent; pj_deletions_key := Absent;
     pj_changed_files_key := Absent;
     pj_commits := None; pj_merge_commit_sha := None; pj_html_url := None;
     pj_merged := None; pj_base_repo_full_name := None; pj_fetch_error := None |}.

(** Reading a decoded body with [pr.get(...)]: an object of another
    shape has none of the keys but ["html_url"]; a list has no [get]. *)
Definition as_pull (data : Payload) : outcome PullJson :=
  match data with
  | JPull pr => Done pr
  | JSearch _ => Done empty_pull
  | JCommit c =>
      Done {| pj_number := None; pj_title := None; pj_state := None;
              pj_created_at := None; pj_merged_at := None; pj_closed_at := None;
              pj_additions_key := Absent; pj_deletions_key := Absent;
              pj_changed_files_key := Absent;
              pj_commits := None; pj_merge_commit_sha := None;
              pj_html_url := cj_html_url c;
              pj_merged := None; pj_base_repo_full_name := None;
              pj_fetch_error := cj_fetch_error c |}
  | JList _ => Raised AttributeError
  | JMalformed => Raised JSONDecodeError
  end.

(** The empty dictionary [{}] read as a commit object. *)
Definition empty_commit : CommitJson :=
  {| cj_sha := None; cj_html_url := None; cj_stats_additions := None;
     cj_stats_deletions := None; cj_stats_total := None; cj_files := None;
     cj_author_date := None; cj_committer_date := None; cj_message := None;
     cj_fetch_error := None |}.

(** Reading a decoded body with [commit_detail.get(...)]. *)
Definition as_commit (data : Payload) : outcome CommitJson :=
  match data with
  | JCommit c => Done c
  | JSearch _ => Done empty_commit
  | JPull pr =>
      Done {| cj_sha := None; cj_html_url := pj_html_url pr;
              cj_stats_additions := None; cj_stats_deletions := None;
              cj_stats_total := None; cj_files := None;
              cj_author_date := None; cj_committer_date := None;
              cj_message := None; cj_fetch_error := pj_fetch_error pr |}
  | JList _ => Raised AttributeError
  | JMalformed => Raised JSONDecodeError
  end.

(** ** [tools/analyze_github.py] *)

Module Analyzer.

Import PyStr.

(** The request [http_get] builds: the URL, the query, and the Accept
    header of [get_auth_headers] unless it is overridden. *)
Definition request (url : string) (params : list (string * string))
    (headers_override : option string) : Request :=
  {| req_url := url;
     req_params := params;
     req_accept := match headers_override with
                   | Some a => a
                   | None => "application/vnd.github+json"
                   end |}.

(** [http_get(url, params, headers_override)]: one GET, the decoded body
    and the headers with lower-cased names.  Any failure of [urlopen] or of
    [json.loads] propagates: there is no handler. *)
Definition http_get (url : string) (params : list (string * string))
    (headers_override : option string) : M (Payload * list (string * string)) :=
  let req := request url params headers_override in
  '(data, headers) <- urlopen req ;;
  match data with
  | JMalformed => raise JSONDecodeError
  | _ => ret (data, map (fun kv => (lower (fst kv), snd kv)) headers)
  end.

(** The double quote character. *)
Definition dquote : ascii := ascii_of_nat 34.

(** [sec[4:]], what follows ["rel="]. *)
Definition drop4 (s : string) : string :=
  String.substring 4 (String.length s - 4) s.

Fixpoint find_rel (secs : list string) : option string :=
  match secs with
  | [] => None
  | sec :: rest =>
      let sec := strip sec in
      if startswith "rel=" sec then Some (rstrip dquote (lstrip dquote (drop4 sec)))
      else find_rel rest
  end.

Fixpoint parse_link_parts (parts : list string) (links : list (string * string))
    : list (string * string) :=
  match parts with
  | [] => links
  | part :: rest =>
      let section := split ";" (strip part) in
      match section with
      | s0 :: (_ :: _) as section' =>
          let url := rstrip ">" (lstrip "<" (strip s0)) in
          match find_rel section' with
          | Some (String _ _ as rel) => parse_link_parts rest (dict_set rel url links)
          | _ => parse_link_parts rest links
          end
      | _ => parse_link_parts rest links
      end
  end.

(** [parse_link_header(link_header)]. *)
Definition parse_link_header (link_header : option string) : list (string * string) :=
  if truthy link_header then parse_link_parts (split "," (or_empty link_header)) []
  else [].

(** [paginate(url, params, item_key)].  [select] stands for
    [data.get(item_key) if item_key else data], with a falsy value read as
    the empty list. *)
Section Paginate.
Variable Elem : Type.
Variable select : Payload -> outcome (list Elem).

Fixpoint paginate_loop (fuel : nat) (url : string) (params : list (string * string))
    (page : Z) (acc : list Elem) : M (list Elem) :=
  match fuel with
  | O => diverge
  | S fuel' =>
      '(data, headers) <- http_get url params None ;;
      items <- lift (select data) ;;
      match items with
      | [] => ret acc
      | _ :: _ =>
          let acc := (acc ++ items)%list in
          let links := parse_link_header (dict_get "link" headers) in
          if negb (dict_mem "next" links) then ret acc
          else
            let page := (page + 1)%Z in
            let params := dict_set "page" (str_of_Z page) params in
            sleep 150 ;;;
            paginate_loop fuel' url params page acc
      end
  end.

Definition paginate (fuel : nat) (url : string) (params : list (string * string))
    : M (list Elem) :=
  let page := 1%Z in
  let per_page := 100%Z in
  let params := dict_set "page" (str_of_Z page)
                  (dict_set "per_page" (str_of_Z per_page) params) in
  paginate_loop fuel url params page [].
End Paginate.

(** The loop shared by [search_issues] and [search_commits], which differ
    in the URL and the Accept header only. *)
Fixpoint search_loop (fuel : nat) (url : string) (headers_override : option string)
    (query : string) (page total_returned : Z) (acc : list Item) : M (list Item) :=
  match fuel with
  | O => diverge
  | S fuel' =>
      let per_page := 100%Z in
      let params := [("q", query); ("per_page", str_of_Z per_page);
                     ("page", str_of_Z page)] in
      '(data, _) <- http_get url params headers_override ;;
      items <- lift (get_items data) ;;
      match items with
      | [] => ret acc
      | _ :: _ =>
          let acc := (acc ++ items)%list in
          let total_returned := (total_returned + len items)%Z in
          if (len items <? per_page)%Z || (1000 <=? total_returned)%Z then ret acc
          else sleep 150 ;;; search_loop fuel' url headers_override query
                               (page + 1)%Z total_returned acc
      end
  end.

(** [list(search_issues(query))]. *)
Definition search_issues (fuel : nat) (query : string) : M (list Item) :=
  search_loop fuel (GITHUB_API ++ "/search/issues") None query 1 0 [].

(** [list(search_commits(query))]. *)
Definition search_commits (fuel : nat) (query : string) : M (list Item) :=
  search_loop fuel (GITHUB_API ++ "/search/commits")
    (Some "application/vnd.github.text-match+json") query 1 0 [].

(** [get_pr_details(repo_full_name, number)]. *)
Definition get_pr_details (repo_full_name : string) (number : Z) : M Payload :=
  let url := GITHUB_API ++ "/repos/" ++ repo_full_name ++ "/pulls/" ++ str_of_Z number in
  '(pr, _) <- http_get url [] None ;;
  ret pr.

(** [get_commit_details(repo_full_name, sha)]. *)
Definition get_commit_details (repo_full_name sha : string) : M Payload :=
  let url := GITHUB_API ++ "/repos/" ++ repo_full_name ++ "/commits/" ++ sha in
  '(commit, _) <- http_get url [] None ;;
  ret commit.

(** [get_pulls_for_commit(repo_full_name, sha)]. *)
Definition get_pulls_for_commit (repo_full_name sha : string) : M (list PullJson) :=
  let url := GITHUB_API ++ "/repos/" ++ repo_full_name ++ "/commits/" ++ sha ++ "/pulls" in
  '(data, _) <- http_get url [] (Some "application/vnd.github.groot-preview+json") ;;
  match data with
  | JList l => ret l
  | _ => ret []
  end.

(** [iso_to_dt(iso_str)]. *)
Definition iso_to_dt (py : Python) (iso_str : option string) : outcome (option datetime) :=
  if negb (truthy iso_str) then Done None
  else match fromisoformat py (replace_Z (or_empty iso_str)) with
       | Some t => Done (Some t)
       | None => Raised ValueError
       end.

(** [days_between(start, end)], in hundredths of a day:
    [delta.total_seconds() / 86400.0] is [delta] microseconds over
    [86400 * 10^6]. *)
Definition days_between (py : Python) (start end_ : option datetime) : option Z :=
  match start, end_ with
  | Some s, Some e =>
      let delta := (e - s)%Z in
      Some (Round.round_half (tie_delta py delta) (100 * delta) (86400 * 1000000))
  | _, _ => None
  end.

Definition incident_markers : list string :=
  ["incident"; "sev"; "severity"; "p0"; "p1"; "s1"; "s2"; "outage"; "hotfix"].

(** [[lbl.get("name", "").lower() for lbl in labels]]: the default is
    for a label without the key; a name that is [null] has no [lower]. *)
Fixpoint label_names (labels : list Label) : outcome (list string) :=
  match labels with
  | [] => Done []
  | lbl :: rest =>
      match get_or (lbl_name_key lbl) "" with
      | Some name =>
          match label_names rest with
          | Done names => Done (lower name :: names)
          | r => r
          end
      | None => Raised AttributeError
      end
  end.

(** [is_incident_issue(labels)]. *)
Definition is_incident_issue (labels : option (list Label)) : outcome bool :=
  match label_names (match labels with Some l => l | None => [] end) with
  | Done names =>
      Done (existsb (fun name => existsb (fun marker => contains marker name) incident_markers)
                    names)
  | Raised e => Raised e
  | Diverged => Diverged
  end.

(** [safe_repo_full_name(item)]. *)
Definition safe_repo_full_name (item : Item) : option string :=
  let repo_url := it_repository_url item in
  if negb (truthy repo_url) then None
  else
    let parts := split "/" (rstrip "/" (or_empty repo_url)) in
    if (len parts <? 2)%Z then None
    else
      let owner := nth_last 1 parts in
      let repo := nth_last 0 parts in
      Some (owner ++ "/" ++ repo).

(** *** The records of the report *)

Record PullRecord : Type := {
  pr_repo : string;
  pr_number : option Z;
  pr_title : option string;
  pr_state : option string;
  pr_created_at : option string;
  pr_merged_at : option string;
  pr_closed_at : option string;
  pr_additions : option Z;
  pr_deletions : option Z;
  pr_changed_files : option Z;
  pr_commits : option Z;
  pr_merge_commit_sha : option string;
  pr_html_url : option string;
  pr_cycle_time_days : option Z          (* hundredths of a day *)
}.

Record IssueRecord : Type := {
  is_repo : option string;
  is_number : option Z;
  is_title : option string;
  is_state : option string;
  is_created_at : option string;
  is_closed_at : option string;
  is_labels : option (list Label);
  is_html_url : option string;
  is_time_to_close_days : option Z;      (* hundredths of a day *)
  is_is_incident : bool
}.

Record ReviewRecord : Type := {
  rv_repo : option string;
  rv_number : option Z;
  rv_title : option string;
  rv_state : option string;
  rv_created_at : option string;
  rv_updated_at : option string;
  rv_html_url : option string
}.

Record PullSummary : Type := {
  ps_number : option Z;
  ps_html_url : option string;
  ps_state : option string
}.

Record CommitRecord : Type := {
  cr_repo : option string;
  cr_sha : string;
  cr_date : option string;
  cr_message : option string;
  cr_html_url : option string;
  cr_additions : Z;
  cr_deletions : Z;
  cr_total_changes : Z;
  cr_files_changed : Z;
  cr_associated_prs : list PullSummary
}.

(** *** The pull requests of [analyze] *)

(** The dictionary built in the [except] branch when the detail request
    of a pull request fails. *)
Definition fallback_pull (item : Item) (e : exn) : PullJson :=
  {| pj_number := it_number item;
     pj_title := it_title item;
     pj_state := it_state item;
     pj_created_at := it_created_at item;
     pj_merged_at := None;
     pj_closed_at := it_closed_at item;
     pj_additions_key := Present 0%Z;
     pj_deletions_key := Present 0%Z;
     pj_changed_files_key := Present 0%Z;
     pj_commits := None;
     pj_merge_commit_sha := None;
     pj_html_url := it_html_url item;
     pj_merged := None;
     pj_base_repo_full_name := None;
     pj_fetch_error := Some (str_of_exn e) |}.

(** [a or b] on two optional datetimes (a datetime is always truthy). *)
Definition or_else (a b : option datetime) : option datetime :=
  match a with Some _ => a | None => b end.

(** The derived cycle time of a pull request, from the three timestamps
    of its object (lines 238-240). *)
Definition cycle_time (py : Python) (created_at merged_at closed_at : option string)
    : outcome (option Z) :=
  match iso_to_dt py created_at with
  | Done created_dt =>
      match iso_to_dt py merged_at with
      | Done (Some merged) => Done (days_between py created_dt (Some merged))
      | Done None =>
          match iso_to_dt py closed_at with
          | Done closed_dt => Done (days_between py created_dt (or_else None closed_dt))
          | Raised e => Raised e
          | Diverged => Diverged
          end
      | Raised e => Raised e
      | Diverged => Diverged
      end
  | Raised e => Raised e
  | Diverged => Diverged
  end.

(** The record appended to [prs_detailed]. *)
Definition pull_record (repo_full_name : string) (pr : PullJson) (cycle_days : option Z)
    : PullRecord :=
  {| pr_repo := repo_full_name;
     pr_number := pj_number pr;
     pr_title := pj_title pr;
     pr_state := pj_state pr;
     pr_created_at := pj_created_at pr;
     pr_merged_at := pj_merged_at pr;
     pr_closed_at := pj_closed_at pr;
     pr_additions := get_or (pj_additions_key pr) 0%Z;
     pr_deletions := get_or (pj_deletions_key pr) 0%Z;
     pr_changed_files := get_or (pj_changed_files_key pr) 0%Z;
     pr_commits := pj_commits pr;
     pr_merge_commit_sha := pj_merge_commit_sha pr;
     pr_html_url := pj_html_url pr;
     pr_cycle_time_days := cycle_days |}.

(** One turn of the loop over [pr_items]: [None] where the item is
    skipped by [continue]. *)
Definition pr_step (py : Python) (item : Item) : M (option PullRecord) :=
  match safe_repo_full_name item, it_number item with
  | Some repo_full_name, Some number =>
      if (number =? 0)%Z then ret None
      else
        data <- try_except (get_pr_details repo_full_name number)
                  (fun e => ret (JPull (fallback_pull item e))) ;;
        pr <- lift (as_pull data) ;;
        cycle_days <- lift (cycle_time py (pj_created_at pr) (pj_merged_at pr) (pj_closed_at pr)) ;;
        sleep 80 ;;;
        ret (Some (pull_record repo_full_name pr cycle_days))
  | _, _ => ret None
  end.

Fixpoint prs_loop (py : Python) (pr_items : list Item) (prs_detailed : list PullRecord)
    : M (list PullRecord) :=
  match pr_items with
  | [] => ret prs_detailed
  | item :: rest =>
      r <- pr_step py item ;;
      match r with
      | Some rec => prs_loop py rest (prs_detailed ++ [rec])%list
      | None => prs_loop py rest prs_detailed
      end
  end.

(** *** Issues and reviews *)

(** The record built for one issue item (authored or assigned);
    [labels] is [it.get("labels", [])]. *)
Definition issue_record (py : Python) (it : Item) : outcome IssueRecord :=
  let repo_full_name := safe_repo_full_name it in
  let created_at := it_created_at it in
  let closed_at := it_closed_at it in
  match iso_to_dt py created_at with
  | Done created_dt =>
      match iso_to_dt py closed_at with
      | Done closed_dt =>
          let ttc_days := days_between py created_dt closed_dt in
          let labels := get_or (it_labels_key it) [] in
          match is_incident_issue labels with
          | Done is_incident =>
              Done {| is_repo := repo_full_name;
                      is_number := it_number it;
                      is_title := it_title it;
                      is_state := it_state it;
                      is_created_at := created_at;
                      is_closed_at := closed_at;
                      is_labels := labels;
                      is_html_url := it_html_url it;
                      is_time_to_close_days := ttc_days;
                      is_is_incident := is_incident |}
          | Raised e => Raised e
          | Diverged => Diverged
          end
      | Raised e => Raised e
      | Diverged => Diverged
      end
  | Raised e => Raised e
  | Diverged => Diverged
  end.

Fixpoint issues_loop (py : Python) (items : list Item) (acc : list IssueRecord)
    : outcome (list IssueRecord) :=
  match items with
  | [] => Done acc
  | it :: rest =>
      match issue_record py it with
      | Done rec => issues_loop py rest (acc ++ [rec])%list
      | Raised e => Raised e
      | Diverged => Diverged
      end
  end.

Definition review_record (it : Item) : ReviewRecord :=
  {| rv_repo := safe_repo_full_name it;
     rv_number := it_number it;
     rv_title := it_title it;
     rv_state := it_state it;
     rv_created_at := it_created_at it;
     rv_updated_at := it_updated_at it;
     rv_html_url := it_html_url it |}.

(** *** Commits *)

(** [{"_fetch_error": str(e)}]. *)
Definition failed_commit (e : exn) : CommitJson :=
  {| cj_sha := None; cj_html_url := None; cj_stats_additions := None;
     cj_stats_deletions := None; cj_stats_total := None; cj_files := None;
     cj_author_date := None; cj_committer_date := None; cj_message := None;
     cj_fetch_error := Some (str_of_exn e) |}.

(** [a or b] on optional strings. *)
Definition str_or (a b : option string) : option string :=
  if truthy a then a else b.

(** The repository of a commit item: ["repository"]["full_name"], or
    else the fourth and fifth segments of ["html_url"]. *)
Definition commit_repo (item : Item) : option string :=
  let repo_full_name := it_repository_full_name item in
  if truthy repo_full_name then repo_full_name
  else
    let html_url := or_empty (it_html_url item) in
    let parts := split "/" html_url in
    if (7 <=? len parts)%Z then Some (nth_str 3 parts ++ "/" ++ nth_str 4 parts)
    else repo_full_name.

(** The record appended to [commits_detailed]. *)
Definition commit_record (item : Item) (repo_full_name : option string) (sha : string)
    (commit_detail : CommitJson) (prs_for_commit : list PullJson) : CommitRecord :=
  let additions := or_zero (cj_stats_additions commit_detail) in
  let deletions := or_zero (cj_stats_deletions commit_detail) in
  let total :=
    match cj_stats_total commit_detail with
    | Some t => if (t =? 0)%Z then (additions + deletions)%Z else t
    | None => (additions + deletions)%Z
    end in
  {| cr_repo := repo_full_name;
     cr_sha := sha;
     cr_date := str_or (cj_author_date commit_detail) (cj_committer_date commit_detail);
     cr_message := str_or (cj_message commit_detail) (it_commit_message item);
     cr_html_url := str_or (cj_html_url commit_detail) (it_html_url item);
     cr_additions := additions;
     cr_deletions := deletions;
     cr_total_changes := total;
     cr_files_changed := len (match cj_files commit_detail with Some f => f | None => [] end);
     cr_associated_prs :=
       map (fun pr => {| ps_number := pj_number pr;
                         ps_html_url := pj_html_url pr;
                         ps_state := pj_state pr |}) prs_for_commit |}.

(** [sha in seen_shas]. *)
Definition mem (sha : string) (seen_shas : list string) : bool :=
  existsb (String.eqb sha) seen_shas.

(** The enrichment of one commit that passed the duplicate test. *)
Definition commit_enrich (item : Item) (sha : string) : M CommitRecord :=
  let repo_full_name := commit_repo item in
  data <- (if truthy repo_full_name
           then try_except (get_commit_details (or_empty repo_full_name) sha)
                  (fun e => ret (JCommit (failed_commit e)))
           else ret (JCommit empty_commit)) ;;
  commit_detail <- lift (as_commit data) ;;
  prs_for_commit <- (if truthy repo_full_name
                     then try_except (get_pulls_for_commit (or_empty repo_full_name) sha)
                            (fun _ => ret [])
                     else ret []) ;;
  sleep 50 ;;;
  ret (commit_record item repo_full_name sha commit_detail prs_for_commit).

(** The loop over [commit_items], with the set [seen_shas]. *)
Fixpoint commits_loop (commit_items : list Item) (seen_shas : list string)
    (commits_detailed : list CommitRecord) : M (list CommitRecord) :=
  match commit_items with
  | [] => ret commits_detailed
  | item :: rest =>
      match it_sha item with
      | Some (String _ _ as sha) =>
          if mem sha seen_shas then commits_loop rest seen_shas commits_detailed
          else
            rec <- commit_enrich item sha ;;
            commits_loop rest (sha :: seen_shas) (commits_detailed ++ [rec])%list
      | _ => commits_loop rest seen_shas commits_detailed
      end
  end.

(** *** Aggregates *)

(** [sorted(set(l))]: the distinct strings of [l] in ascending order of
    their characters' codes.  [insert] puts one string at its place in an
    ascending list without repeating it. *)
Fixpoint insert (s : string) (l : list string) : list string :=
  match l with
  | [] => [s]
  | h :: t =>
      match String_as_OT.compare s h with
      | Lt => s :: l
      | Eq => l
      | Gt => h :: insert s t
      end
  end.

Definition sorted_set (l : list string) : list string := fold_right insert [] l.

(** The strings of a list of optional strings that are truthy
    ([r for r in l if r]). *)
Definition truthy_strings (l : list (option string)) : list string :=
  flat_map (fun o => match o with Some (String _ _ as s) => [s] | _ => [] end) l.

(** [repos_contributed] (line 409). *)
Definition repos_contributed (prs_detailed : list PullRecord)
    (commits_detailed : list CommitRecord) : list string :=
  sorted_set (truthy_strings (map (fun p => Some (pr_repo p)) prs_detailed
                              ++ map cr_repo commits_detailed)%list).

(** [cycle_times] (line 397). *)
Definition cycle_times (prs_detailed : list PullRecord) : list Z :=
  non_null (map pr_cycle_time_days prs_detailed).

(** [avg_cycle_time] (line 398). *)
Definition avg_cycle_time (py : Python) (prs_detailed : list PullRecord) : outcome (option Z) :=
  average py (cycle_times prs_detailed).

(** [incident_issues] (line 401). *)
Definition incident_issues (issues_detailed issues_assigned : list IssueRecord)
    : list IssueRecord :=
  (filter is_is_incident issues_detailed ++ filter is_is_incident issues_assigned)%list.

(** [incident_ttrs] and [avg_incident_mttr] (lines 402-403). *)
Definition incident_ttrs (issues_detailed issues_assigned : list IssueRecord) : list Z :=
  non_null (map is_time_to_close_days (incident_issues issues_detailed issues_assigned)).

Definition avg_incident_mttr (py : Python) (issues_detailed issues_assigned : list IssueRecord)
    : outcome (option Z) :=
  average py (incident_ttrs issues_detailed issues_assigned).

(** [all_ttrs] and [avg_issue_ttr] (lines 406-407). *)
Definition all_ttrs (issues_detailed issues_assigned : list IssueRecord) : list Z :=
  non_null (map is_time_to_close_days (issues_detailed ++ issues_assigned)%list).

Definition avg_issue_ttr (py : Python) (issues_detailed issues_assigned : list IssueRecord)
    : outcome (option Z) :=
  average py (all_ttrs issues_detailed issues_assigned).

Record Aggregates : Type := {
  prs_created : Z;
  prs_merged : Z;
  lines_added : Z;
  lines_deleted : Z;
  files_changed : Z;
  avg_cycle_time_days : option Z;
  agg_repos_contributed : list string;
  issues_created : Z;
  avg_issue_close_time_days : option Z;
  incident_issues_count : Z;
  avg_incident_mttr_days : option Z;
  prs_reviewed : Z;
  commits_count : Z;
  commit_lines_changed : Z;
  commit_additions : Z;
  commit_deletions : Z
}.

Record Report : Type := {
  rp_user : string;
  rp_start_date : string;
  rp_end_date : string;
  rp_pull_requests : list PullRecord;
  rp_issues : list IssueRecord;
  rp_issues_assigned : list IssueRecord;
  rp_reviews : list ReviewRecord;
  rp_commits : list CommitRecord;
  rp_aggregates : Aggregates
}.

(** The ["aggregates"] block (lines 393-438). *)
Definition aggregates (py : Python) (prs_detailed : list PullRecord)
    (issues_detailed issues_assigned : list IssueRecord) (reviewed_slim : list ReviewRecord)
    (commits_detailed : list CommitRecord) : outcome Aggregates :=
  let total_additions := sum (map (fun p => or_zero (pr_additions p)) prs_detailed) in
  let total_deletions := sum (map (fun p => or_zero (pr_deletions p)) prs_detailed) in
  let total_files_changed := sum (map (fun p => or_zero (pr_changed_files p)) prs_detailed) in
  let merged_prs := filter (fun p => truthy (pr_merged_at p)) prs_detailed in
  match avg_cycle_time py prs_detailed with
  | Done avg_cycle =>
      match avg_incident_mttr py issues_detailed issues_assigned with
      | Done avg_incident =>
          match avg_issue_ttr py issues_detailed issues_assigned with
          | Done avg_issue =>
              Done {| prs_created := len prs_detailed;
                      prs_merged := len merged_prs;
                      lines_added := total_additions;
                      lines_deleted := total_deletions;
                      files_changed := total_files_changed;
                      avg_cycle_time_days := avg_cycle;
                      agg_repos_contributed := repos_contributed prs_detailed commits_detailed;
                      issues_created := len issues_detailed;
                      avg_issue_close_time_days := avg_issue;
                      incident_issues_count :=
                        len (incident_issues issues_detailed issues_assigned);
                      avg_incident_mttr_days := avg_incident;
                      prs_reviewed := len reviewed_slim;
                      commits_count := len commits_detailed;
                      commit_lines_changed := sum (map cr_total_changes commits_detailed);
                      commit_additions := sum (map cr_additions commits_detailed);
                      commit_deletions := sum (map cr_deletions commits_detailed) |}
          | Raised e => Raised e
          | Diverged => Diverged
          end
      | Raised e => Raised e
      | Diverged => Diverged
      end
  | Raised e => Raised e
  | Diverged => Diverged
  end.

(** [analyze(user, start_date, end_date)].  Each search loop gets the
    same fuel. *)
Definition analyze (py : Python) (fuel : nat) (user start_date end_date : string) : M Report :=
  let date_range := start_date ++ ".." ++ end_date in
  pr_items <- search_issues fuel ("is:pr author:" ++ user ++ " created:" ++ date_range) ;;
  prs_detailed <- prs_loop py pr_items [] ;;
  issue_items <- search_issues fuel ("is:issue author:" ++ user ++ " created:" ++ date_range) ;;
  issues_detailed <- lift (issues_loop py issue_items []) ;;
  issue_assigned_items <-
    search_issues fuel ("is:issue assignee:" ++ user ++ " closed:" ++ date_range) ;;
  issues_assigned <- lift (issues_loop py issue_assigned_items []) ;;
  reviewed_items <-
    search_issues fuel ("is:pr reviewed-by:" ++ user ++ " updated:" ++ date_range) ;;
  let reviewed_slim := map review_record reviewed_items in
  by_author <- search_commits fuel ("author:" ++ user ++ " author-date:" ++ date_range) ;;
  by_committer <-
    search_commits fuel ("committer:" ++ user ++ " committer-date:" ++ date_range) ;;
  let commit_items := (by_author ++ by_committer)%list in
  commits_detailed <- commits_loop commit_items [] [] ;;
  aggs <- lift (aggregates py prs_detailed issues_detailed issues_assigned reviewed_slim
                  commits_detailed) ;;
  ret {| rp_user := user;
         rp_start_date := start_date;
         rp_end_date := end_date;
         rp_pull_requests := prs_detailed;
         rp_issues := issues_detailed;
         rp_issues_assigned := issues_assigned;
         rp_reviews := reviewed_slim;
         rp_commits := commits_detailed;
         rp_aggregates := aggs |}.

End Analyzer.

(** ** [h1_2025_github_report.py] *)

Module H1.

Import PyStr.

Definition H1_START : string := "2025-01-01T00:00:00Z".
Definition H1_END : string := "2025-06-30T23:59:59Z".

(** [json.loads] of what was read. *)
Definition decode (r : Payload * list (string * string))
    : M (Payload * list (string * string)) :=
  match fst r with
  | JMalformed => raise JSONDecodeError
  | _ => ret r
  end.

(** The request [github_get] builds. *)
Definition request (url : string) (params : list (string * string)) : Request :=
  {| req_url := url;
     req_params := params;
     req_accept := "application/vnd.github+json" |}.

(** [github_get(url, params)]: the pair of ["__data__"] and
    ["__headers__"]. *)
Definition github_get (py : Python) (url : string) (params : list (string * string))
    : M (Payload * list (string * string)) :=
  let req := request url params in
  try_except (r <- urlopen req ;; decode r)
    (fun e =>
       match e with
       | HTTPError code body headers =>
           (* simple rate-limit retry *)
           if (code =? 403)%Z && contains "rate limit" (lower body) then
             match message_get "X-RateLimit-Reset" headers with
             | Some (String _ _ as reset) =>
                 match py_int py reset with
                 | Some reset_s =>
                     now <- time_time ;;
                     let wait_s := Z.max 0 (reset_s - now + 2) in
                     sleep (1000 * Z.min wait_s 60) ;;;
                     r2 <- urlopen req ;;
                     decode r2
                 | None => raise ValueError
                 end
             | _ => raise e
             end
           else raise e
       | _ => raise e
       end).

(** [paginate(url, params)]. *)
Fixpoint paginate_loop (py : Python) (fuel : nat) (url : string)
    (params : list (string * string)) (page : Z) (results : list PullJson)
    : M (list PullJson) :=
  match fuel with
  | O => diverge
  | S fuel' =>
      let merged_params :=
        dict_set "page" (str_of_Z page) (dict_set "per_page" "100" params) in
      '(items, _) <- github_get py url merged_params ;;
      match items with
      | JList l =>
          let results := (results ++ l)%list in
          if (len l <? 100)%Z then ret results
          else paginate_loop py fuel' url params (page + 1)%Z results
      | _ => ret results
      end
  end.

Definition paginate (py : Python) (fuel : nat) (url : string)
    (params : list (string * string)) : M (list PullJson) :=
  paginate_loop py fuel url params 1 [].

(** The loop of [search_github]. *)
Fixpoint search_loop (py : Python) (fuel : nat) (url : string)
    (params : list (string * string)) (page : Z) (results : list Item) : M (list Item) :=
  match fuel with
  | O => diverge
  | S fuel' =>
      let params := dict_set "page" (str_of_Z page) params in
      '(data, _) <- github_get py url params ;;
      items <- lift (get_items data) ;;
      let results := (results ++ items)%list in
      if (len items <? 100)%Z || (10 <=? page)%Z then ret results
      else search_loop py fuel' url params (page + 1)%Z results
  end.

(** [search_github(query, sort, order)]. *)
Definition search_github (py : Python) (fuel : nat) (query : string) (sort : option string)
    (order : string) : M (list Item) :=
  let url := GITHUB_API ++ "/search/issues" in
  let params := [("q", query); ("per_page", "100"); ("order", order)] in
  let params := if truthy sort then dict_set "sort" (or_empty sort) params else params in
  search_loop py fuel url params 1 [].

(** The dictionaries of [fetch_prs] and [fetch_issues]. *)
Record PullRecord : Type := {
  pr_number : option Z;
  pr_title : option string;
  pr_state : option string;
  pr_merged : option bool;
  pr_additions : option Z;
  pr_deletions : option Z;
  pr_changed_files : option Z;
  pr_created_at : option string;
  pr_merged_at : option string;
  pr_closed_at : option string;
  pr_repo_full_name : option string;
  pr_html_url : option string
}.

Record IssueRecord : Type := {
  is_number : option Z;
  is_title : option string;
  is_state : option string;
  is_created_at : option string;
  is_closed_at : option string;
  is_repo_full_name : string;
  is_html_url : option string;
  is_labels : list (option string)
}.

Definition pr_data (pr : PullJson) : PullRecord :=
  {| pr_number := pj_number pr;
     pr_title := pj_title pr;
     pr_state := pj_state pr;
     pr_merged := pj_merged pr;
     pr_additions := pj_additions pr;
     pr_deletions := pj_deletions pr;
     pr_changed_files := pj_changed_files pr;
     pr_created_at := pj_created_at pr;
     pr_merged_at := pj_merged_at pr;
     pr_closed_at := pj_closed_at pr;
     pr_repo_full_name := pj_base_repo_full_name pr;
     pr_html_url := pj_html_url pr |}.

(** One turn of the loop of [fetch_prs]: [None] where the item is
    skipped by [continue]. *)
Definition fetch_pr_step (py : Python) (it : Item) : M (option PullRecord) :=
  let pr_url := it_pull_request_url it in
  if negb (truthy pr_url) then ret None   (* sometimes search returns issues; skip *)
  else
    fetched <- try_except (r <- github_get py (or_empty pr_url) [] ;; ret (Some (fst r)))
                 (fun _ => ret None) ;;
    match fetched with
    | None => ret None
    | Some data =>
        pr <- lift (as_pull data) ;;
        ret (Some (pr_data pr))
    end.

Fixpoint fetch_prs_loop (py : Python) (items : list Item) (prs : list PullRecord)
    : M (list PullRecord) :=
  match items with
  | [] => ret prs
  | it :: rest =>
      r <- fetch_pr_step py it ;;
      match r with
      | Some pr => fetch_prs_loop py rest (prs ++ [pr])%list
      | None => fetch_prs_loop py rest prs
      end
  end.

(** [fetch_prs(user)]. *)
Definition fetch_prs (py : Python) (fuel : nat) (user : string) : M (list PullRecord) :=
  let query := "is:pr author:" ++ user ++ " created:2025-01-01..2025-06-30" in
  items <- search_github py fuel query (Some "created") "desc" ;;
  fetch_prs_loop py items [].

(** [s.replace(GITHUB_API + "/repos/", "")], in the one place it is
    used: every occurrence of the prefix text is removed. *)
Fixpoint remove_all (fuel : nat) (what s : string) : string :=
  match fuel with
  | O => s
  | S fuel' =>
      match s with
      | EmptyString => ""
      | String c t =>
          if startswith what s && negb (String.eqb what "")
          then remove_all fuel' what
                 (String.substring (String.length what) (String.length s - String.length what) s)
          else String c (remove_all fuel' what t)
      end
  end.

(** [fetch_issues(user)]. *)
Definition issue_data (it : Item) : IssueRecord :=
  {| is_number := it_number it;
     is_title := it_title it;
     is_state := it_state it;
     is_created_at := it_created_at it;
     is_closed_at := it_closed_at it;
     is_repo_full_name :=
       (let u := or_empty (it_repository_url it) in
        remove_all (S (String.length u)) (GITHUB_API ++ "/repos/") u);
     is_html_url := it_html_url it;
     is_labels := map lbl_name (match it_labels it with Some l => l | None => [] end) |}.

Definition fetch_issues (py : Python) (fuel : nat) (user : string) : M (list IssueRecord) :=
  let query := "is:issue author:" ++ user ++ " created:2025-01-01..2025-06-30" in
  items <- search_github py fuel query (Some "created") "desc" ;;
  ret (map issue_data items).

(** [calc_mttr_hours(created_iso, closed_iso)], in hundredths of an
    hour. *)
Definition calc_mttr_hours (py : Python) (created_iso closed_iso : option string)
    : outcome (option Z) :=
  if negb (truthy created_iso) || negb (truthy closed_iso) then Done None
  else
    match fromisoformat py (replace_Z (or_empty created_iso)) with
    | Some created =>
        match fromisoformat py (replace_Z (or_empty closed_iso)) with
        | Some closed =>
            let delta := (closed - created)%Z in
            Done (Some (Round.round_half (tie_delta py delta) (100 * delta) (3600 * 1000000)))
        | None => Raised ValueError
        end
    | None => Raised ValueError
    end.

Definition title_keywords : list string :=
  ["incident"; "outage"; "sev"; "p1"; "p0"; "security incident"].

Definition label_keywords : list string :=
  ["incident"; "outage"; "sev1"; "sev2"; "p1"; "p0"].

(** [detect_incident_issue(title, labels)]. *)
Definition detect_incident_issue (title : option string) (labels : option (list string))
    : bool :=
  let text := lower (or_empty title) in
  let labelset := map lower (match labels with Some l => l | None => [] end) in
  if existsb (fun k => contains k text) title_keywords then true
  else if existsb (fun k => existsb (String.eqb k) labelset) label_keywords then true
  else false.

(** The label names of an issue record as the list of strings
    [detect_incident_issue] works on; a label without a name is [None]
    in the record and [None.lower()] raises. *)
Fixpoint label_strings (labels : list (option string)) : outcome (list string) :=
  match labels with
  | [] => Done []
  | Some s :: rest =>
      match label_strings rest with
      | Done l => Done (s :: l)
      | r => r
      end
  | None :: _ => Raised AttributeError
  end.

(** [incident_issues] of [aggregate] (line 268). *)
Fixpoint incident_issues (issues : list IssueRecord) : outcome (list IssueRecord) :=
  match issues with
  | [] => Done []
  | i :: rest =>
      match label_strings (is_labels i) with
      | Done labels =>
          match incident_issues rest with
          | Done l =>
              Done (if detect_incident_issue (is_title i) (Some labels) then i :: l else l)
          | r => r
          end
      | Raised e => Raised e
      | Diverged => Diverged
      end
  end.

(** [mttrs] before the [None] values are dropped (line 269). *)
Fixpoint mttrs (py : Python) (incidents : list IssueRecord) : outcome (list (option Z)) :=
  match incidents with
  | [] => Done []
  | i :: rest =>
      match calc_mttr_hours py (is_created_at i) (is_closed_at i) with
      | Done m =>
          match mttrs py rest with
          | Done l => Done (m :: l)
          | r => r
          end
      | Raised e => Raised e
      | Diverged => Diverged
      end
  end.

(** [totals["incident_mttr_hours_avg"]] (lines 268-272). *)
Definition incident_mttr_hours_avg (py : Python) (issues : list IssueRecord)
    : outcome (option Z) :=
  match incident_issues issues with
  | Done incidents =>
      match mttrs py incidents with
      | Done ms => average py (non_null ms)
      | Raised e => Raised e
      | Diverged => Diverged
      end
  | Raised e => Raised e
  | Diverged => Diverged
  end.

(** [within_h1_2025(iso_date)]: the chained comparison reads the upper
    bound only if the lower one holds.  The timestamps are taken to carry
    an offset, as those of the API do (a final [Z]). *)
Definition within_h1_2025 (py : Python) (iso_date : string) : outcome bool :=
  match fromisoformat py (replace_Z iso_date) with
  | None => Raised ValueError
  | Some dt =>
      match fromisoformat py (replace_Z H1_START) with
      | None => Raised ValueError
      | Some start =>
          if (start <=? dt)%Z then
            match fromisoformat py (replace_Z H1_END) with
            | None => Raised ValueError
            | Some end_ => Done (dt <=? end_)%Z
            end
          else Done false
      end
  end.

(** What a function gives that reads a local variable: its value, or the
    [UnboundLocalError] of a variable read before it was ever assigned.
    No handler of the script is in the way of that error: it ends the
    run. *)
Inductive result (A : Type) : Type :=
| Returned (a : A)
| UnboundLocalError.

Arguments Returned {A} a.
Arguments UnboundLocalError {A}.

(** The dictionaries of [fetch_commits]. *)
Record CommitRecord : Type := {
  cm_repo_full_name : string;
  cm_sha : option string;
  cm_message : option string;
  cm_date : option string;
  cm_html_url : option string;
  cm_additions : option Z;
  cm_deletions : option Z;
  cm_total : option Z
}.

(** The request of [fetch_commits] for one page of the commit search. *)
Definition commits_request (query : string) (page : Z) : Request :=
  {| req_url := GITHUB_API ++ "/search/commits";
     req_params := [("q", query); ("per_page", "100"); ("page", str_of_Z page)];
     req_accept := "application/vnd.github.cloak-preview" |}.

(** The [try] statement in the loop of [fetch_commits], which assigns
    [data]: [Some] of the decoded body, or the value [data] had before
    (none on the first page) where the handler leaves the statement
    without assigning it. *)
Definition commits_page (py : Python) (req : Request) (data : option Payload)
    : M (option Payload) :=
  try_except (r <- urlopen req ;; r <- decode r ;; ret (Some (fst r)))
    (fun e =>
       match e with
       | HTTPError code body headers =>
           if (code =? 403)%Z && contains "rate limit" (lower body) then
             match message_get "X-RateLimit-Reset" headers with
             | Some (String _ _ as reset) =>
                 match py_int py reset with
                 | Some reset_s =>
                     now <- time_time ;;
                     let wait_s := Z.max 0 (reset_s - now + 2) in
                     sleep (1000 * Z.min wait_s 60) ;;;
                     r2 <- urlopen req ;;
                     r2 <- decode r2 ;;
                     ret (Some (fst r2))
                 | None => raise ValueError
                 end
             | _ => ret data
             end
           else raise e
       | _ => raise e
       end).

(** The search loop of [fetch_commits]. *)
Fixpoint commits_search_loop (py : Python) (fuel : nat) (query : string) (page : Z)
    (data : option Payload) (all_items : list Item) : M (result (list Item)) :=
  match fuel with
  | O => diverge
  | S fuel' =>
      data <- commits_page py (commits_request query page) data ;;
      match data with
      | None => ret UnboundLocalError
      | Some d =>
          items <- lift (get_items d) ;;
          let all_items := (all_items ++ items)%list in
          if (len items <? 100)%Z || (10 <=? page)%Z then ret (Returned all_items)
          else commits_search_loop py fuel' query (page + 1)%Z data all_items
      end
  end.

(** [s.split(sep)] for a separator of several characters; [skip] counts
    the characters of an occurrence of [sep] still to pass over. *)
Fixpoint split_on (sep : string) (skip : nat) (s : string) : list string :=
  match s with
  | EmptyString => [""]
  | String c t =>
      match skip with
      | S k => split_on sep k t
      | O =>
          if startswith sep s then "" :: split_on sep (String.length sep - 1) t
          else match split_on sep 0 t with
               | h :: r => String c h :: r
               | [] => [String c ""]
               end
      end
  end.

Section FetchCommits.

(** The key ["hash"] of a commit item, which the record [Item] does not
    carry: what [it.get("hash")] gives. *)
Variable get_hash : Item -> option string.

(** The repository and the hash a commit item is fetched by, or nothing
    where the item is passed over.  [it.get("repository", {})] is an empty
    dictionary for an item without the key, and [null] for one whose
    repository is [null], which has no [get]. *)
Definition commit_target (it : Item) : outcome (option (string * string)) :=
  match it_repository it with
  | Null => Raised AttributeError
  | Absent | Present _ =>
      let repo_full := it_repository_full_name it in
      let sha := if truthy (it_sha it) then it_sha it else get_hash it in
      let html_url := it_html_url it in
      let (repo_full, sha) :=
        if negb (truthy repo_full) || negb (truthy sha) then
          (* derive repo from URL if possible *)
          if truthy html_url && contains "/commit/" (or_empty html_url) then
            let parts := split_on "/commit/" 0 (or_empty html_url) in
            let repo_part :=
              remove_all (S (String.length (nth_str 0 parts))) "https://github.com/"
                (nth_str 0 parts) in
            (Some repo_part, Some (nth_str 1 parts))
          else (repo_full, sha)
        else (repo_full, sha) in
      if negb (truthy repo_full) || negb (truthy sha) then Done None
      else Done (Some (or_empty repo_full, or_empty sha))
  end.

(** The dictionary appended to [commits]. *)
Definition commit_data (repo_full : string) (detail : CommitJson) : CommitRecord :=
  {| cm_repo_full_name := repo_full;
     cm_sha := cj_sha detail;
     cm_message := cj_message detail;
     cm_date := cj_committer_date detail;
     cm_html_url := cj_html_url detail;
     cm_additions := cj_stats_additions detail;
     cm_deletions := cj_stats_deletions detail;
     cm_total := cj_stats_total detail |}.

(** One turn of the loop over [all_items]: [None] where the item is
    passed over by [continue]. *)
Definition fetch_commit_step (py : Python) (it : Item) : M (option CommitRecord) :=
  target <- lift (commit_target it) ;;
  match target with
  | None => ret None
  | Some (repo_full, sha) =>
      try_except
        (r <- github_get py (GITHUB_API ++ "/repos/" ++ repo_full ++ "/commits/" ++ sha) [] ;;
         detail <- lift (as_commit (fst r)) ;;
         ret (Some (commit_data repo_full detail)))
        (fun _ => ret None)
  end.

Fixpoint fetch_commits_loop (py : Python) (all_items : list Item)
    (commits : list CommitRecord) : M (list CommitRecord) :=
  match all_items with
  | [] => ret commits
  | it :: rest =>
      r <- fetch_commit_step py it ;;
      match r with
      | Some c => fetch_commits_loop py rest (commits ++ [c])%list
      | None => fetch_commits_loop py rest commits
      end
  end.

(** The filter on the dates at the end of [fetch_commits]. *)
Fixpoint filter_h1 (py : Python) (commits : list CommitRecord)
    : outcome (list CommitRecord) :=
  match commits with
  | [] => Done []
  | c :: rest =>
      match (if truthy (cm_date c) then within_h1_2025 py (or_empty (cm_date c))
             else Done false) with
      | Done keep =>
          match filter_h1 py rest with
          | Done l => Done (if keep then c :: l else l)
          | r => r
          end
      | Raised e => Raised e
      | Diverged => Diverged
      end
  end.

(** [fetch_commits(user)]. *)
Definition fetch_commits (py : Python) (fuel : nat) (user : string)
    : M (result (list CommitRecord)) :=
  let query := "author:" ++ user ++ " committer-date:2025-01-01..2025-06-30" in
  found <- commits_search_loop py fuel query 1 None [] ;;
  match found with
  | UnboundLocalError => ret UnboundLocalError
  | Returned all_items =>
      commits <- fetch_commits_loop py all_items [] ;;
      commits <- lift (filter_h1 py commits) ;;
      ret (Returned commits)
  end.

(** The ["totals"] of [aggregate]. *)
Record Totals : Type := {
  tot_prs_opened : Z;
  tot_prs_merged : Z;
  tot_pr_additions : Z;
  tot_pr_deletions : Z;
  tot_commits : Z;
  tot_commit_additions : Z;
  tot_commit_deletions : Z;
  tot_issues_opened : Z;
  tot_issues_closed : Z;
  tot_incident_issues : Z;
  tot_incident_mttr_hours_avg : option Z     (* hundredths of an hour *)
}.

Record Report : Type := {
  rp_user : string;
  rp_window : string * string;
  rp_totals : Totals;
  rp_prs : list PullRecord;
  rp_issues : list IssueRecord;
  rp_commits : list CommitRecord
}.

(** [p.get("merged")] as a condition. *)
Definition is_true (o : option bool) : bool :=
  match o with Some true => true | _ => false end.

Definition totals (py : Python) (prs : list PullRecord) (issues : list IssueRecord)
    (commits : list CommitRecord) : outcome Totals :=
  match incident_issues issues with
  | Done incidents =>
      match incident_mttr_hours_avg py issues with
      | Done avg =>
          Done {| tot_prs_opened := len prs;
                  tot_prs_merged := len (filter (fun p => is_true (pr_merged p)) prs);
                  tot_pr_additions := sum (map (fun p => or_zero (pr_additions p)) prs);
                  tot_pr_deletions := sum (map (fun p => or_zero (pr_deletions p)) prs);
                  tot_commits := len commits;
                  tot_commit_additions :=
                    sum (map (fun c => or_zero (cm_additions c)) commits);
                  tot_commit_deletions :=
                    sum (map (fun c => or_zero (cm_deletions c)) commits);
                  tot_issues_opened := len issues;
                  tot_issues_closed :=
                    len (filter (fun i => truthy (is_closed_at i)) issues);
                  tot_incident_issues := len incidents;
                  tot_incident_mttr_hours_avg := avg |}
      | Raised e => Raised e
      | Diverged => Diverged
      end
  | Raised e => Raised e
  | Diverged => Diverged
  end.

(** [aggregate(user)]. *)
Definition aggregate (py : Python) (fuel : nat) (user : string) : M (result Report) :=
  prs <- fetch_prs py fuel user ;;
  issues <- fetch_issues py fuel user ;;
  commits <- fetch_commits py fuel user ;;
  match commits with
  | UnboundLocalError => ret UnboundLocalError
  | Returned commits =>
      t <- lift (totals py prs issues commits) ;;
      ret (Returned {| rp_user := user;
                       rp_window := (H1_START, H1_END);
                       rp_totals := t;
                       rp_prs := prs;
                       rp_issues := issues;
                       rp_commits := commits |})
  end.

End FetchCommits.

End H1.

(** ** A concrete runtime, for running the model on examples

    [int] on decimal digits with an optional minus sign, and
    [fromisoformat] on the one format the API sends once the scripts have
    replaced the final [Z]: [YYYY-MM-DDTHH:MM:SS+00:00]. *)

Module Sample.

Fixpoint digits (s : string) (acc : Z) : option Z :=
  match s with
  | EmptyString => Some acc
  | String c t =>
      let n := nat_of_ascii c in
      if (48 <=? n)%nat && (n <=? 57)%nat
      then digits t (10 * acc + Z.of_nat (n - 48))%Z
      else None
  end.

Definition number (s : string) : option Z :=
  match s with
  | EmptyString => None
  | _ => digits s 0
  end.

Definition int_of_string (s : string) : option Z :=
  match s with
  | String "-"%char t => option_map Z.opp (number t)
  | _ => number s
  end.

(** Days from 1970-01-01 to the given day of the proleptic Gregorian
    calendar. *)
Definition days_from_civil (y m d : Z) : Z :=
  let y := if (m <=? 2)%Z then (y - 1)%Z else y in
  let era := (y / 400)%Z in
  let yoe := (y - era * 400)%Z in
  let mp := ((m + 9) mod 12)%Z in
  let doy := ((153 * mp + 2) / 5 + d - 1)%Z in
  let doe := (yoe * 365 + yoe / 4 - yoe / 100 + doy)%Z in
  (era * 146097 + doe - 719468)%Z.

Definition isoformat (s : string) : option Z :=
  let field (i n : nat) := number (String.substring i n s) in
  if negb (String.length s =? 25)%nat
     || negb (String.eqb (String.substring 4 1 s) "-")
     || negb (String.eqb (String.substring 7 1 s) "-")
     || negb (String.eqb (String.substring 10 1 s) "T")
     || negb (String.eqb (String.substring 13 1 s) ":")
     || negb (String.eqb (String.substring 16 1 s) ":")
     || negb (String.eqb (String.substring 19 6 s) "+00:00")
  then None
  else
    match field 0%nat 4%nat, field 5%nat 2%nat, field 8%nat 2%nat,
          field 11%nat 2%nat, field 14%nat 2%nat, field 17%nat 2%nat with
    | Some y, Some mo, Some d, Some h, Some mi, Some sec =>
        Some (((days_from_civil y mo d * 86400 + h * 3600 + mi * 60 + sec) * 1000000)%Z)
    | _, _, _, _, _, _ => None
    end.

Definition python : Python :=
  {| py_int := int_of_string;
     fromisoformat := isoformat;
     tie_delta := fun _ => false;
     tie_mean := fun _ => false |}.

(** An item of a search response with no key set. *)
Definition item0 : Item :=
  {| it_repository_url := None; it_number := None; it_title := None;
     it_state := None; it_created_at := None; it_closed_at := None;
     it_updated_at := None; it_labels_key := Absent; it_html_url := None;
     it_pull_request_url := None; it_sha := None;
     it_repository := Absent; it_commit_message := None |}.

End Sample.

(** * Vocabulary of the properties, and sample worlds *)

Import PyStr.

(** [labels or []]. *)
Definition labels_or_empty (labels : option (list Label)) : list Label :=
  match labels with Some l => l | None => [] end.



(** One day, in microseconds. *)
Definition day_us : Z := (86400 * 1000000)%Z.

(** [r] hundredths is a nearest hundredth of the quotient [num / den]:
    it is off by at most half a hundredth. *)
Definition nearest_hundredth (r num den : Z) : Prop :=
  (2 * Z.abs (den * r - 100 * num) <= den)%Z.



(** The end timestamp of a pull request: the merge time if present,
    otherwise the close time. *)
Definition end_timestamp (py : Python) (merged_at closed_at : option string)
    : outcome (option datetime) :=
  match Analyzer.iso_to_dt py merged_at with
  | Done (Some merged) => Done (Some merged)
  | Done None => Analyzer.iso_to_dt py closed_at
  | r => r
  end.

(** The cycle time of a record of [prs_detailed] is the one its own
    timestamps give. *)
Definition cycle_time_ok (py : Python) (rec : Analyzer.PullRecord) : Prop :=
  (exists created_dt end_dt,
      Analyzer.iso_to_dt py (Analyzer.pr_created_at rec) = Done created_dt /\
      end_timestamp py (Analyzer.pr_merged_at rec) (Analyzer.pr_closed_at rec) = Done end_dt /\
      match created_dt, end_dt with
      | Some c, Some e =>
          exists r, Analyzer.pr_cycle_time_days rec = Some r /\
                    nearest_hundredth r (e - c) day_us
      | _, _ => Analyzer.pr_cycle_time_days rec = None
      end) /\
  (truthy (Analyzer.pr_created_at rec) = false \/
   (truthy (Analyzer.pr_merged_at rec) = false /\
    truthy (Analyzer.pr_closed_at rec) = false) ->
   Analyzer.pr_cycle_time_days rec = None).

(** A world whose answers do not depend on the past and whose clock
    stands still. *)
Definition static_env (answer : Request -> Response) : Env :=
  {| respond := fun _ r => answer r; clock := fun _ => 0%Z |}.

(** A search item for pull request 7 of [octo/demo], and the object the
    detail request returns for it: created 2025-02-01, merged
    2025-02-03, ten lines added and two deleted. *)
Definition demo_pr_item : Item :=
  {| it_repository_url := Some "https://api.github.com/repos/octo/demo";
     it_number := Some 7%Z;
     it_title := Some "Add retry";
     it_state := Some "closed";
     it_created_at := Some "2025-02-01T00:00:00Z";
     it_closed_at := Some "2025-02-03T00:00:00Z";
     it_updated_at := Some "2025-02-03T00:00:00Z";
     it_labels_key := Present [];
     it_html_url := Some "https://github.com/octo/demo/pull/7";
     it_pull_request_url := Some "https://api.github.com/repos/octo/demo/pulls/7";
     it_sha := None;
     it_repository := Absent;
     it_commit_message := None |}.

Definition demo_pull : PullJson :=
  {| pj_number := Some 7%Z;
     pj_title := Some "Add retry";
     pj_state := Some "closed";
     pj_created_at := Some "2025-02-01T00:00:00Z";
     pj_merged_at := Some "2025-02-03T00:00:00Z";
     pj_closed_at := Some "2025-02-03T00:00:00Z";
     pj_additions_key := Present 10%Z;
     pj_deletions_key := Present 2%Z;
     pj_changed_files_key := Present 1%Z;
     pj_commits := Some 1%Z;
     pj_merge_commit_sha := Some "abc123";
     pj_html_url := Some "https://github.com/octo/demo/pull/7";
     pj_merged := Some true;
     pj_base_repo_full_name := Some "octo/demo";
     pj_fetch_error := None |}.

(** A server that knows pull request 7 and nothing else. *)
Definition demo_env : Env :=
  static_env (fun r =>
    if String.eqb (req_url r) "https://api.github.com/repos/octo/demo/pulls/7"
    then Success (JPull demo_pull) []
    else Failure (HTTPError 404 "Not Found" [])).

(** A server on which every request fails. *)
Definition failing_env : Env :=
  static_env (fun _ => Failure (HTTPError 500 "Internal Server Error" [])).

Definition demo_prs_run : outcome (list Analyzer.PullRecord) * Trace :=
  Eval vm_compute in Analyzer.prs_loop Sample.python [demo_pr_item] [] demo_env [].

Definition done_or_nil {A} (o : outcome (list A)) : list A :=
  match o with Done l => l | _ => [] end.

(** [avg] is the mean of [ds] to the nearest hundredth, and null when
    there is nothing to average. *)
Definition mean_of (ds : list Z) (avg : option Z) : Prop :=
  match ds with
  | [] => avg = None
  | _ :: _ => exists m, avg = Some m /\ (2 * Z.abs (len ds * m - sum ds) <= len ds)%Z
  end.

(** The deltas of the four averages. *)
Definition cycle_deltas (prs : list Analyzer.PullRecord) : list Z :=
  non_null (map Analyzer.pr_cycle_time_days prs).

Definition close_deltas (issues assigned : list Analyzer.IssueRecord) : list Z :=
  non_null (map Analyzer.is_time_to_close_days (issues ++ assigned)%list).

Definition incident_deltas (issues assigned : list Analyzer.IssueRecord) : list Z :=
  non_null (map Analyzer.is_time_to_close_days
              (filter Analyzer.is_is_incident (issues ++ assigned)%list)).

(** An issue record with the given time-to-close and nothing else. *)
Definition issue_with (ttc : option Z) (incident : bool) : Analyzer.IssueRecord :=
  {| Analyzer.is_repo := None; Analyzer.is_number := None; Analyzer.is_title := None;
     Analyzer.is_state := None; Analyzer.is_created_at := None;
     Analyzer.is_closed_at := None; Analyzer.is_labels := None;
     Analyzer.is_html_url := None; Analyzer.is_time_to_close_days := ttc;
     Analyzer.is_is_incident := incident |}.

(** Three issue records from the H1 report whose title names an outage:
    closed after 2 hours, still open, closed after 4 hours. *)
Definition h1_issue (created_at closed_at : option string) : H1.IssueRecord :=
  {| H1.is_number := None; H1.is_title := Some "P0 outage in checkout";
     H1.is_state := None; H1.is_created_at := created_at;
     H1.is_closed_at := closed_at; H1.is_repo_full_name := "octo/demo";
     H1.is_html_url := None; H1.is_labels := [] |}.

Definition h1_three_issues : list H1.IssueRecord :=
  [h1_issue (Some "2025-02-01T00:00:00Z") (Some "2025-02-01T02:00:00Z");
   h1_issue (Some "2025-02-01T00:00:00Z") None;
   h1_issue (Some "2025-02-01T00:00:00Z") (Some "2025-02-01T04:00:00Z")].

Definition str_lt : string -> string -> Prop := String_as_OT.lt.

(** The repository identifiers of the records, null or not. *)
Definition record_repos (prs : list Analyzer.PullRecord) (commits : list Analyzer.CommitRecord)
    : list (option string) :=
  (map (fun p => Some (Analyzer.pr_repo p)) prs ++ map Analyzer.cr_repo commits)%list.

(** The commit items that pass the test of line 340, each with its hash:
    the first item of every hash not yet in [seen]. *)
Fixpoint dedupe (seen : list string) (items : list Item) : list (Item * string) :=
  match items with
  | [] => []
  | item :: rest =>
      match it_sha item with
      | Some (String _ _ as sha) =>
          if Analyzer.mem sha seen then dedupe seen rest
          else (item, sha) :: dedupe (sha :: seen) rest
      | _ => dedupe seen rest
      end
  end.

(** Enrichment of a list of items, one after the other. *)
Fixpoint enrich_all (todo : list (Item * string)) (acc : list Analyzer.CommitRecord)
    : M (list Analyzer.CommitRecord) :=
  match todo with
  | [] => ret acc
  | (item, sha) :: rest =>
      bind (Analyzer.commit_enrich item sha) (fun rec => enrich_all rest (acc ++ [rec])%list)
  end.

(** Running [m] adds events to the trace, at most [n] requests among
    them, however it ends. *)
Definition at_most {A} (n : nat) (m : M A) : Prop :=
  forall env tr o tr',
    m env tr = (o, tr') ->
    exists evs, tr' = (tr ++ evs)%list /\ (List.length (gets evs) <= n)%nat.

Definition h1_failed_run : outcome (list H1.PullRecord) * Trace :=
  Eval vm_compute in H1.fetch_prs_loop Sample.python [demo_pr_item] [] failing_env [].

(** A search endpoint that always returns a full page. *)
Definition full_pages (env : Env) : Prop :=
  forall tr req, exists items headers,
    respond env tr req = Success (JSearch (Some items)) headers /\ len items = 100%Z.

(** A world in which [paginate] of the analyzer always finds a page with
    items and a link to the next one. *)
Definition always_more {Elem} (select : Payload -> outcome (list Elem)) (env : Env) : Prop :=
  forall tr req, exists body headers x xs,
    respond env tr req = Success body headers /\ body <> JMalformed /\
    select body = Done (x :: xs) /\
    dict_mem "next"
      (Analyzer.parse_link_header
         (dict_get "link" (map (fun kv => (lower (fst kv), snd kv)) headers))) = true.

(** A listing endpoint that always returns a full page. *)
Definition full_lists (env : Env) : Prop :=
  forall tr req, exists l headers,
    respond env tr req = Success (JList l) headers /\ (100 <= len l)%Z.

(** A search endpoint that answers every request with a page of one
    hundred items and a [Link] header naming a next page. *)
Definition next_link : string :=
  "<https://api.github.com/search/issues?q=is%3Apr&page=2>; rel="
  ++ String Analyzer.dquote ("next" ++ String Analyzer.dquote "").

Definition hundred_items : list Item := repeat Sample.item0 100.

Definition full_env : Env :=
  static_env (fun _ => Success (JSearch (Some hundred_items)) [("Link", next_link)]).

(** What [github_get] does with the answer to its retry. *)
Definition retry_result (resp : Response) : outcome (Payload * list (string * string)) :=
  match resp with
  | Success JMalformed _ => Raised JSONDecodeError
  | Success body headers => Done (body, headers)
  | Failure e => Raised e
  end.

(** The first request is refused for rate limiting, with a reset time of
    1005 on a clock that shows 1000; every later request succeeds. *)
Definition rate_limited_env : Env :=
  {| respond := fun tr _ =>
       match gets tr with
       | [] => Failure (HTTPError 403 "API rate limit exceeded for user"
                          [("Content-Type", "application/json");
                           ("X-RateLimit-Reset", "1005")])
       | _ :: _ => Success (JPull demo_pull) []
       end;
     clock := fun _ => 1000%Z |}.

(** The world of the scenario in which user [alice] has one merged pull
    request in the window and nothing else: the search for her pull
    requests returns the item of pull request 7, every other search an
    empty page. *)
Definition query_of (r : Request) : string := or_empty (dict_get "q" (req_params r)).

Definition alice_env : Env :=
  static_env (fun r =>
    if String.eqb (req_url r) "https://api.github.com/search/issues" then
      if String.eqb (query_of r) "is:pr author:alice created:2025-01-01..2025-06-30"
      then Success (JSearch (Some [demo_pr_item])) []
      else Success (JSearch (Some [])) []
    else if String.eqb (req_url r) "https://api.github.com/search/commits" then
      Success (JSearch (Some [])) []
    else if String.eqb (req_url r) "https://api.github.com/repos/octo/demo/pulls/7" then
      Success (JPull demo_pull) []
    else Failure (HTTPError 404 "Not Found" [])).

(** Running [m] comes to an end, by a value or by an exception, in every
    world: it never stops for want of fuel. *)
Definition terminates {A} (m : M A) : Prop :=
  forall env tr, fst (m env tr) <> Diverged.

(** The time a run has spent in [time.sleep], in milliseconds. *)
Definition slept (tr : Trace) : Z :=
  sum (flat_map (fun e => match e with EvSleep ms => [ms] | EvGet _ => [] end) tr).

(** The events of one call of [github_get] for the request [req]: the
    request alone, or the request, one sleep of at most a minute and the
    request again. *)
Definition one_call (req : Request) (evs : list Event) : Prop :=
  evs = [EvGet req] \/
  exists ms, (0 <= ms <= 60000)%Z /\ evs = [EvGet req; EvSleep ms; EvGet req].

(** The character [c] does not occur in [s]. *)
Fixpoint lacks (c : ascii) (s : string) : bool :=
  match s with
  | EmptyString => true
  | String a t => negb (Ascii.eqb a c) && lacks c t
  end.

(** One link of a [Link] header as the API writes it,
    [<url>; rel="name"], and a header of several links. *)
Definition link_value (rel url : string) : string :=
  "<" ++ url ++ ">; rel=" ++ String Analyzer.dquote (rel ++ String Analyzer.dquote "").

Fixpoint link_header (links : list (string * string)) : string :=
  match links with
  | [] => ""
  | [(rel, url)] => link_value rel url
  | (rel, url) :: rest => link_value rel url ++ ", " ++ link_header rest
  end.

(** A relation name and a URL that can be written in a [Link] header and
    read back: no comma or semicolon in either, no angle bracket in the
    URL, no double quote in the name, and a name that is not empty. *)
Definition plain_link (link : string * string) : bool :=
  let (rel, url) := link in
  lacks "," url && lacks ";" url && lacks "<" url && lacks ">" url &&
  lacks "," rel && lacks ";" rel && lacks Analyzer.dquote rel &&
  negb (String.eqb rel "").

(** The dictionary [parse_link_header] is expected to build: the links
    in order, a later one replacing an earlier one of the same name. *)
Definition links_dict (links : list (string * string)) : list (string * string) :=
  fold_left (fun d link => dict_set (fst link) (snd link) d) links [].

(** A search item with the given ["repository_url"] and nothing else. *)
Definition item_at (repository_url : option string) : Item :=
  {| it_repository_url := repository_url; it_number := None; it_title := None;
     it_state := None; it_created_at := None; it_closed_at := None;
     it_updated_at := None; it_labels_key := Absent; it_html_url := None;
     it_pull_request_url := None; it_sha := None;
     it_repository := Absent; it_commit_message := None |}.

(** A commit item of a search with the given ["repository"]["full_name"]
    and ["html_url"], and the hash [abc123]. *)
Definition commit_item_at (full_name html_url : option string) : Item :=
  {| it_repository_url := None; it_number := None; it_title := None;
     it_state := None; it_created_at := None; it_closed_at := None;
     it_updated_at := None; it_labels_key := Absent; it_html_url := html_url;
     it_pull_request_url := None; it_sha := Some "abc123";
     it_repository := Present full_name; it_commit_message := None |}.

(** [n] slashes. *)
Fixpoint slashes (n : nat) : string :=
  match n with
  | O => ""
  | S n' => String "/" (slashes n')
  end.

(** The label objects with the given names. *)
Definition labels_named (names : list string) : list Label :=
  map (fun n => {| lbl_name_key := Present n |}) names.


(** The first request of [analyze]: page 1 of the search for the pull
    requests of [user]. *)
Definition first_request (user start_date end_date : string) : Request :=
  Analyzer.request (GITHUB_API ++ "/search/issues")
    [("q", "is:pr author:" ++ user ++ " created:" ++ start_date ++ ".." ++ end_date);
     ("per_page", "100"); ("page", "1")] None.

(** A search item that the loop over the pull requests leaves out: no
    repository, or no number (absent, null or 0). *)
Definition skipped (item : Item) : bool :=
  match Analyzer.safe_repo_full_name item, it_number item with
  | Some _, Some number => (number =? 0)%Z
  | _, _ => true
  end.

(** The page a request asks for. *)
Definition page_of (r : Request) : string := or_empty (dict_get "page" (req_params r)).

(** A commit search whose first page is full, whose second page is
    refused for rate limiting without the header that says when to come
    back, and whose later pages are empty. *)
Definition stale_env : Env :=
  static_env (fun r =>
    if String.eqb (page_of r) "1" then Success (JSearch (Some hundred_items)) []
    else if String.eqb (page_of r) "2"
    then Failure (HTTPError 403 "API rate limit exceeded" [])
    else Success (JSearch (Some [])) []).

(** A commit of [octo/demo] as the commit search lists it and as its
    detail request returns it, committed on 2025-03-01; and a server that
    knows this one commit. *)
Definition demo_commit_item : Item :=
  {| it_repository_url := None; it_number := None; it_title := None;
     it_state := None; it_created_at := None; it_closed_at := None;
     it_updated_at := None; it_labels_key := Absent;
     it_html_url := Some "https://github.com/octo/demo/commit/abc123";
     it_pull_request_url := None; it_sha := Some "abc123";
     it_repository := Present (Some "octo/demo");
     it_commit_message := Some "Add retry" |}.

Definition demo_commit : CommitJson :=
  {| cj_sha := Some "abc123";
     cj_html_url := Some "https://github.com/octo/demo/commit/abc123";
     cj_stats_additions := Some 10%Z; cj_stats_deletions := Some 2%Z;
     cj_stats_total := Some 12%Z; cj_files := Some ["retry.py"];
     cj_author_date := Some "2025-03-01T00:00:00Z";
     cj_committer_date := Some "2025-03-01T00:00:00Z";
     cj_message := Some "Add retry"; cj_fetch_error := None |}.

Definition commit_env : Env :=
  static_env (fun r =>
    if String.eqb (req_url r) "https://api.github.com/search/commits"
    then Success (JSearch (Some [demo_commit_item])) []
    else if String.eqb (req_url r) "https://api.github.com/repos/octo/demo/commits/abc123"
    then Success (JCommit demo_commit) []
    else Failure (HTTPError 404 "Not Found" [])).

(** The commit is dated inside the window whose bounds are the instants
    [a] and [b]. *)
Definition dated_within (py : Python) (a b : Z) (c : H1.CommitRecord) : Prop :=
  exists d t,
    H1.cm_date c = Some d /\ d <> "" /\
    fromisoformat py (replace_Z d) = Some t /\ (a <= t <= b)%Z.

(** No occurrence of [sep] begins inside [pre] when [rest] follows it. *)
Fixpoint begins_nowhere (sep pre rest : string) : bool :=
  match pre with
  | EmptyString => true
  | String c p => negb (startswith sep (pre ++ rest)) && begins_nowhere sep p rest
  end.

(** The [Link] header of a response as [paginate] of the analyzer reads
    it: [http_get] puts the names of the headers in lower case, and of
    several headers of that name the last one counts. *)
Definition link_of (headers : list (string * string)) : option string :=
  dict_get "link" (map (fun kv => (lower (fst kv), snd kv)) headers).

(** The header names a next page. *)
Definition names_next (links : list (string * string)) : bool :=
  existsb (fun link => String.eqb (fst link) "next") links.

(** A listing of one page: the [Link] header names the first page only. *)
Definition last_page_env : Env :=
  static_env (fun _ =>
    Success (JSearch (Some [demo_pr_item]))
      [("Link", link_header [("first", "https://api.github.com/search/issues?page=1")])]).

(** * Properties *)

(** ** Strings, rounding and the monad *)

Lemma lower_ascii_idem c : lower_ascii (lower_ascii c) = lower_ascii c.
Proof.
  destruct c as [[] [] [] [] [] [] [] []]; reflexivity.
Qed.

Lemma lower_idem s : lower (lower s) = lower s.
Proof.
  induction s as [|c t IH]; simpl; [reflexivity|].
  now rewrite lower_ascii_idem, IH.
Qed.

Lemma startswith_spec needle hay :
  startswith needle hay = true <-> exists post, hay = needle ++ post.
Proof.
  revert hay; induction needle as [|a n IH]; intros hay; simpl.
  - split; [intros _; now exists hay | reflexivity].
  - destruct hay as [|b h].
    + split; [discriminate | intros [post H]; discriminate H].
    + rewrite andb_true_iff, Ascii.eqb_eq, IH. split.
      * intros [-> [post ->]]. now exists post.
      * intros [post H]. injection H as -> ->. split; [reflexivity | now exists post].
Qed.

Lemma contains_spec needle hay :
  contains needle hay = true <-> Substring needle hay.
Proof.
  unfold Substring.
  induction hay as [|b h IH]; simpl.
  - rewrite orb_false_r, startswith_spec. split.
    + intros [post H]. now exists "", post.
    + intros [[|c pre] [post H]]; [now exists post | discriminate H].
  - rewrite orb_true_iff, startswith_spec, IH. split.
    + intros [[post H] | [pre [post H]]].
      * now exists "", post.
      * exists (String b pre), post. simpl. now rewrite H.
    + intros [[|c pre] [post H]].
      * left. now exists post.
      * right. simpl in H. injection H as _ ->. now exists pre, post.
Qed.

Lemma round_half_nearest up num den :
  (0 < den)%Z -> (2 * Z.abs (den * Round.round_half up num den - num) <= den)%Z.
Proof.
  intros Hden. unfold Round.round_half.
  pose proof (Z.div_mod num den ltac:(lia)) as Hdm.
  pose proof (Z.mod_pos_bound num den Hden) as Hb.
  destruct (Z.ltb_spec (2 * (num mod den)) den);
    [|destruct (Z.ltb_spec den (2 * (num mod den))); [|destruct up]]; nia.
Qed.

Lemma round_half_exact up k den :
  (0 < den)%Z -> Round.round_half up (den * k) den = k.
Proof.
  intros Hden. unfold Round.round_half.
  rewrite (Z.mul_comm den k), Z.div_mul, Z.mod_mul by lia.
  destruct (Z.ltb_spec (2 * 0) den); [reflexivity | lia].
Qed.

Lemma round_half_nonneg up num den :
  (0 < den)%Z -> (0 <= num)%Z -> (0 <= Round.round_half up num den)%Z.
Proof.
  intros Hden Hnum. unfold Round.round_half.
  pose proof (Z.div_pos num den Hnum Hden).
  destruct (_ <? _)%Z; [lia|]. destruct (_ <? _)%Z; [lia|]. destruct up; lia.
Qed.

Lemma bind_done {A B} (m : M A) (k : A -> M B) env tr (b : B) tr' :
  bind m k env tr = (Done b, tr') ->
  exists a tr1, m env tr = (Done a, tr1) /\ k a env tr1 = (Done b, tr').
Proof.
  unfold bind. destruct (m env tr) as [[a|e|] tr1]; intros H; try discriminate.
  now exists a, tr1.
Qed.

Lemma lift_done {A} (o : outcome A) env tr (a : A) tr' :
  lift o env tr = (Done a, tr') -> o = Done a /\ tr' = tr.
Proof.
  unfold lift. intros H. injection H as -> ->. now split.
Qed.

Example isoformat_epoch : Sample.isoformat "1970-01-01T00:00:00+00:00" = Some 0%Z.
Proof. reflexivity. Qed.

Example isoformat_2025 :
  Sample.isoformat (replace_Z "2025-02-03T00:00:00Z") = Some 1738540800000000%Z.
Proof. reflexivity. Qed.

(** ** Incident classification *)

Lemma existsb_contains_spec (words : list string) (text : string) :
  existsb (fun k => contains k text) words = true <->
  exists k, In k words /\ Substring k text.
Proof.
  rewrite existsb_exists. split; intros [k [Hin H]]; exists k; split; trivial;
    now apply contains_spec.
Qed.

(** The names [is_incident_issue] reads: all of them where no label has
    a [null] name, and an [AttributeError] where one has. *)
Lemma label_names_cases (labels : list Label) :
  ((forall lbl, In lbl labels -> lbl_name_key lbl <> Null) /\
   Analyzer.label_names labels =
   Done (map (fun lbl => lower (or_empty (lbl_name lbl))) labels)) \/
  ((exists lbl, In lbl labels /\ lbl_name_key lbl = Null) /\
   Analyzer.label_names labels = Raised AttributeError).
Proof.
  induction labels as [|lbl rest IH].
  - left. split; [intros lbl []|reflexivity].
  - cbn [Analyzer.label_names]. unfold lbl_name.
    destruct (lbl_name_key lbl) as [| |name] eqn:Hk; cbn [get_or get or_empty map].
    + destruct IH as [[Hno ->] | [[l [Hin Hl]] ->]].
      * left. split; [|now rewrite Hk].
        intros l [<- | Hin]; [congruence | now apply Hno].
      * right. split; [|reflexivity]. exists l. split; [now right | assumption].
    + right. split; [|reflexivity]. exists lbl. split; [now left | assumption].
    + destruct IH as [[Hno ->] | [[l [Hin Hl]] ->]].
      * left. split; [|now rewrite Hk].
        intros l [<- | Hin]; [congruence | now apply Hno].
      * right. split; [|reflexivity]. exists l. split; [now right | assumption].
Qed.

(** The label classifier either answers, and then by the names in lower
    case, or raises [AttributeError] at a [null] name. *)
Lemma is_incident_issue_cases (labels : option (list Label)) :
  ((forall lbl, In lbl (labels_or_empty labels) -> lbl_name_key lbl <> Null) /\
   Analyzer.is_incident_issue labels =
   Done (existsb (fun name =>
                    existsb (fun marker => contains marker name) Analyzer.incident_markers)
                 (map (fun lbl => lower (or_empty (lbl_name lbl))) (labels_or_empty labels)))) \/
  ((exists lbl, In lbl (labels_or_empty labels) /\ lbl_name_key lbl = Null) /\
   Analyzer.is_incident_issue labels = Raised AttributeError).
Proof.
  unfold Analyzer.is_incident_issue, labels_or_empty.
  destruct (label_names_cases (match labels with Some l => l | None => [] end))
    as [[Hno ->] | [Hnull ->]]; [left | right]; now split.
Qed.

Lemma marker_in_names_spec (labels : list Label) :
  existsb (fun name =>
             existsb (fun marker => contains marker name) Analyzer.incident_markers)
          (map (fun lbl => lower (or_empty (lbl_name lbl))) labels) = true <->
  exists lbl marker,
    In lbl labels /\ In marker Analyzer.incident_markers /\
    Substring marker (lower (or_empty (lbl_name lbl))).
Proof.
  rewrite existsb_exists. split.
  - intros [name [Hin H]]. apply in_map_iff in Hin as [lbl [<- Hin]].
    apply existsb_contains_spec in H as [marker [Hm Hs]]. now exists lbl, marker.
  - intros [lbl [marker [Hin [Hm Hs]]]].
    exists (lower (or_empty (lbl_name lbl))). split.
    + apply in_map_iff. now exists lbl.
    + apply existsb_contains_spec. now exists marker.
Qed.

(** The label classifier says yes exactly when no label has a [null] name
    and some label name, in lower case, has a marker inside it. *)
Lemma is_incident_issue_spec (labels : option (list Label)) :
  Analyzer.is_incident_issue labels = Done true <->
  (forall lbl, In lbl (labels_or_empty labels) -> lbl_name_key lbl <> Null) /\
  exists lbl marker,
    In lbl (labels_or_empty labels) /\ In marker Analyzer.incident_markers /\
    Substring marker (lower (or_empty (lbl_name lbl))).
Proof.
  destruct (is_incident_issue_cases labels) as [[Hno ->] | [[l [Hin Hl]] ->]].
  - rewrite <- marker_in_names_spec. split.
    + intros H. split; [assumption | congruence].
    + intros [_ ->]. reflexivity.
  - split; [discriminate|]. intros [Hno _]. now destruct (Hno l Hin).
Qed.



Lemma is_incident_issue_returns (labels : option (list Label)) :
  Analyzer.is_incident_issue labels <> Diverged.
Proof.
  destruct (is_incident_issue_cases labels) as [[_ ->] | [_ ->]]; discriminate.
Qed.








(** ** Time differences *)

Lemma iso_to_dt_absent py (s : option string) :
  truthy s = false -> Analyzer.iso_to_dt py s = Done None.
Proof.
  unfold Analyzer.iso_to_dt. now intros ->.
Qed.

Lemma iso_to_dt_none_iff py (s : option string) :
  Analyzer.iso_to_dt py s = Done None <-> truthy s = false.
Proof.
  split; [|apply iso_to_dt_absent].
  unfold Analyzer.iso_to_dt. destruct (truthy s); [|reflexivity]. simpl.
  destruct (fromisoformat py _); discriminate.
Qed.

Lemma days_between_spec py (s e : datetime) :
  exists r, Analyzer.days_between py (Some s) (Some e) = Some r /\
            nearest_hundredth r (e - s) day_us /\
            ((s <= e)%Z -> (0 <= r)%Z).
Proof.
  eexists. split; [reflexivity|]. split.
  - apply round_half_nearest. reflexivity.
  - intros Hle. apply round_half_nonneg; [reflexivity | lia].
Qed.

Lemma days_between_absent py (s e : option datetime) :
  s = None \/ e = None -> Analyzer.days_between py s e = None.
Proof.
  intros [-> | ->]; [reflexivity | now destruct s].
Qed.

Lemma non_null_app (l1 l2 : list (option Z)) :
  non_null (l1 ++ l2)%list = (non_null l1 ++ non_null l2)%list.
Proof.
  unfold non_null. apply flat_map_app.
Qed.

(** A record without a value leaves the list of values as it is. *)
Lemma non_null_skip {A} (f : A -> option Z) (l1 l2 : list A) (x : A) :
  f x = None ->
  non_null (map f (l1 ++ x :: l2)%list) = non_null (map f (l1 ++ l2)%list).
Proof.
  intros Hx. rewrite !map_app, !non_null_app. simpl. now rewrite Hx.
Qed.





(** ** Cycle time of a pull request *)

Lemma cycle_time_value py (created_at merged_at closed_at : option string) (v : option Z) :
  Analyzer.cycle_time py created_at merged_at closed_at = Done v ->
  exists created_dt end_dt,
    Analyzer.iso_to_dt py created_at = Done created_dt /\
    end_timestamp py merged_at closed_at = Done end_dt /\
    v = Analyzer.days_between py created_dt end_dt.
Proof.
  unfold Analyzer.cycle_time, end_timestamp.
  destruct (Analyzer.iso_to_dt py created_at) as [cdt| |]; try discriminate.
  destruct (Analyzer.iso_to_dt py merged_at) as [[m|]| |]; try discriminate.
  - intros H. injection H as <-. now exists cdt, (Some m).
  - destruct (Analyzer.iso_to_dt py closed_at) as [edt| |]; try discriminate.
    intros H. injection H as <-. now exists cdt, edt.
Qed.

Lemma cycle_time_record_ok py (rec : Analyzer.PullRecord) :
  Analyzer.cycle_time py (Analyzer.pr_created_at rec) (Analyzer.pr_merged_at rec)
    (Analyzer.pr_closed_at rec) = Done (Analyzer.pr_cycle_time_days rec) ->
  cycle_time_ok py rec.
Proof.
  intros H. apply cycle_time_value in H as [cdt [edt [Hc [He Hv]]]]. split.
  - exists cdt, edt. split; [assumption|]. split; [assumption|]. rewrite Hv.
    destruct cdt as [c|]; [|reflexivity]. destruct edt as [e|]; [|reflexivity].
    destruct (days_between_spec py c e) as [r [Hr [Hn _]]]. now exists r.
  - intros Habs. rewrite Hv. apply days_between_absent.
    destruct Habs as [Ha | [Hm Hcl]].
    + left. apply (iso_to_dt_absent py) in Ha. congruence.
    + right. unfold end_timestamp in He.
      rewrite (iso_to_dt_absent py _ Hm), (iso_to_dt_absent py _ Hcl) in He. congruence.
Qed.

Lemma pr_step_cycle py (item : Item) env tr (rec : Analyzer.PullRecord) tr' :
  Analyzer.pr_step py item env tr = (Done (Some rec), tr') ->
  cycle_time_ok py rec.
Proof.
  unfold Analyzer.pr_step.
  destruct (Analyzer.safe_repo_full_name item) as [repo|]; [|discriminate].
  destruct (it_number item) as [number|]; [|discriminate].
  destruct (number =? 0)%Z; [discriminate|].
  intros H.
  apply bind_done in H as [data [tr1 [_ H]]].
  apply bind_done in H as [pr [tr2 [_ H]]].
  apply bind_done in H as [cycle_days [tr3 [Hc H]]].
  apply lift_done in Hc as [Hc _].
  apply bind_done in H as [[] [tr4 [_ H]]].
  injection H as <- _.
  now apply cycle_time_record_ok.
Qed.

Lemma Forall_snoc {A} (P : A -> Prop) (l : list A) (x : A) :
  Forall P l -> P x -> Forall P (l ++ [x])%list.
Proof.
  intros Hl Hx. apply Forall_app. split; [assumption | now constructor].
Qed.

Lemma prs_loop_cycle py (pr_items : list Item) :
  forall acc env tr prs_detailed tr',
    Forall (cycle_time_ok py) acc ->
    Analyzer.prs_loop py pr_items acc env tr = (Done prs_detailed, tr') ->
    Forall (cycle_time_ok py) prs_detailed.
Proof.
  induction pr_items as [|item rest IH]; intros acc env tr prs tr' Hacc H.
  - injection H as <- _. assumption.
  - simpl in H. apply bind_done in H as [r [tr1 [Hstep H]]].
    destruct r as [rec|].
    + eapply IH; [|exact H].
      apply Forall_snoc; [assumption | eapply pr_step_cycle; eassumption].
    + eapply IH; [|exact H]. assumption.
Qed.

(** C8, as stated, fails: the cycle time is not the difference in days
    but that difference rounded to two places.  A pull request merged
    seven minutes after its creation has the cycle time 0.00 days, and
    one merged an hour after it 0.04 days, neither of which is the time
    between the two timestamps. *)
Lemma cycle_time_is_rounded :
  exists (c e1 e2 r1 r2 : Z),
    Analyzer.iso_to_dt Sample.python (Some "2025-02-01T00:00:00Z") = Done (Some c) /\
    Analyzer.iso_to_dt Sample.python (Some "2025-02-01T00:07:00Z") = Done (Some e1) /\
    Analyzer.iso_to_dt Sample.python (Some "2025-02-01T01:00:00Z") = Done (Some e2) /\
    Analyzer.cycle_time Sample.python (Some "2025-02-01T00:00:00Z")
      (Some "2025-02-01T00:07:00Z") None = Done (Some r1) /\
    Analyzer.cycle_time Sample.python (Some "2025-02-01T00:00:00Z")
      (Some "2025-02-01T01:00:00Z") None = Done (Some r2) /\
    r1 = 0%Z /\ (c < e1)%Z /\ (r1 * day_us <> 100 * (e1 - c))%Z /\
    r2 = 4%Z /\ (r2 * day_us <> 100 * (e2 - c))%Z.
Proof.
  exists 1738368000000000%Z, 1738368420000000%Z, 1738371600000000%Z, 0%Z, 4%Z.
  do 6 (split; [reflexivity|]).
  split; [lia|]. split; [unfold day_us; lia|].
  split; [reflexivity | unfold day_us; lia].
Qed.

(** C8, amended: the cycle time of every record of [prs_detailed] is the
    end timestamp (the merge time if present, otherwise the close time)
    minus the creation time, in days rounded to two decimal places; it is
    null, not zero, whenever the creation timestamp or both end
    timestamps are absent. *)
Theorem cycle_time_spec (py : Python) (pr_items : list Item) (env : Env) (tr : Trace)
    (prs_detailed : list Analyzer.PullRecord) (tr' : Trace) :
  Analyzer.prs_loop py pr_items [] env tr = (Done prs_detailed, tr') ->
  Forall (cycle_time_ok py) prs_detailed.
Proof.
  apply prs_loop_cycle. constructor.
Qed.

(** The pull request created 2025-02-01 and merged 2025-02-03. *)
Lemma cycle_time_spec_witness :
  Forall (cycle_time_ok Sample.python) (done_or_nil (fst demo_prs_run)) /\
  map Analyzer.pr_cycle_time_days (done_or_nil (fst demo_prs_run)) = [Some 200%Z].
Proof.
  split; [|reflexivity].
  apply (@cycle_time_spec Sample.python [demo_pr_item] demo_env [] _ (snd demo_prs_run)).
  vm_compute. reflexivity.
Defined.

(** ** Averages *)

Lemma len_cons_pos {A} (x : A) (xs : list A) : (0 < len (x :: xs))%Z.
Proof.
  unfold len. simpl List.length. lia.
Qed.

Lemma average_spec py (xs : list Z) :
  exists a, average py xs = Done a /\ mean_of xs a.
Proof.
  destruct xs as [|x xs].
  - now exists None.
  - unfold average, truediv.
    pose proof (len_cons_pos x xs) as Hpos.
    destruct (Z.eqb_spec (len (x :: xs)) 0) as [E|_]; [lia|].
    eexists. split; [reflexivity|]. eexists. split; [reflexivity|].
    now apply round_half_nearest.
Qed.

Lemma non_null_all_none (l : list (option Z)) :
  Forall (fun o => o = None) l -> non_null l = [].
Proof.
  induction 1 as [|o l Ho _ IH]; [reflexivity|]. subst o. exact IH.
Qed.

Lemma non_null_map_none {A} (f : A -> option Z) (l : list A) :
  Forall (fun x => f x = None) l -> non_null (map f l) = [].
Proof.
  intros H. apply non_null_all_none. now apply Forall_map.
Qed.

Lemma incident_ttrs_deltas issues assigned :
  Analyzer.incident_ttrs issues assigned = incident_deltas issues assigned.
Proof.
  unfold Analyzer.incident_ttrs, Analyzer.incident_issues, incident_deltas.
  now rewrite filter_app.
Qed.

(** C6: each average is the mean, to the nearest hundredth, of the
    non-null deltas only: a record with a null delta changes neither the
    sum nor the count; the deltas 2.0, null, 4.0 average to 3.0. *)
Theorem averages_over_non_null (py : Python) :
  (forall prs, exists a,
      Analyzer.avg_cycle_time py prs = Done a /\ mean_of (cycle_deltas prs) a) /\
  (forall issues assigned, exists a,
      Analyzer.avg_issue_ttr py issues assigned = Done a /\
      mean_of (close_deltas issues assigned) a) /\
  (forall issues assigned, exists a,
      Analyzer.avg_incident_mttr py issues assigned = Done a /\
      mean_of (incident_deltas issues assigned) a) /\
  (forall issues incidents ms,
      H1.incident_issues issues = Done incidents ->
      H1.mttrs py incidents = Done ms ->
      exists a, H1.incident_mttr_hours_avg py issues = Done a /\ mean_of (non_null ms) a) /\
  (forall l1 l2 rec,
      Analyzer.pr_cycle_time_days rec = None ->
      Analyzer.avg_cycle_time py (l1 ++ rec :: l2)%list =
      Analyzer.avg_cycle_time py (l1 ++ l2)%list) /\
  (forall l1 l2 assigned rec,
      Analyzer.is_time_to_close_days rec = None ->
      Analyzer.avg_issue_ttr py (l1 ++ rec :: l2)%list assigned =
      Analyzer.avg_issue_ttr py (l1 ++ l2)%list assigned /\
      Analyzer.avg_incident_mttr py (l1 ++ rec :: l2)%list assigned =
      Analyzer.avg_incident_mttr py (l1 ++ l2)%list assigned) /\
  (forall b1 b2 b3,
      Analyzer.avg_issue_ttr py
        [issue_with (Some 200%Z) b1; issue_with None b2; issue_with (Some 400%Z) b3] []
      = Done (Some 300%Z)) /\
  Analyzer.avg_incident_mttr py
    [issue_with (Some 200%Z) true; issue_with None true; issue_with (Some 400%Z) true] []
  = Done (Some 300%Z).
Proof.
  split; [|split; [|split; [|split; [|split; [|split; [|split]]]]]].
  - intros prs. apply average_spec.
  - intros issues assigned. apply average_spec.
  - intros issues assigned. unfold Analyzer.avg_incident_mttr.
    rewrite incident_ttrs_deltas. apply average_spec.
  - intros issues incidents ms Hi Hm. unfold H1.incident_mttr_hours_avg.
    rewrite Hi, Hm. apply average_spec.
  - intros l1 l2 rec Hnone. unfold Analyzer.avg_cycle_time, Analyzer.cycle_times.
    now rewrite (non_null_skip Analyzer.pr_cycle_time_days l1 l2 rec Hnone).
  - intros l1 l2 assigned rec Hnone. split.
    + unfold Analyzer.avg_issue_ttr, Analyzer.all_ttrs.
      rewrite <- !app_assoc, <- app_comm_cons.
      now rewrite (non_null_skip Analyzer.is_time_to_close_days l1 (l2 ++ assigned) rec Hnone).
    + unfold Analyzer.avg_incident_mttr, Analyzer.incident_ttrs, Analyzer.incident_issues.
      rewrite !filter_app. simpl.
      destruct (Analyzer.is_is_incident rec); [|reflexivity].
      rewrite <- !app_assoc, <- app_comm_cons.
      now rewrite (non_null_skip Analyzer.is_time_to_close_days _ _ rec Hnone).
  - intros b1 b2 b3. reflexivity.
  - reflexivity.
Qed.

(** In the H1 report, 2 hours, null and 4 hours average to 3.00 hours. *)
Lemma averages_over_non_null_witness :
  exists a,
    H1.incident_mttr_hours_avg Sample.python h1_three_issues = Done a /\
    mean_of (non_null [Some 200%Z; None; Some 400%Z]) a /\ a = Some 300%Z.
Proof.
  destruct (proj1 (proj2 (proj2 (proj2 (averages_over_non_null Sample.python))))
              h1_three_issues h1_three_issues [Some 200%Z; None; Some 400%Z]
              eq_refl eq_refl) as [a [Ha Hm]].
  exists a. split; [exact Ha|]. split; [exact Hm|].
  vm_compute in Ha. congruence.
Defined.

Lemma average_never_raises py (xs : list Z) (e : exn) : average py xs <> Raised e.
Proof.
  destruct (average_spec py xs) as [a [Ha _]]. rewrite Ha. discriminate.
Qed.

Lemma aggregates_total py prs issues assigned reviews commits :
  exists aggs, Analyzer.aggregates py prs issues assigned reviews commits = Done aggs.
Proof.
  unfold Analyzer.aggregates.
  destruct (average_spec py (Analyzer.cycle_times prs)) as [a1 [H1 _]].
  destruct (average_spec py (Analyzer.incident_ttrs issues assigned)) as [a2 [H2 _]].
  destruct (average_spec py (Analyzer.all_ttrs issues assigned)) as [a3 [H3 _]].
  unfold Analyzer.avg_cycle_time, Analyzer.avg_incident_mttr, Analyzer.avg_issue_ttr.
  rewrite H1, H2, H3. eexists. reflexivity.
Qed.

(** C10: with no non-null delta to average, each average is null, not
    zero; the aggregates of the analyzer are computed for every input, and
    the average of the H1 report never ends in a division by zero. *)
Theorem averages_null_when_empty (py : Python) :
  (forall prs,
      Forall (fun p => Analyzer.pr_cycle_time_days p = None) prs ->
      Analyzer.avg_cycle_time py prs = Done None) /\
  (forall issues assigned,
      Forall (fun i => Analyzer.is_time_to_close_days i = None) (issues ++ assigned)%list ->
      Analyzer.avg_issue_ttr py issues assigned = Done None) /\
  (forall issues assigned,
      Forall (fun i => Analyzer.is_is_incident i = true ->
                       Analyzer.is_time_to_close_days i = None) (issues ++ assigned)%list ->
      Analyzer.avg_incident_mttr py issues assigned = Done None) /\
  (forall issues incidents ms,
      H1.incident_issues issues = Done incidents ->
      H1.mttrs py incidents = Done ms ->
      Forall (fun m => m = None) ms ->
      H1.incident_mttr_hours_avg py issues = Done None) /\
  (forall prs issues assigned reviews commits,
      exists aggs, Analyzer.aggregates py prs issues assigned reviews commits = Done aggs) /\
  (forall issues, H1.incident_mttr_hours_avg py issues <> Raised ZeroDivisionError) /\
  Analyzer.avg_cycle_time py [] = Done None /\
  Analyzer.avg_issue_ttr py [] [] = Done None /\
  Analyzer.avg_incident_mttr py [] [] = Done None /\
  H1.incident_mttr_hours_avg py [] = Done None.
Proof.
  split; [|split; [|split; [|split; [|split; [|split]]]]].
  - intros prs H. unfold Analyzer.avg_cycle_time, Analyzer.cycle_times.
    now rewrite (non_null_map_none _ H).
  - intros issues assigned H. unfold Analyzer.avg_issue_ttr, Analyzer.all_ttrs.
    now rewrite (non_null_map_none _ H).
  - intros issues assigned H. unfold Analyzer.avg_incident_mttr.
    rewrite incident_ttrs_deltas. unfold incident_deltas.
    rewrite non_null_map_none; [reflexivity|].
    apply Forall_forall. intros i Hi. apply filter_In in Hi as [Hin Hinc].
    rewrite Forall_forall in H. now apply H.
  - intros issues incidents ms Hi Hm Hnone. unfold H1.incident_mttr_hours_avg.
    rewrite Hi, Hm. now rewrite (non_null_all_none Hnone).
  - apply aggregates_total.
  - intros issues. unfold H1.incident_mttr_hours_avg.
    destruct (H1.incident_issues issues) as [incidents|e|] eqn:Hi.
    + destruct (H1.mttrs py incidents) as [ms|e|] eqn:Hm.
      * apply average_never_raises.
      * intros H. injection H as ->. revert Hm. clear.
        induction incidents as [|i rest IH]; simpl; [discriminate|].
        unfold H1.calc_mttr_hours.
        destruct (negb (truthy (H1.is_created_at i)) || negb (truthy (H1.is_closed_at i))).
        -- destruct (H1.mttrs py rest); try discriminate. exact IH.
        -- destruct (fromisoformat py _); [|discriminate].
           destruct (fromisoformat py _); [|discriminate].
           destruct (H1.mttrs py rest); try discriminate. exact IH.
      * discriminate.
    + intros H. injection H as ->. revert Hi. clear.
      induction issues as [|i rest IH]; simpl; [discriminate|].
      destruct (H1.label_strings (H1.is_labels i)) as [labels|e|] eqn:Hl.
      * destruct (H1.incident_issues rest); try discriminate. exact IH.
      * intros H. injection H as ->. revert Hl. clear.
        induction (H1.is_labels i) as [|[s|] l IH]; simpl; try discriminate.
        destruct (H1.label_strings l); try discriminate. exact IH.
      * discriminate.
    + discriminate.
  - repeat split; reflexivity.
Qed.

(** Two open issues: nothing to average. *)
Lemma averages_null_when_empty_witness :
  Analyzer.avg_issue_ttr Sample.python [issue_with None true; issue_with None false] []
  = Done None.
Proof.
  apply (proj1 (proj2 (averages_null_when_empty Sample.python))).
  repeat constructor.
Defined.

(** ** The repositories contributed to *)

Lemma str_lt_irrefl (s : string) : ~ str_lt s s.
Proof.
  exact (StrictOrder_Irreflexive (R := String_as_OT.lt) s).
Qed.

Lemma str_lt_trans (a b c : string) : str_lt a b -> str_lt b c -> str_lt a c.
Proof.
  exact (StrictOrder_Transitive (R := String_as_OT.lt) a b c).
Qed.

Lemma insert_In (s x : string) (l : list string) :
  In x (Analyzer.insert s l) <-> x = s \/ In x l.
Proof.
  induction l as [|h t IH]; simpl.
  - intuition.
  - destruct (String_as_OT.compare_spec s h) as [E|L|G]; simpl.
    + hnf in E. subst h. intuition.
    + intuition.
    + rewrite IH. intuition.
Qed.

Lemma insert_sorted (s : string) (l : list string) :
  StronglySorted str_lt l -> StronglySorted str_lt (Analyzer.insert s l).
Proof.
  induction 1 as [|h t Hs IH Hall]; simpl.
  - constructor; constructor.
  - destruct (String_as_OT.compare_spec s h) as [E|L|G].
    + now constructor.
    + constructor; [now constructor|]. constructor; [exact L|].
      apply Forall_forall. intros y Hy. rewrite Forall_forall in Hall.
      apply (str_lt_trans L). now apply Hall.
    + constructor; [exact IH|]. apply Forall_forall. intros y Hy.
      apply insert_In in Hy as [-> | Hy]; [exact G|].
      rewrite Forall_forall in Hall. now apply Hall.
Qed.

Lemma sorted_set_In (x : string) (l : list string) :
  In x (Analyzer.sorted_set l) <-> In x l.
Proof.
  induction l as [|h t IH]; simpl; [reflexivity|].
  rewrite insert_In, IH. intuition.
Qed.

Lemma sorted_set_sorted (l : list string) : StronglySorted str_lt (Analyzer.sorted_set l).
Proof.
  induction l as [|h t IH]; simpl; [constructor | now apply insert_sorted].
Qed.

Lemma sorted_NoDup (l : list string) : StronglySorted str_lt l -> NoDup l.
Proof.
  induction 1 as [|h t Hs IH Hall]; constructor; [|exact IH].
  intros Hin. rewrite Forall_forall in Hall. exact (str_lt_irrefl (Hall _ Hin)).
Qed.

(** An ascending list without repetition is determined by its
    elements. *)
Lemma sorted_unique (l1 : list string) :
  forall l2, StronglySorted str_lt l1 -> StronglySorted str_lt l2 ->
             (forall x, In x l1 <-> In x l2) -> l1 = l2.
Proof.
  induction l1 as [|a t1 IH]; intros [|b t2] H1 H2 Hin.
  - reflexivity.
  - destruct (proj2 (Hin b) (or_introl eq_refl)).
  - destruct (proj1 (Hin a) (or_introl eq_refl)).
  - apply StronglySorted_inv in H1 as [Hs1 Ha]. apply StronglySorted_inv in H2 as [Hs2 Hb].
    rewrite Forall_forall in Ha, Hb.
    assert (a = b) as ->.
    { destruct (proj1 (Hin a) (or_introl eq_refl)) as [E | Hat2]; [now symmetry|].
      destruct (proj2 (Hin b) (or_introl eq_refl)) as [E | Hbt1]; [assumption|].
      exfalso. apply (str_lt_irrefl (s := a)).
      apply (str_lt_trans (Ha _ Hbt1) (Hb _ Hat2)). }
    f_equal. apply IH; trivial. intros x. split; intros Hx.
    + destruct (proj1 (Hin x) (or_intror Hx)) as [E | H]; [|exact H].
      subst x. exfalso. exact (str_lt_irrefl (Ha _ Hx)).
    + destruct (proj2 (Hin x) (or_intror Hx)) as [E | H]; [|exact H].
      subst x. exfalso. exact (str_lt_irrefl (Hb _ Hx)).
Qed.

Lemma truthy_strings_In (s : string) (l : list (option string)) :
  In s (Analyzer.truthy_strings l) <-> s <> "" /\ In (Some s) l.
Proof.
  unfold Analyzer.truthy_strings. rewrite in_flat_map. split.
  - intros [[[|c t]|] [Hin Hs]]; simpl in Hs; try contradiction.
    destruct Hs as [<- | []]. split; [discriminate | exact Hin].
  - intros [Hne Hin]. exists (Some s). split; [exact Hin|].
    destruct s; [contradiction | now left].
Qed.

Lemma repos_contributed_In prs commits (r : string) :
  In r (Analyzer.repos_contributed prs commits) <->
  r <> "" /\ In (Some r) (record_repos prs commits).
Proof.
  unfold Analyzer.repos_contributed. rewrite sorted_set_In. apply truthy_strings_In.
Qed.

(** C9: the roll-up holds exactly the non-null (and non-empty)
    repository identifiers of the pull request records and the commit
    records, each once, in ascending order, and is the same whatever the
    order of the records. *)
Theorem repos_contributed_spec (prs : list Analyzer.PullRecord)
    (commits : list Analyzer.CommitRecord) :
  (forall r, In r (Analyzer.repos_contributed prs commits) <->
             r <> "" /\
             ((exists p, In p prs /\ Analyzer.pr_repo p = r) \/
              (exists c, In c commits /\ Analyzer.cr_repo c = Some r))) /\
  NoDup (Analyzer.repos_contributed prs commits) /\
  StronglySorted str_lt (Analyzer.repos_contributed prs commits) /\
  (forall prs' commits',
      Permutation prs prs' -> Permutation commits commits' ->
      Analyzer.repos_contributed prs' commits' = Analyzer.repos_contributed prs commits).
Proof.
  assert (Hs : forall p c, StronglySorted str_lt (Analyzer.repos_contributed p c)).
  { intros p c. apply sorted_set_sorted. }
  split; [|split; [|split]].
  - intros r. rewrite repos_contributed_In. unfold record_repos.
    rewrite in_app_iff, !in_map_iff. split.
    + intros [Hne [[p [E Hp]] | [c [E Hc]]]]; (split; [exact Hne|]).
      * left. exists p. split; [exact Hp | congruence].
      * right. now exists c.
    + intros [Hne [[p [Hp E]] | [c [Hc E]]]]; (split; [exact Hne|]).
      * left. exists p. split; [congruence | exact Hp].
      * right. now exists c.
  - apply sorted_NoDup, Hs.
  - apply Hs.
  - intros prs' commits' Hp Hc. apply sorted_unique; try apply Hs.
    intros x. rewrite !repos_contributed_In. unfold record_repos.
    rewrite !in_app_iff, !in_map_iff.
    split; intros [Hne [[p [E H]] | [c [E H]]]]; (split; [exact Hne|]).
    + left. exists p. split; [exact E|]. now apply (Permutation_in _ (Permutation_sym Hp)).
    + right. exists c. split; [exact E|]. now apply (Permutation_in _ (Permutation_sym Hc)).
    + left. exists p. split; [exact E|]. now apply (Permutation_in _ Hp).
    + right. exists c. split; [exact E|]. now apply (Permutation_in _ Hc).
Qed.

Example repos_contributed_example :
  Analyzer.sorted_set
    (Analyzer.truthy_strings [Some "b/x"; Some "a/y"; None; Some "b/x"; Some ""; Some "a/y"])
  = ["a/y"; "b/x"].
Proof. reflexivity. Qed.

(** ** Commits are deduplicated before they are enriched *)

Lemma mem_In (s : string) (l : list string) : Analyzer.mem s l = true <-> In s l.
Proof.
  unfold Analyzer.mem. rewrite existsb_exists. split.
  - intros [x [Hin E]]. apply String.eqb_eq in E. now subst x.
  - intros Hin. exists s. split; [exact Hin | apply String.eqb_refl].
Qed.

(** The loop of [analyze] is the enrichment of the deduplicated list. *)
Lemma commits_loop_dedupe (items : list Item) :
  forall seen acc env tr,
    Analyzer.commits_loop items seen acc env tr = enrich_all (dedupe seen items) acc env tr.
Proof.
  induction items as [|item rest IH]; intros seen acc env tr; simpl; [reflexivity|].
  destruct (it_sha item) as [[|c sha]|]; try apply IH.
  destruct (Analyzer.mem (String c sha) seen); [apply IH|].
  simpl. unfold bind.
  destruct (Analyzer.commit_enrich item (String c sha) env tr) as [[rec|e|] tr1];
    [apply IH | reflexivity | reflexivity].
Qed.

Lemma dedupe_In (items : list Item) :
  forall seen s,
    In s (map snd (dedupe seen items)) <->
    s <> "" /\ In (Some s) (map it_sha items) /\ ~ In s seen.
Proof.
  induction items as [|item rest IH]; intros seen s; simpl; [tauto|].
  destruct (it_sha item) as [[|c sha]|] eqn:E.
  - rewrite IH. split; [tauto|]. intros [Hne [[H | H] Hs]]; [congruence | tauto].
  - destruct (Analyzer.mem (String c sha) seen) eqn:Hm.
    + apply mem_In in Hm. rewrite IH. split; [tauto|].
      intros [Hne [[H | H] Hs]]; [|tauto]. injection H as <-. contradiction.
    + assert (Hn : ~ In (String c sha) seen).
      { intros H. apply mem_In in H. congruence. }
      simpl. rewrite IH. simpl. split.
      * intros [<- | [Hne [Hin Hs]]]; [split; [discriminate | tauto] | tauto].
      * intros [Hne [[H | Hin] Hs]].
        -- left. now injection H.
        -- destruct (string_dec (String c sha) s) as [-> | D]; [now left | right; tauto].
  - rewrite IH. split; [tauto|]. intros [Hne [[H | H] Hs]]; [discriminate | tauto].
Qed.

Lemma dedupe_NoDup (items : list Item) :
  forall seen, NoDup (map snd (dedupe seen items)).
Proof.
  induction items as [|item rest IH]; intros seen; simpl; [constructor|].
  destruct (it_sha item) as [[|c sha]|]; try apply IH.
  destruct (Analyzer.mem (String c sha) seen); [apply IH|].
  simpl. constructor; [|apply IH].
  intros H. apply dedupe_In in H as [_ [_ H]]. apply H. now left.
Qed.

Lemma commit_enrich_sha (item : Item) (sha : string) env tr rec tr' :
  Analyzer.commit_enrich item sha env tr = (Done rec, tr') -> Analyzer.cr_sha rec = sha.
Proof.
  unfold Analyzer.commit_enrich. intros H.
  apply bind_done in H as [data [tr1 [_ H]]].
  apply bind_done in H as [detail [tr2 [_ H]]].
  apply bind_done in H as [prs [tr3 [_ H]]].
  apply bind_done in H as [[] [tr4 [_ H]]].
  injection H as <- _. reflexivity.
Qed.

Lemma enrich_all_shas (todo : list (Item * string)) :
  forall acc env tr commits tr',
    enrich_all todo acc env tr = (Done commits, tr') ->
    map Analyzer.cr_sha commits = (map Analyzer.cr_sha acc ++ map snd todo)%list.
Proof.
  induction todo as [|[item sha] rest IH]; intros acc env tr commits tr' H; simpl in H.
  - injection H as <- _. now rewrite app_nil_r.
  - apply bind_done in H as [rec [tr1 [He H]]].
    apply IH in H. rewrite H, map_app. simpl.
    rewrite (commit_enrich_sha _ _ _ _ He), <- app_assoc. reflexivity.
Qed.

(** *** Counting requests *)

Lemma gets_app (a b : Trace) : gets (a ++ b)%list = (gets a ++ gets b)%list.
Proof.
  unfold gets. apply flat_map_app.
Qed.

Lemma at_most_silent {A} (m : M A) :
  (forall env tr, snd (m env tr) = tr) -> at_most 0 m.
Proof.
  intros Hm env tr o tr' H. exists []. rewrite app_nil_r. split; [|simpl; lia].
  specialize (Hm env tr). rewrite H in Hm. now simpl in Hm.
Qed.

Lemma at_most_ret {A} (a : A) : at_most 0 (ret a).
Proof. now apply at_most_silent. Qed.

Lemma at_most_raise {A} (e : exn) : at_most 0 (@raise A e).
Proof. now apply at_most_silent. Qed.

Lemma at_most_lift {A} (o : outcome A) : at_most 0 (lift o).
Proof. now apply at_most_silent. Qed.

Lemma at_most_sleep (ms : Z) : at_most 0 (sleep ms).
Proof.
  intros env tr o tr' H. injection H as _ <-. exists [EvSleep ms]. split; [reflexivity | simpl; lia].
Qed.

Lemma at_most_urlopen (req : Request) : at_most 1 (urlopen req).
Proof.
  intros env tr o tr' H. unfold urlopen in H. exists [EvGet req].
  split; [|simpl; lia]. destruct (respond env tr req); now injection H as _ <-.
Qed.

Lemma at_most_le {A} (n n' : nat) (m : M A) : (n <= n')%nat -> at_most n m -> at_most n' m.
Proof.
  intros Hle Hm env tr o tr' H. destruct (Hm _ _ _ _ H) as [evs [E L]].
  exists evs. split; [exact E | lia].
Qed.

Lemma at_most_bind {A B} (n1 n2 : nat) (m : M A) (k : A -> M B) :
  at_most n1 m -> (forall a, at_most n2 (k a)) -> at_most (n1 + n2) (bind m k).
Proof.
  intros Hm Hk env tr o tr' H. unfold bind in H.
  destruct (m env tr) as [[a|e|] tr1] eqn:E; destruct (Hm _ _ _ _ E) as [ev1 [-> L1]].
  - destruct (Hk a _ _ _ _ H) as [ev2 [-> L2]]. exists (ev1 ++ ev2)%list.
    rewrite app_assoc, gets_app, length_app. split; [reflexivity | lia].
  - injection H as _ <-. exists ev1. split; [reflexivity | lia].
  - injection H as _ <-. exists ev1. split; [reflexivity | lia].
Qed.

Lemma at_most_try {A} (n1 n2 : nat) (m : M A) (handler : exn -> M A) :
  at_most n1 m -> (forall e, at_most n2 (handler e)) -> at_most (n1 + n2) (try_except m handler).
Proof.
  intros Hm Hh env tr o tr' H. unfold try_except in H.
  destruct (m env tr) as [[a|e|] tr1] eqn:E; destruct (Hm _ _ _ _ E) as [ev1 [-> L1]].
  - injection H as _ <-. exists ev1. split; [reflexivity | lia].
  - destruct (Hh e _ _ _ _ H) as [ev2 [-> L2]]. exists (ev1 ++ ev2)%list.
    rewrite app_assoc, gets_app, length_app. split; [reflexivity | lia].
  - injection H as _ <-. exists ev1. split; [reflexivity | lia].
Qed.

Lemma at_most_http_get url params override : at_most 1 (Analyzer.http_get url params override).
Proof.
  unfold Analyzer.http_get. apply (at_most_bind (n1 := 1) (n2 := 0)); [apply at_most_urlopen|].
  intros [data headers]. destruct data; (apply at_most_raise || apply at_most_ret).
Qed.

Lemma at_most_commit_enrich (item : Item) (sha : string) :
  at_most 2 (Analyzer.commit_enrich item sha).
Proof.
  unfold Analyzer.commit_enrich.
  apply (at_most_bind (n1 := 1) (n2 := 1)).
  { destruct (truthy (Analyzer.commit_repo item)).
    - apply (at_most_try (n1 := 1) (n2 := 0)); [|intros e; apply at_most_ret].
      unfold Analyzer.get_commit_details.
      apply (at_most_bind (n1 := 1) (n2 := 0)); [apply at_most_http_get|].
      intros [c h]. apply at_most_ret.
    - apply (at_most_le (n := 0)); [lia | apply at_most_ret]. }
  intros data. apply (at_most_bind (n1 := 0) (n2 := 1)); [apply at_most_lift|].
  intros detail. apply (at_most_bind (n1 := 1) (n2 := 0)).
  { destruct (truthy (Analyzer.commit_repo item)).
    - apply (at_most_try (n1 := 1) (n2 := 0)); [|intros e; apply at_most_ret].
      unfold Analyzer.get_pulls_for_commit.
      apply (at_most_bind (n1 := 1) (n2 := 0)); [apply at_most_http_get|].
      intros [d h]. destruct d; apply at_most_ret.
    - apply (at_most_le (n := 0)); [lia | apply at_most_ret]. }
  intros prs. apply (at_most_bind (n1 := 0) (n2 := 0)); [apply at_most_sleep|].
  intros _. apply at_most_ret.
Qed.

Lemma at_most_enrich_all (todo : list (Item * string)) :
  forall acc, at_most (2 * List.length todo) (enrich_all todo acc).
Proof.
  induction todo as [|[item sha] rest IH]; intros acc; simpl enrich_all.
  - apply at_most_ret.
  - apply (at_most_le (n := 2 + 2 * List.length rest)); [simpl; lia|].
    apply at_most_bind; [apply at_most_commit_enrich | intros rec; apply IH].
Qed.

(** However the loop over the commits ends, it has made at most two
    requests (the detail and the pull requests) for each distinct hash. *)
Lemma commits_loop_requests (commit_items : list Item) :
  at_most (2 * List.length (dedupe [] commit_items))
    (Analyzer.commits_loop commit_items [] []).
Proof.
  intros env tr o tr' H. rewrite commits_loop_dedupe in H.
  exact (at_most_enrich_all _ _ _ _ H).
Qed.

(** C5: whatever the two commit searches return, the loop enriches the
    deduplicated list only (one item per hash, the first), so no fetch is
    made for a repeated hash: at most two requests per distinct hash; and
    the merged collection holds each hash at most once. *)
Theorem commits_deduplicated (by_author by_committer : list Item) (env : Env) (tr : Trace) :
  let commit_items := (by_author ++ by_committer)%list in
  Analyzer.commits_loop commit_items [] [] env tr =
    enrich_all (dedupe [] commit_items) [] env tr /\
  NoDup (map snd (dedupe [] commit_items)) /\
  (forall s, In s (map snd (dedupe [] commit_items)) <->
             s <> "" /\ In (Some s) (map it_sha commit_items)) /\
  (forall commits tr',
      Analyzer.commits_loop commit_items [] [] env tr = (Done commits, tr') ->
      map Analyzer.cr_sha commits = map snd (dedupe [] commit_items) /\
      NoDup (map Analyzer.cr_sha commits)) /\
  (forall o tr',
      Analyzer.commits_loop commit_items [] [] env tr = (o, tr') ->
      exists evs, tr' = (tr ++ evs)%list /\
                  (List.length (gets evs) <= 2 * List.length (dedupe [] commit_items))%nat).
Proof.
  intros commit_items. split; [apply commits_loop_dedupe|].
  split; [apply dedupe_NoDup|]. split; [|split].
  - intros s. rewrite dedupe_In. simpl. tauto.
  - intros commits tr' H. rewrite commits_loop_dedupe in H.
    apply enrich_all_shas in H. simpl in H. rewrite H.
    split; [reflexivity | apply dedupe_NoDup].
  - intros o tr' H. exact (@commits_loop_requests commit_items env tr o tr' H).
Qed.

(** ** A detail request that fails *)

(** C7, as stated, fails: in the H1 report a pull request whose detail
    request fails is dropped from the result. *)
Lemma fetch_prs_drops_failed_item :
  H1.fetch_prs_loop Sample.python [demo_pr_item] [] failing_env [] = h1_failed_run /\
  fst h1_failed_run = Done [].
Proof.
  split; [vm_compute; reflexivity | reflexivity].
Qed.

Lemma pr_step_fetch_failed py (item : Item) (repo : string) (number : Z) (e : exn)
    (env : Env) (tr tr1 : Trace) (cycle : option Z) :
  Analyzer.safe_repo_full_name item = Some repo ->
  it_number item = Some number -> number <> 0%Z ->
  Analyzer.get_pr_details repo number env tr = (Raised e, tr1) ->
  Analyzer.cycle_time py (it_created_at item) None (it_closed_at item) = Done cycle ->
  Analyzer.pr_step py item env tr =
    (Done (Some (Analyzer.pull_record repo (Analyzer.fallback_pull item e) cycle)),
     (tr1 ++ [EvSleep 80])%list).
Proof.
  intros Hrepo Hnum Hnz Hfetch Hcycle. unfold Analyzer.pr_step.
  rewrite Hrepo, Hnum. destruct (Z.eqb_spec number 0) as [E|_]; [contradiction|].
  unfold bind at 1. unfold try_except. rewrite Hfetch.
  cbn [ret as_pull lift bind Analyzer.fallback_pull pj_created_at pj_merged_at pj_closed_at].
  rewrite Hcycle. reflexivity.
Qed.

Lemma commit_enrich_fetch_failed (item : Item) (sha repo : string) (e : exn)
    (env : Env) (tr tr1 : Trace) :
  Analyzer.commit_repo item = Some repo -> truthy (Some repo) = true ->
  Analyzer.get_commit_details repo sha env tr = (Raised e, tr1) ->
  exists prs tr',
    Analyzer.commit_enrich item sha env tr =
      (Done (Analyzer.commit_record item (Some repo) sha (Analyzer.failed_commit e) prs), tr').
Proof.
  intros Hrepo Htruthy Hfetch. unfold Analyzer.commit_enrich.
  rewrite Hrepo, Htruthy. cbn [or_empty].
  unfold bind at 1. unfold try_except at 1. rewrite Hfetch.
  cbn [ret as_commit lift bind].
  unfold try_except, bind, sleep, ret.
  destruct (Analyzer.get_pulls_for_commit repo sha env tr1) as [[prs|e'|] tr2] eqn:Hp.
  - exists prs. eexists. reflexivity.
  - exists []. eexists. reflexivity.
  - exfalso. revert Hp. unfold Analyzer.get_pulls_for_commit, Analyzer.http_get, bind, urlopen.
    destruct (respond env tr1 _) as [[| | | |] h|e']; discriminate.
Qed.

(** C7, amended: when the detail request of a pull request or commit
    fails, the analyzer neither aborts nor drops the item: it appends a
    partial record with zero or null in the fields the detail would have
    given and goes on with the remaining items (for a pull request,
    provided the timestamps of the search item parse); the H1 report skips
    such a pull request and goes on with the remaining items. *)
Theorem detail_failure_isolated (py : Python) :
  (forall (item : Item) (repo : string) (number : Z) (e : exn) (env : Env)
          (tr tr1 : Trace) (cycle : option Z) (rest : list Item)
          (acc : list Analyzer.PullRecord),
      Analyzer.safe_repo_full_name item = Some repo ->
      it_number item = Some number -> number <> 0%Z ->
      Analyzer.get_pr_details repo number env tr = (Raised e, tr1) ->
      Analyzer.cycle_time py (it_created_at item) None (it_closed_at item) = Done cycle ->
      let rec := Analyzer.pull_record repo (Analyzer.fallback_pull item e) cycle in
      Analyzer.prs_loop py (item :: rest) acc env tr =
        Analyzer.prs_loop py rest (acc ++ [rec])%list env (tr1 ++ [EvSleep 80])%list /\
      Analyzer.pr_repo rec = repo /\
      Analyzer.pr_number rec = it_number item /\
      Analyzer.pr_title rec = it_title item /\
      Analyzer.pr_state rec = it_state item /\
      Analyzer.pr_created_at rec = it_created_at item /\
      Analyzer.pr_closed_at rec = it_closed_at item /\
      Analyzer.pr_html_url rec = it_html_url item /\
      Analyzer.pr_merged_at rec = None /\
      Analyzer.pr_additions rec = Some 0%Z /\
      Analyzer.pr_deletions rec = Some 0%Z /\
      Analyzer.pr_changed_files rec = Some 0%Z /\
      Analyzer.pr_commits rec = None /\
      Analyzer.pr_merge_commit_sha rec = None) /\
  (forall (item : Item) (sha repo : string) (e : exn) (env : Env) (tr tr1 : Trace)
          (rest : list Item) (seen : list string) (acc : list Analyzer.CommitRecord),
      it_sha item = Some sha -> sha <> "" -> Analyzer.mem sha seen = false ->
      Analyzer.commit_repo item = Some repo -> repo <> "" ->
      Analyzer.get_commit_details repo sha env tr = (Raised e, tr1) ->
      exists prs tr',
        let rec := Analyzer.commit_record item (Some repo) sha (Analyzer.failed_commit e) prs in
        Analyzer.commits_loop (item :: rest) seen acc env tr =
          Analyzer.commits_loop rest (sha :: seen) (acc ++ [rec])%list env tr' /\
        Analyzer.cr_repo rec = Some repo /\
        Analyzer.cr_sha rec = sha /\
        Analyzer.cr_html_url rec = it_html_url item /\
        Analyzer.cr_message rec = it_commit_message item /\
        Analyzer.cr_date rec = None /\
        Analyzer.cr_additions rec = 0%Z /\
        Analyzer.cr_deletions rec = 0%Z /\
        Analyzer.cr_total_changes rec = 0%Z /\
        Analyzer.cr_files_changed rec = 0%Z) /\
  (forall (it : Item) (pr_url : string) (e : exn) (env : Env) (tr tr1 : Trace)
          (rest : list Item) (prs : list H1.PullRecord),
      it_pull_request_url it = Some pr_url -> pr_url <> "" ->
      H1.github_get py pr_url [] env tr = (Raised e, tr1) ->
      H1.fetch_prs_loop py (it :: rest) prs env tr = H1.fetch_prs_loop py rest prs env tr1).
Proof.
  split; [|split].
  - intros item repo number e env tr tr1 cycle rest acc Hrepo Hnum Hnz Hfetch Hcycle rec.
    split; [|repeat split].
    simpl. unfold bind at 1.
    rewrite (@pr_step_fetch_failed py item repo number e env tr tr1 cycle Hrepo Hnum Hnz Hfetch Hcycle).
    reflexivity.
  - intros item sha repo e env tr tr1 rest seen acc Hsha Hne Hmem Hrepo Hrne Hfetch.
    assert (Htruthy : truthy (Some repo) = true) by (destruct repo; [contradiction | reflexivity]).
    destruct (@commit_enrich_fetch_failed item sha repo e env tr tr1 Hrepo Htruthy Hfetch)
      as [prs [tr' He]].
    exists prs, tr'. intros rec. split; [|repeat split].
    simpl. rewrite Hsha. destruct sha as [|c s]; [contradiction|]. rewrite Hmem.
    unfold bind at 1. rewrite He. reflexivity.
  - intros it pr_url e env tr tr1 rest prs Hurl Hne Hfetch.
    simpl. unfold bind at 1. unfold H1.fetch_pr_step. rewrite Hurl.
    destruct pr_url as [|c s]; [contradiction|]. cbn [truthy negb or_empty].
    unfold bind at 1. unfold try_except, bind at 1. rewrite Hfetch. reflexivity.
Qed.

(** The item of pull request 7 on a server where every request fails:
    one record, with zero line counts and the timestamps of the item. *)
Lemma detail_failure_isolated_witness :
  exists rec tr',
    Analyzer.prs_loop Sample.python [demo_pr_item] [] failing_env [] = (Done [rec], tr') /\
    Analyzer.pr_additions rec = Some 0%Z /\ Analyzer.pr_deletions rec = Some 0%Z /\
    Analyzer.pr_cycle_time_days rec = Some 200%Z.
Proof.
  destruct (proj1 (detail_failure_isolated Sample.python) demo_pr_item "octo/demo" 7%Z
              (HTTPError 500 "Internal Server Error" []) failing_env []
              (snd (Analyzer.get_pr_details "octo/demo" 7 failing_env []))
              (Some 200%Z) [] [] eq_refl eq_refl ltac:(discriminate) eq_refl eq_refl)
    as [Hloop _].
  eexists. eexists. split; [rewrite Hloop; reflexivity|].
  repeat split.
Defined.

(** ** Pagination *)

Lemma http_get_success url params override env tr body headers :
  respond env tr (Analyzer.request url params override) = Success body headers ->
  body <> JMalformed ->
  Analyzer.http_get url params override env tr =
    (Done (body, map (fun kv => (lower (fst kv), snd kv)) headers),
     (tr ++ [EvGet (Analyzer.request url params override)])%list).
Proof.
  intros Hr Hb. unfold Analyzer.http_get, bind, urlopen. rewrite Hr.
  destruct body; try reflexivity. contradiction.
Qed.

Lemma len_nonempty {A} (l : list A) : (0 < len l)%Z -> exists x xs, l = x :: xs.
Proof.
  destruct l as [|x xs]; [unfold len; simpl; lia | now exists x, xs].
Qed.

Lemma len_app {A} (a b : list A) : len (a ++ b)%list = (len a + len b)%Z.
Proof.
  unfold len. rewrite length_app. lia.
Qed.

(** With [r] pages to go before the cap, the loop of [search_issues] and
    [search_commits] makes [r] requests and returns. *)
Lemma search_loop_full env url override query :
  full_pages env ->
  forall (r fuel : nat) (page total : Z) (acc : list Item) (tr : Trace),
    (1 <= r)%nat -> (r <= fuel)%nat -> total = (1000 - 100 * Z.of_nat r)%Z ->
    exists items evs,
      Analyzer.search_loop fuel url override query page total acc env tr =
        (Done items, (tr ++ evs)%list) /\
      len items = (len acc + 100 * Z.of_nat r)%Z /\
      List.length (gets evs) = r.
Proof.
  intros Hfull. induction r as [|r IH]; intros fuel page total acc tr Hr Hfuel Htotal; [lia|].
  destruct fuel as [|fuel]; [lia|]. cbn [Analyzer.search_loop].
  set (params := [("q", query); ("per_page", str_of_Z 100); ("page", str_of_Z page)]).
  destruct (Hfull tr (Analyzer.request url params override)) as [items [headers [Hresp Hlen]]].
  unfold bind at 1.
  rewrite (http_get_success url params override env tr Hresp) by discriminate.
  cbn [get_items lift bind ret].
  destruct (len_nonempty items) as [x [xs E]]; [lia|].
  subst items. set (items := x :: xs) in *. cbv iota. rewrite Hlen.
  destruct (Nat.eq_dec r 0) as [-> | Hr0].
  - replace ((100 <? 100)%Z || (1000 <=? total + 100)%Z) with true
      by (symmetry; apply orb_true_iff; right; apply Z.leb_le; lia).
    exists (acc ++ items)%list, [EvGet (Analyzer.request url params override)].
    split; [reflexivity|]. split; [rewrite len_app; lia | reflexivity].
  - replace ((100 <? 100)%Z || (1000 <=? total + 100)%Z) with false
      by (symmetry; apply orb_false_iff; split; [reflexivity | apply Z.leb_gt; lia]).
    unfold bind at 1. unfold sleep at 1.
    destruct (IH fuel (page + 1)%Z (total + 100)%Z (acc ++ items)%list
                ((tr ++ [EvGet (Analyzer.request url params override)]) ++ [EvSleep 150])%list)
      as [res [evs [Hloop [Hres Hgets]]]]; try lia.
    exists res, ([EvGet (Analyzer.request url params override)] ++ [EvSleep 150] ++ evs)%list.
    split; [|split].
    + rewrite Hloop. f_equal. now rewrite <- !app_assoc.
    + rewrite Hres, len_app. lia.
    + simpl. now rewrite Hgets.
Qed.

Lemma github_get_success py url params env tr body headers :
  respond env tr (H1.request url params) = Success body headers ->
  body <> JMalformed ->
  H1.github_get py url params env tr =
    (Done (body, headers), (tr ++ [EvGet (H1.request url params)])%list).
Proof.
  intros Hr Hb. unfold H1.github_get, try_except, bind, urlopen. rewrite Hr.
  unfold H1.decode. destruct body; try reflexivity. contradiction.
Qed.

(** With [r] pages to go before page 10, the loop of [search_github]
    makes [r] requests and returns. *)
Lemma h1_search_loop_full py env url :
  full_pages env ->
  forall (r fuel : nat) (params : list (string * string)) (page : Z) (results : list Item)
         (tr : Trace),
    (1 <= r)%nat -> (r <= fuel)%nat -> page = (11 - Z.of_nat r)%Z ->
    exists items evs,
      H1.search_loop py fuel url params page results env tr = (Done items, (tr ++ evs)%list) /\
      len items = (len results + 100 * Z.of_nat r)%Z /\
      List.length (gets evs) = r.
Proof.
  intros Hfull. induction r as [|r IH]; intros fuel params page results tr Hr Hfuel Hpage; [lia|].
  destruct fuel as [|fuel]; [lia|]. cbn [H1.search_loop].
  set (params' := dict_set "page" (str_of_Z page) params).
  destruct (Hfull tr (H1.request url params')) as [items [headers [Hresp Hlen]]].
  unfold bind at 1.
  rewrite (github_get_success py url params' env tr Hresp) by discriminate.
  cbn [get_items lift bind ret]. rewrite Hlen.
  destruct (Nat.eq_dec r 0) as [-> | Hr0].
  - replace ((100 <? 100)%Z || (10 <=? page)%Z) with true
      by (symmetry; apply orb_true_iff; right; apply Z.leb_le; lia).
    exists (results ++ items)%list, [EvGet (H1.request url params')].
    split; [reflexivity|]. split; [rewrite len_app; lia | reflexivity].
  - replace ((100 <? 100)%Z || (10 <=? page)%Z) with false
      by (symmetry; apply orb_false_iff; split; [reflexivity | apply Z.leb_gt; lia]).
    destruct (IH fuel params' (page + 1)%Z (results ++ items)%list
                (tr ++ [EvGet (H1.request url params')])%list)
      as [res [evs [Hloop [Hres Hgets]]]]; try lia.
    exists res, ([EvGet (H1.request url params')] ++ evs)%list.
    split; [|split].
    + rewrite Hloop. f_equal. now rewrite <- app_assoc.
    + rewrite Hres, len_app. lia.
    + simpl. now rewrite Hgets.
Qed.

Lemma paginate_loop_diverges {Elem} (select : Payload -> outcome (list Elem)) env :
  always_more select env ->
  forall fuel url params page acc tr,
    fst (Analyzer.paginate_loop select fuel url params page acc env tr) = Diverged.
Proof.
  intros Hmore. induction fuel as [|fuel IH]; intros url params page acc tr; [reflexivity|].
  cbn [Analyzer.paginate_loop].
  destruct (Hmore tr (Analyzer.request url params None))
    as [body [headers [x [xs [Hresp [Hb [Hsel Hnext]]]]]]].
  unfold bind at 1. rewrite (http_get_success url params None env tr Hresp Hb).
  unfold bind at 1. unfold lift at 1. rewrite Hsel. cbv iota. rewrite Hnext.
  cbn [negb]. unfold bind at 1. unfold sleep at 1. apply IH.
Qed.

Lemma h1_paginate_loop_diverges py env :
  full_lists env ->
  forall fuel url params page results tr,
    fst (H1.paginate_loop py fuel url params page results env tr) = Diverged.
Proof.
  intros Hfull. induction fuel as [|fuel IH]; intros url params page results tr; [reflexivity|].
  cbn [H1.paginate_loop].
  set (merged := dict_set "page" (str_of_Z page) (dict_set "per_page" "100" params)).
  destruct (Hfull tr (H1.request url merged)) as [l [headers [Hresp Hlen]]].
  unfold bind at 1. rewrite (github_get_success py url merged env tr Hresp) by discriminate.
  cbv iota beta.
  destruct (Z.ltb_spec (len l) 100) as [Hlt|_]; [lia|]. apply IH.
Qed.

Lemma full_env_full_pages : full_pages full_env.
Proof.
  intros tr req. exists hundred_items, [("Link", next_link)]. split; reflexivity.
Qed.

Lemma full_env_always_more : always_more get_items full_env.
Proof.
  intros tr req.
  exists (JSearch (Some hundred_items)), [("Link", next_link)], Sample.item0,
         (repeat Sample.item0 99).
  split; [reflexivity|]. split; [discriminate|]. split; reflexivity.
Qed.

(** C3, as stated, fails: against an endpoint that always returns full
    pages, [paginate] of the analyzer never returns; given fuel for eleven
    turns it has sent eleven requests, one more than the cap. *)
Lemma paginate_has_no_cap :
  (~ exists fuel items tr',
       Analyzer.paginate get_items fuel "https://api.github.com/search/issues"
         [("q", "is:pr")] full_env [] = (Done items, tr')) /\
  List.length
    (gets (snd (Analyzer.paginate get_items 11 "https://api.github.com/search/issues"
                  [("q", "is:pr")] full_env []))) = 11%nat.
Proof.
  split.
  - intros [fuel [items [tr' H]]].
    pose proof (paginate_loop_diverges full_env_always_more fuel
                  "https://api.github.com/search/issues"
                  (dict_set "page" (str_of_Z 1) (dict_set "per_page" (str_of_Z 100)
                                                   [("q", "is:pr")]))
                  1%Z [] []) as D.
    unfold Analyzer.paginate in H. rewrite H in D. discriminate D.
  - vm_compute. reflexivity.
Qed.

(** C3, amended: against a search endpoint that always returns full
    pages, each search routine ([search_issues], [search_commits],
    [search_github]) returns after ten requests with a thousand items,
    given fuel for ten turns; the two [paginate] routines have no cap: as
    long as every page is full (and, for the analyzer, links to a next
    page) they never return. *)
Theorem pagination_cap (py : Python) :
  (forall env fuel query tr,
      full_pages env -> (10 <= fuel)%nat ->
      exists items evs,
        Analyzer.search_issues fuel query env tr = (Done items, (tr ++ evs)%list) /\
        len items = 1000%Z /\ List.length (gets evs) = 10%nat) /\
  (forall env fuel query tr,
      full_pages env -> (10 <= fuel)%nat ->
      exists items evs,
        Analyzer.search_commits fuel query env tr = (Done items, (tr ++ evs)%list) /\
        len items = 1000%Z /\ List.length (gets evs) = 10%nat) /\
  (forall env fuel query sort order tr,
      full_pages env -> (10 <= fuel)%nat ->
      exists items evs,
        H1.search_github py fuel query sort order env tr = (Done items, (tr ++ evs)%list) /\
        len items = 1000%Z /\ List.length (gets evs) = 10%nat) /\
  (forall Elem (select : Payload -> outcome (list Elem)) env fuel url params tr,
      always_more select env ->
      fst (Analyzer.paginate select fuel url params env tr) = Diverged) /\
  (forall env fuel url params tr,
      full_lists env ->
      fst (H1.paginate py fuel url params env tr) = Diverged).
Proof.
  split; [|split; [|split; [|split]]].
  - intros env fuel query tr Hfull Hfuel. unfold Analyzer.search_issues.
    destruct (search_loop_full (GITHUB_API ++ "/search/issues") None query Hfull
                (r := 10) (fuel := fuel) 1%Z (total := 0%Z) [] tr)
      as [items [evs [H [Hl Hg]]]]; try lia.
    exists items, evs. split; [exact H|]. split; [exact Hl | exact Hg].
  - intros env fuel query tr Hfull Hfuel. unfold Analyzer.search_commits.
    destruct (search_loop_full (GITHUB_API ++ "/search/commits")
                (Some "application/vnd.github.text-match+json") query Hfull
                (r := 10) (fuel := fuel) 1%Z (total := 0%Z) [] tr)
      as [items [evs [H [Hl Hg]]]]; try lia.
    exists items, evs. split; [exact H|]. split; [exact Hl | exact Hg].
  - intros env fuel query sort order tr Hfull Hfuel. unfold H1.search_github.
    match goal with
    | |- context [H1.search_loop py fuel ?u ?p 1%Z [] env tr] =>
        destruct (h1_search_loop_full py u Hfull (r := 10) (fuel := fuel) p (page := 1%Z) [] tr)
          as [items [evs [H [Hl Hg]]]]; try lia
    end.
    exists items, evs. split; [exact H|]. split; [exact Hl | exact Hg].
  - intros Elem select env fuel url params tr Hmore. unfold Analyzer.paginate.
    now apply paginate_loop_diverges.
  - intros env fuel url params tr Hfull. unfold H1.paginate.
    now apply h1_paginate_loop_diverges.
Qed.

(** The search of the analyzer against the endpoint above. *)
Lemma pagination_cap_witness :
  exists items evs,
    Analyzer.search_issues 10 "is:pr" full_env [] = (Done items, ([] ++ evs)%list) /\
    len items = 1000%Z /\ List.length (gets evs) = 10%nat.
Proof.
  exact (proj1 (pagination_cap Sample.python) full_env 10%nat "is:pr" []
           full_env_full_pages (le_n 10)).
Defined.

(** ** Rate limiting *)

(** C4, as stated, fails: [http_get] of the analyzer, refused for rate
    limiting, sends one request and lets the failure through: no sleep,
    no retry. *)
Lemma http_get_does_not_retry :
  Analyzer.http_get "https://api.github.com/repos/octo/demo/pulls/7" [] None
    rate_limited_env [] =
  (Raised (HTTPError 403 "API rate limit exceeded for user"
             [("Content-Type", "application/json"); ("X-RateLimit-Reset", "1005")]),
   [EvGet (Analyzer.request "https://api.github.com/repos/octo/demo/pulls/7" [] None)]).
Proof.
  reflexivity.
Qed.

Lemma github_get_retry py url params env tr body headers reset reset_s :
  respond env tr (H1.request url params) = Failure (HTTPError 403 body headers) ->
  contains "rate limit" (lower body) = true ->
  message_get "X-RateLimit-Reset" headers = Some reset -> reset <> "" ->
  py_int py reset = Some reset_s ->
  let req := H1.request url params in
  let now := clock env (tr ++ [EvGet req])%list in
  let wait_s := Z.max 0 (reset_s - now + 2) in
  let tr2 := (tr ++ [EvGet req; EvSleep (1000 * Z.min wait_s 60)])%list in
  H1.github_get py url params env tr =
    (retry_result (respond env tr2 req), (tr2 ++ [EvGet req])%list).
Proof.
  intros Hresp Hbody Hreset Hne Hint req now wait_s tr2.
  unfold H1.github_get, try_except. unfold bind at 1. unfold urlopen at 1.
  rewrite Hresp. rewrite Z.eqb_refl, Hbody, Hreset. cbn [andb]. fold req.
  destruct reset as [|c s]; [contradiction|]. rewrite Hint.
  unfold bind, time_time, sleep, urlopen. fold now. fold wait_s.
  replace ((tr ++ [EvGet req]) ++ [EvSleep (1000 * Z.min wait_s 60)])%list with tr2
    by (unfold tr2; now rewrite <- app_assoc).
  unfold retry_result, H1.decode.
  destruct (respond env tr2 req) as [[| | | |] h|e]; reflexivity.
Qed.

(** C4, amended: [github_get] of the H1 report, refused with status 403
    and a body that mentions the rate limit, reads the reset time from the
    response headers; where the header is an integer it sleeps
    min(max(0, reset - now + 2), 60) seconds, at most 60, and sends the
    request once more; whatever the retry gives is the result, a failure
    included.  Where the header is not an integer, [int(reset)] raises
    [ValueError] after the one request: no sleep, no retry.  Without the
    header, or on any other failure, the failure goes to the caller at
    once; and [http_get] of the analyzer never retries. *)
Theorem rate_limit_retry (py : Python) :
  (forall url params env tr body headers reset reset_s,
      respond env tr (H1.request url params) = Failure (HTTPError 403 body headers) ->
      contains "rate limit" (lower body) = true ->
      message_get "X-RateLimit-Reset" headers = Some reset -> reset <> "" ->
      py_int py reset = Some reset_s ->
      let req := H1.request url params in
      let now := clock env (tr ++ [EvGet req])%list in
      let wait_s := Z.min (Z.max 0 (reset_s - now + 2)) 60 in
      let tr2 := (tr ++ [EvGet req; EvSleep (1000 * wait_s)])%list in
      H1.github_get py url params env tr =
        (retry_result (respond env tr2 req), (tr2 ++ [EvGet req])%list) /\
      (0 <= wait_s <= 60)%Z /\
      (forall e, respond env tr2 req = Failure e ->
                 fst (H1.github_get py url params env tr) = Raised e)) /\
  (forall url params env tr body headers reset,
      respond env tr (H1.request url params) = Failure (HTTPError 403 body headers) ->
      contains "rate limit" (lower body) = true ->
      message_get "X-RateLimit-Reset" headers = Some reset -> reset <> "" ->
      py_int py reset = None ->
      H1.github_get py url params env tr =
        (Raised ValueError, (tr ++ [EvGet (H1.request url params)])%list)) /\
  (forall url params env tr e,
      respond env tr (H1.request url params) = Failure e ->
      match e with
      | HTTPError code body headers =>
          (code =? 403)%Z && contains "rate limit" (lower body) = false \/
          truthy (message_get "X-RateLimit-Reset" headers) = false
      | _ => True
      end ->
      H1.github_get py url params env tr =
        (Raised e, (tr ++ [EvGet (H1.request url params)])%list)) /\
  (forall url params override env tr e,
      respond env tr (Analyzer.request url params override) = Failure e ->
      Analyzer.http_get url params override env tr =
        (Raised e, (tr ++ [EvGet (Analyzer.request url params override)])%list)).
Proof.
  split; [|split; [|split]].
  - intros url params env tr body headers reset reset_s Hresp Hbody Hreset Hne Hint
           req now wait_s tr2.
    pose proof (github_get_retry py url params env tr Hresp Hbody Hreset Hne Hint) as H.
    cbv zeta in H. fold req in H. fold now in H. fold wait_s in H. fold tr2 in H.
    split; [exact H|]. split; [unfold wait_s; lia|].
    intros e He. rewrite H, He. reflexivity.
  - intros url params env tr body headers reset Hresp Hbody Hreset Hne Hint.
    unfold H1.github_get, try_except. unfold bind at 1. unfold urlopen at 1.
    rewrite Hresp. rewrite Z.eqb_refl, Hbody, Hreset. cbn [andb].
    destruct reset as [|c s]; [contradiction|]. rewrite Hint. reflexivity.
  - intros url params env tr e Hresp Hcase.
    unfold H1.github_get, try_except. unfold bind at 1. unfold urlopen at 1. rewrite Hresp.
    destruct e as [code body headers| | | | |]; try reflexivity.
    destruct ((code =? 403)%Z && contains "rate limit" (lower body)); [|reflexivity].
    destruct Hcase as [Hc | Hc]; [discriminate|].
    destruct (message_get "X-RateLimit-Reset" headers) as [[|c s]|];
      try reflexivity. discriminate.
  - intros url params override env tr e Hresp.
    unfold Analyzer.http_get, bind, urlopen. now rewrite Hresp.
Qed.

(** The H1 client in the world above: it sleeps 1005 - 1000 + 2 = 7
    seconds, asks again and gets the pull request. *)
Lemma rate_limit_retry_witness :
  H1.github_get Sample.python "https://api.github.com/repos/octo/demo/pulls/7" []
    rate_limited_env [] =
  (Done (JPull demo_pull, []),
   [EvGet (H1.request "https://api.github.com/repos/octo/demo/pulls/7" []);
    EvSleep 7000;
    EvGet (H1.request "https://api.github.com/repos/octo/demo/pulls/7" [])]).
Proof.
  exact (proj1 (proj1 (rate_limit_retry Sample.python)
           "https://api.github.com/repos/octo/demo/pulls/7" [] rate_limited_env []
           "API rate limit exceeded for user"
           [("Content-Type", "application/json"); ("X-RateLimit-Reset", "1005")]
           "1005" 1005%Z eq_refl eq_refl eq_refl ltac:(discriminate) eq_refl)).
Defined.

(** ** A whole run *)

(** One merged pull request, created 2025-02-01 and merged 2025-02-03
    with ten lines added and two deleted: the report counts one pull
    request created and merged, the lines, and a cycle time of 2.00
    days. *)
Example alice_report :
  exists report tr,
    Analyzer.analyze Sample.python 10 "alice" "2025-01-01" "2025-06-30" alice_env []
      = (Done report, tr) /\
    Analyzer.prs_created (Analyzer.rp_aggregates report) = 1%Z /\
    Analyzer.prs_merged (Analyzer.rp_aggregates report) = 1%Z /\
    Analyzer.lines_added (Analyzer.rp_aggregates report) = 10%Z /\
    Analyzer.lines_deleted (Analyzer.rp_aggregates report) = 2%Z /\
    Analyzer.avg_cycle_time_days (Analyzer.rp_aggregates report) = Some 200%Z /\
    Analyzer.agg_repos_contributed (Analyzer.rp_aggregates report) = ["octo/demo"] /\
    List.length (gets tr) = 7%nat.
Proof.
  eexists. eexists. split; [vm_compute; reflexivity|]. repeat split.
Qed.

(** * Further properties of the two scripts *)

(** ** Runs that come to an end, and what they cost *)

Lemma terminates_ret {A} (a : A) : terminates (ret a).
Proof. intros env tr. discriminate. Qed.

Lemma terminates_raise {A} (e : exn) : terminates (@raise A e).
Proof. intros env tr. discriminate. Qed.

Lemma terminates_lift {A} (o : outcome A) : o <> Diverged -> terminates (lift o).
Proof. intros H env tr. exact H. Qed.

Lemma terminates_sleep (ms : Z) : terminates (sleep ms).
Proof. intros env tr. discriminate. Qed.

Lemma terminates_urlopen (req : Request) : terminates (urlopen req).
Proof. intros env tr. unfold urlopen. destruct (respond env tr req); discriminate. Qed.

Lemma terminates_bind {A B} (m : M A) (k : A -> M B) :
  terminates m -> (forall a, terminates (k a)) -> terminates (bind m k).
Proof.
  intros Hm Hk env tr. unfold bind. specialize (Hm env tr).
  destruct (m env tr) as [[a|e|] tr1]; simpl in *; [apply Hk | discriminate | contradiction].
Qed.

Lemma terminates_try {A} (m : M A) (handler : exn -> M A) :
  terminates m -> (forall e, terminates (handler e)) -> terminates (try_except m handler).
Proof.
  intros Hm Hh env tr. unfold try_except. specialize (Hm env tr).
  destruct (m env tr) as [[a|e|] tr1]; simpl in *; [discriminate | apply Hh | contradiction].
Qed.

Lemma terminates_http_get url params override :
  terminates (Analyzer.http_get url params override).
Proof.
  unfold Analyzer.http_get. apply terminates_bind; [apply terminates_urlopen|].
  intros [data headers]. destruct data; (apply terminates_raise || apply terminates_ret).
Qed.

(** One turn of [http_get]: one request, and an end. *)
Lemma http_get_step url params override env tr :
  exists o, Analyzer.http_get url params override env tr =
              (o, (tr ++ [EvGet (Analyzer.request url params override)])%list) /\
            o <> Diverged.
Proof.
  unfold Analyzer.http_get, bind, urlopen.
  destruct (respond env tr _) as [[| | | |] h|e]; eexists; (split; [reflexivity | discriminate]).
Qed.

Lemma get_items_ends (data : Payload) : get_items data <> Diverged.
Proof. destruct data as [[l|]| | | |]; discriminate. Qed.

(** With [r] pages to go before the cap, the loop of [search_issues] and
    [search_commits] sends at most [r] requests in every world, and comes
    to an end if it has fuel for [r] turns. *)
Lemma search_loop_bounded url override query :
  forall (r fuel : nat) (page total : Z) (acc : list Item) env tr,
    (1 <= r)%nat -> (1000 - 100 * Z.of_nat r <= total)%Z ->
    exists o evs,
      Analyzer.search_loop fuel url override query page total acc env tr
        = (o, (tr ++ evs)%list) /\
      (List.length (gets evs) <= r)%nat /\
      ((r <= fuel)%nat -> o <> Diverged).
Proof.
  induction r as [|r IH]; intros fuel page total acc env tr Hr Htotal; [lia|].
  destruct fuel as [|fuel].
  { exists Diverged, []. split; [simpl; now rewrite app_nil_r|]. split; [simpl; lia | lia]. }
  cbn [Analyzer.search_loop].
  set (params := [("q", query); ("per_page", str_of_Z 100); ("page", str_of_Z page)]).
  destruct (http_get_step url params override env tr) as [o [Hget Ho]].
  set (req := Analyzer.request url params override) in *.
  unfold bind at 1. rewrite Hget.
  assert (Hone : forall (o : outcome (list Item)), o <> Diverged ->
            exists o' evs, (o, (tr ++ [EvGet req])%list) = (o', (tr ++ evs)%list) /\
                        (List.length (gets evs) <= S r)%nat /\
                        ((S r <= S fuel)%nat -> o' <> Diverged)).
  { intros o' Ho'. exists o', [EvGet req]. split; [reflexivity|]. split; [simpl; lia | now intros _]. }
  destruct o as [[data headers]|e|]; [| now apply Hone | contradiction].
  unfold bind at 1. unfold lift at 1.
  pose proof (get_items_ends data) as Hends.
  destruct (get_items data) as [items|e|]; [| now apply Hone | contradiction].
  destruct items as [|x xs]; [now apply Hone|].
  set (items := x :: xs).
  destruct ((len items <? 100)%Z || (1000 <=? total + len items)%Z) eqn:Hstop;
    [now apply Hone|].
  apply orb_false_iff in Hstop. destruct Hstop as [H1 H2].
  apply Z.ltb_ge in H1. apply Z.leb_gt in H2.
  unfold bind at 1. unfold sleep at 1.
  destruct (IH fuel (page + 1)%Z (total + len items)%Z (acc ++ items)%list env
              ((tr ++ [EvGet req]) ++ [EvSleep 150])%list) as [o [evs [E [L D]]]]; try lia.
  exists o, ([EvGet req] ++ [EvSleep 150] ++ evs)%list. rewrite E. split; [|split].
  - now rewrite <- !app_assoc.
  - simpl. lia.
  - intros Hf. apply D. lia.
Qed.

Lemma search_issues_bounded fuel query env tr :
  exists o evs,
    Analyzer.search_issues fuel query env tr = (o, (tr ++ evs)%list) /\
    (List.length (gets evs) <= 10)%nat /\
    ((10 <= fuel)%nat -> o <> Diverged).
Proof.
  unfold Analyzer.search_issues. apply search_loop_bounded; lia.
Qed.

Lemma search_commits_bounded fuel query env tr :
  exists o evs,
    Analyzer.search_commits fuel query env tr = (o, (tr ++ evs)%list) /\
    (List.length (gets evs) <= 10)%nat /\
    ((10 <= fuel)%nat -> o <> Diverged).
Proof.
  unfold Analyzer.search_commits. apply search_loop_bounded; lia.
Qed.

Lemma as_pull_ends (data : Payload) : as_pull data <> Diverged.
Proof. destruct data; discriminate. Qed.

Lemma as_commit_ends (data : Payload) : as_commit data <> Diverged.
Proof. destruct data; discriminate. Qed.

Lemma iso_to_dt_ends py (s : option string) : Analyzer.iso_to_dt py s <> Diverged.
Proof.
  unfold Analyzer.iso_to_dt. destruct (negb (truthy s)); [discriminate|].
  destruct (fromisoformat py _); discriminate.
Qed.

Lemma cycle_time_ends py (c m d : option string) : Analyzer.cycle_time py c m d <> Diverged.
Proof.
  unfold Analyzer.cycle_time.
  pose proof (iso_to_dt_ends py c). pose proof (iso_to_dt_ends py m).
  pose proof (iso_to_dt_ends py d).
  destruct (Analyzer.iso_to_dt py c); try discriminate; try contradiction.
  destruct (Analyzer.iso_to_dt py m) as [[x|]| |]; try discriminate; try contradiction.
  destruct (Analyzer.iso_to_dt py d); try discriminate; try contradiction.
Qed.

(** One turn of the loop over the pull requests: it comes to an end, and
    it has sent one request if it gives a record, none if it skips the
    item. *)
Lemma pr_step_cases py (item : Item) env tr :
  exists o evs,
    Analyzer.pr_step py item env tr = (o, (tr ++ evs)%list) /\
    o <> Diverged /\
    match o with
    | Done (Some _) => List.length (gets evs) = 1%nat
    | Done None => evs = []
    | _ => (List.length (gets evs) <= 1)%nat
    end.
Proof.
  unfold Analyzer.pr_step.
  assert (Hskip : exists o evs,
             ret (A := option Analyzer.PullRecord) None env tr = (o, (tr ++ evs)%list) /\
             o <> Diverged /\
             match o with
             | Done (Some _) => List.length (gets evs) = 1%nat
             | Done None => evs = []
             | _ => (List.length (gets evs) <= 1)%nat
             end).
  { exists (Done None), []. split; [unfold ret; now rewrite app_nil_r|].
    split; [discriminate | reflexivity]. }
  destruct (Analyzer.safe_repo_full_name item) as [repo|]; [|exact Hskip].
  destruct (it_number item) as [number|]; [|exact Hskip].
  destruct (number =? 0)%Z; [exact Hskip|]. clear Hskip.
  unfold Analyzer.get_pr_details.
  set (url := GITHUB_API ++ "/repos/" ++ repo ++ "/pulls/" ++ str_of_Z number).
  destruct (http_get_step url [] None env tr) as [o [Hget Ho]].
  set (req := Analyzer.request url [] None) in *.
  unfold bind at 1. unfold try_except. unfold bind at 1. rewrite Hget.
  assert (Hafter : forall data : Payload, exists o evs,
            (pr <- lift (as_pull data) ;;
             cycle_days <- lift (Analyzer.cycle_time py (pj_created_at pr) (pj_merged_at pr)
                                   (pj_closed_at pr)) ;;
             sleep 80 ;;;
             ret (Some (Analyzer.pull_record repo pr cycle_days))) env (tr ++ [EvGet req])%list
              = (o, (tr ++ evs)%list) /\
            o <> Diverged /\
            match o with
            | Done (Some _) => List.length (gets evs) = 1%nat
            | Done None => evs = []
            | _ => (List.length (gets evs) <= 1)%nat
            end).
  { intros data. unfold bind at 1. unfold lift at 1.
    pose proof (as_pull_ends data) as Hp.
    destruct (as_pull data) as [pr|e|]; [| | contradiction].
    - unfold bind at 1. unfold lift at 1.
      pose proof (cycle_time_ends py (pj_created_at pr) (pj_merged_at pr) (pj_closed_at pr)) as Hc.
      destruct (Analyzer.cycle_time py _ _ _) as [cycle|e|]; [| | contradiction].
      + exists (Done (Some (Analyzer.pull_record repo pr cycle))), [EvGet req; EvSleep 80].
        split; [unfold bind, sleep, ret; now rewrite <- app_assoc|].
        split; [discriminate | reflexivity].
      + exists (Raised e), [EvGet req]. split; [reflexivity|].
        split; [discriminate | simpl; lia].
    - exists (Raised e), [EvGet req]. split; [reflexivity|].
      split; [discriminate | simpl; lia]. }
  destruct o as [[data headers]|e|]; [| | contradiction].
  - cbn [ret]. apply Hafter.
  - unfold ret at 1. apply Hafter.
Qed.

(** The loop over the pull requests comes to an end in every world, and a
    run that returns has sent one request for each record it added. *)
Lemma prs_loop_cases py (pr_items : list Item) :
  forall (acc : list Analyzer.PullRecord) env tr,
  exists o evs,
    Analyzer.prs_loop py pr_items acc env tr = (o, (tr ++ evs)%list) /\
    o <> Diverged /\
    (forall recs, o = Done recs ->
                  (List.length (gets evs) + List.length acc = List.length recs)%nat).
Proof.
  induction pr_items as [|item rest IH]; intros acc env tr.
  - exists (Done acc), []. split; [simpl; unfold ret; now rewrite app_nil_r|].
    split; [discriminate|]. intros recs H. injection H as <-. reflexivity.
  - cbn [Analyzer.prs_loop]. unfold bind at 1.
    destruct (pr_step_cases py item env tr) as [o [evs [Hstep [Ho Hn]]]]. rewrite Hstep.
    destruct o as [[rec|]|e|]; [| | | contradiction].
    + destruct (IH (acc ++ [rec])%list env (tr ++ evs)%list) as [o' [evs' [Hl [Ho' Hn']]]].
      exists o', (evs ++ evs')%list. rewrite Hl. split; [now rewrite app_assoc|].
      split; [exact Ho'|]. intros recs Hrecs. specialize (Hn' recs Hrecs).
      rewrite gets_app, !length_app in *. simpl in Hn'. lia.
    + subst evs. rewrite app_nil_r.
      destruct (IH acc env tr) as [o' [evs' [Hl [Ho' Hn']]]].
      exists o', evs'. split; [exact Hl|]. split; assumption.
    + exists (Raised e), evs. split; [reflexivity|]. split; [discriminate|]. discriminate.
Qed.

Lemma terminates_commit_enrich (item : Item) (sha : string) :
  terminates (Analyzer.commit_enrich item sha).
Proof.
  unfold Analyzer.commit_enrich. apply terminates_bind.
  { destruct (truthy (Analyzer.commit_repo item)); [|apply terminates_ret].
    apply terminates_try; [|intros e; apply terminates_ret].
    unfold Analyzer.get_commit_details. apply terminates_bind; [apply terminates_http_get|].
    intros [c h]. apply terminates_ret. }
  intros data. apply terminates_bind; [apply terminates_lift, as_commit_ends|].
  intros detail. apply terminates_bind.
  { destruct (truthy (Analyzer.commit_repo item)); [|apply terminates_ret].
    apply terminates_try; [|intros e; apply terminates_ret].
    unfold Analyzer.get_pulls_for_commit. apply terminates_bind; [apply terminates_http_get|].
    intros [d h]. destruct d; apply terminates_ret. }
  intros prs. apply terminates_bind; [apply terminates_sleep|].
  intros _. apply terminates_ret.
Qed.

(** The loop over the commits comes to an end in every world, and a run
    that returns has sent at most two requests for each record it added. *)
Lemma commits_loop_cases (commit_items : list Item) :
  forall (seen : list string) (acc : list Analyzer.CommitRecord) env tr,
  exists o evs,
    Analyzer.commits_loop commit_items seen acc env tr = (o, (tr ++ evs)%list) /\
    o <> Diverged /\
    (forall recs, o = Done recs ->
                  (List.length (gets evs) + 2 * List.length acc <= 2 * List.length recs)%nat).
Proof.
  induction commit_items as [|item rest IH]; intros seen acc env tr.
  - exists (Done acc), []. split; [simpl; unfold ret; now rewrite app_nil_r|].
    split; [discriminate|]. intros recs H. injection H as <-. simpl. lia.
  - cbn [Analyzer.commits_loop].
    destruct (it_sha item) as [[|c s]|]; try apply IH.
    destruct (Analyzer.mem (String c s) seen); [apply IH|].
    unfold bind at 1.
    pose proof (terminates_commit_enrich item (String c s) env tr) as Hterm.
    destruct (Analyzer.commit_enrich item (String c s) env tr) as [o tr1] eqn:He.
    destruct (@at_most_commit_enrich item (String c s) env tr o tr1 He) as [evs [-> Hle]]. simpl in Hterm.
    destruct o as [rec|e|]; [| | contradiction].
    + destruct (IH (String c s :: seen) (acc ++ [rec])%list env (tr ++ evs)%list)
        as [o' [evs' [Hl [Ho' Hn']]]].
      exists o', (evs ++ evs')%list. rewrite Hl. split; [now rewrite app_assoc|].
      split; [exact Ho'|]. intros recs Hrecs. specialize (Hn' recs Hrecs).
      rewrite gets_app, !length_app in *. simpl in Hn'. lia.
    + exists (Raised e), evs. split; [reflexivity|]. split; discriminate.
Qed.

Lemma issue_record_ends py (it : Item) : Analyzer.issue_record py it <> Diverged.
Proof.
  unfold Analyzer.issue_record.
  pose proof (iso_to_dt_ends py (it_created_at it)).
  pose proof (iso_to_dt_ends py (it_closed_at it)).
  destruct (Analyzer.iso_to_dt py (it_created_at it)); try discriminate; try contradiction.
  destruct (Analyzer.iso_to_dt py (it_closed_at it)); try discriminate; try contradiction.
  cbv zeta. pose proof (is_incident_issue_returns (get_or (it_labels_key it) [])).
  destruct (Analyzer.is_incident_issue _); try discriminate; try contradiction.
Qed.

Lemma issues_loop_ends py (items : list Item) :
  forall acc, Analyzer.issues_loop py items acc <> Diverged.
Proof.
  induction items as [|it rest IH]; intros acc; simpl; [discriminate|].
  pose proof (issue_record_ends py it).
  destruct (Analyzer.issue_record py it); try discriminate; try contradiction. apply IH.
Qed.

Lemma aggregates_ends py prs issues assigned reviews commits :
  Analyzer.aggregates py prs issues assigned reviews commits <> Diverged.
Proof.
  destruct (aggregates_total py prs issues assigned reviews commits) as [a ->]. discriminate.
Qed.

Lemma terminates_search_issues fuel query :
  (10 <= fuel)%nat -> terminates (Analyzer.search_issues fuel query).
Proof.
  intros Hf env tr. destruct (search_issues_bounded fuel query env tr) as [o [evs [E [_ D]]]].
  rewrite E. now apply D.
Qed.

Lemma terminates_search_commits fuel query :
  (10 <= fuel)%nat -> terminates (Analyzer.search_commits fuel query).
Proof.
  intros Hf env tr. destruct (search_commits_bounded fuel query env tr) as [o [evs [E [_ D]]]].
  rewrite E. now apply D.
Qed.

Lemma terminates_prs_loop py items acc : terminates (Analyzer.prs_loop py items acc).
Proof.
  intros env tr. destruct (prs_loop_cases py items acc env tr) as [o [evs [E [D _]]]].
  now rewrite E.
Qed.

Lemma terminates_commits_loop items seen acc : terminates (Analyzer.commits_loop items seen acc).
Proof.
  intros env tr. destruct (commits_loop_cases items seen acc env tr) as [o [evs [E [D _]]]].
  now rewrite E.
Qed.

(** X1: whatever the server answers, [search_issues] and
    [search_commits] send at most ten requests, and with fuel for ten
    turns they come to an end, by a result or by an exception. *)
Theorem search_in_every_world (fuel : nat) (query : string) (env : Env) (tr : Trace) :
  (exists o evs,
      Analyzer.search_issues fuel query env tr = (o, (tr ++ evs)%list) /\
      (List.length (gets evs) <= 10)%nat /\
      ((10 <= fuel)%nat -> o <> Diverged)) /\
  (exists o evs,
      Analyzer.search_commits fuel query env tr = (o, (tr ++ evs)%list) /\
      (List.length (gets evs) <= 10)%nat /\
      ((10 <= fuel)%nat -> o <> Diverged)).
Proof.
  split; [apply search_issues_bounded | apply search_commits_bounded].
Qed.

(** X2: with fuel for ten turns of each search loop, [analyze] comes to
    an end in every world: it returns a report or raises, and never stays
    in a loop. *)
Theorem analyze_terminates (py : Python) (fuel : nat) (user start_date end_date : string)
    (env : Env) (tr : Trace) :
  (10 <= fuel)%nat ->
  fst (Analyzer.analyze py fuel user start_date end_date env tr) <> Diverged.
Proof.
  intros Hf. revert env tr. change (terminates (Analyzer.analyze py fuel user start_date end_date)).
  unfold Analyzer.analyze.
  apply terminates_bind; [now apply terminates_search_issues | intros pr_items].
  apply terminates_bind; [apply terminates_prs_loop | intros prs].
  apply terminates_bind; [now apply terminates_search_issues | intros issue_items].
  apply terminates_bind; [apply terminates_lift, issues_loop_ends | intros issues].
  apply terminates_bind; [now apply terminates_search_issues | intros assigned_items].
  apply terminates_bind; [apply terminates_lift, issues_loop_ends | intros assigned].
  apply terminates_bind; [now apply terminates_search_issues | intros reviewed].
  apply terminates_bind; [now apply terminates_search_commits | intros by_author].
  apply terminates_bind; [now apply terminates_search_commits | intros by_committer].
  apply terminates_bind; [apply terminates_commits_loop | intros commits].
  apply terminates_bind; [apply terminates_lift, aggregates_ends | intros aggs].
  apply terminates_ret.
Qed.

Lemma analyze_terminates_witness :
  fst (Analyzer.analyze Sample.python 10 "alice" "2025-01-01" "2025-06-30" full_env [])
    <> Diverged.
Proof.
  apply analyze_terminates. apply le_n.
Defined.

Lemma search_issues_requests fuel query env tr o tr' :
  Analyzer.search_issues fuel query env tr = (o, tr') ->
  exists evs, tr' = (tr ++ evs)%list /\ (List.length (gets evs) <= 10)%nat.
Proof.
  intros H. destruct (search_issues_bounded fuel query env tr) as [o1 [evs [E [L _]]]].
  rewrite H in E. injection E as _ ->. now exists evs.
Qed.

Lemma search_commits_requests fuel query env tr o tr' :
  Analyzer.search_commits fuel query env tr = (o, tr') ->
  exists evs, tr' = (tr ++ evs)%list /\ (List.length (gets evs) <= 10)%nat.
Proof.
  intros H. destruct (search_commits_bounded fuel query env tr) as [o1 [evs [E [L _]]]].
  rewrite H in E. injection E as _ ->. now exists evs.
Qed.

Lemma prs_loop_requests py items acc env tr recs tr' :
  Analyzer.prs_loop py items acc env tr = (Done recs, tr') ->
  exists evs, tr' = (tr ++ evs)%list /\
              (List.length (gets evs) + List.length acc = List.length recs)%nat.
Proof.
  intros H. destruct (prs_loop_cases py items acc env tr) as [o [evs [E [_ L]]]].
  rewrite H in E. injection E as <- ->. exists evs. split; [reflexivity | now apply L].
Qed.

Lemma commits_loop_done_requests items seen acc env tr recs tr' :
  Analyzer.commits_loop items seen acc env tr = (Done recs, tr') ->
  exists evs, tr' = (tr ++ evs)%list /\
              (List.length (gets evs) + 2 * List.length acc <= 2 * List.length recs)%nat.
Proof.
  intros H. destruct (commits_loop_cases items seen acc env tr) as [o [evs [E [_ L]]]].
  rewrite H in E. injection E as <- ->. exists evs. split; [reflexivity | now apply L].
Qed.

(** X3: a run of [analyze] that returns a report has sent at most sixty
    search requests (ten for each of the six searches), one request for
    each pull request in the report and two for each commit in it. *)
Theorem analyze_request_budget (py : Python) (fuel : nat) (user start_date end_date : string)
    (env : Env) (tr tr' : Trace) (report : Analyzer.Report) :
  Analyzer.analyze py fuel user start_date end_date env tr = (Done report, tr') ->
  exists evs,
    tr' = (tr ++ evs)%list /\
    (List.length (gets evs) <=
       60 + List.length (Analyzer.rp_pull_requests report)
          + 2 * List.length (Analyzer.rp_commits report))%nat.
Proof.
  unfold Analyzer.analyze. intros H.
  apply bind_done in H as [pr_items [t1 [H1 H]]].
  apply bind_done in H as [prs [t2 [H2 H]]].
  apply bind_done in H as [issue_items [t3 [H3 H]]].
  apply bind_done in H as [issues [t4 [H4 H]]]. apply lift_done in H4 as [_ ->].
  apply bind_done in H as [assigned_items [t5 [H5 H]]].
  apply bind_done in H as [assigned [t6 [H6 H]]]. apply lift_done in H6 as [_ ->].
  apply bind_done in H as [reviewed [t7 [H7 H]]].
  apply bind_done in H as [by_author [t8 [H8 H]]].
  apply bind_done in H as [by_committer [t9 [H9 H]]].
  apply bind_done in H as [commits [t10 [H10 H]]].
  apply bind_done in H as [aggs [t11 [H11 H]]]. apply lift_done in H11 as [_ ->].
  unfold ret in H. injection H as <- <-. cbn [Analyzer.rp_pull_requests Analyzer.rp_commits].
  apply search_issues_requests in H1 as [e1 [-> L1]].
  apply prs_loop_requests in H2 as [e2 [-> L2]].
  apply search_issues_requests in H3 as [e3 [-> L3]].
  apply search_issues_requests in H5 as [e5 [-> L5]].
  apply search_issues_requests in H7 as [e7 [-> L7]].
  apply search_commits_requests in H8 as [e8 [-> L8]].
  apply search_commits_requests in H9 as [e9 [-> L9]].
  apply commits_loop_done_requests in H10 as [e10 [-> L10]].
  exists (e1 ++ e2 ++ e3 ++ e5 ++ e7 ++ e8 ++ e9 ++ e10)%list.
  split; [now rewrite <- !app_assoc|].
  rewrite !gets_app, !length_app. simpl in L2, L10. lia.
Qed.

Lemma analyze_request_budget_witness :
  exists report tr',
    Analyzer.analyze Sample.python 10 "alice" "2025-01-01" "2025-06-30" alice_env []
      = (Done report, tr') /\
    (List.length (gets tr') <=
       60 + List.length (Analyzer.rp_pull_requests report)
          + 2 * List.length (Analyzer.rp_commits report))%nat.
Proof.
  eexists. eexists. split; [vm_compute; reflexivity|].
  match goal with
  | |- context [gets ?t] =>
      destruct (@analyze_request_budget Sample.python 10 "alice" "2025-01-01" "2025-06-30"
                  alice_env [] t _ ltac:(vm_compute; reflexivity)) as [evs [E L]]
  end.
  simpl in E. subst evs. exact L.
Defined.

(** ** The client of the H1 report in every world *)

Lemma slept_app (a b : Trace) : slept (a ++ b)%list = (slept a + slept b)%Z.
Proof.
  unfold slept. rewrite flat_map_app. unfold sum. induction (flat_map _ a) as [|x l IH]; simpl.
  - reflexivity.
  - rewrite IH. lia.
Qed.

Lemma decode_ends (r : Payload * list (string * string)) env tr :
  exists o, H1.decode r env tr = (o, tr) /\ o <> Diverged.
Proof.
  unfold H1.decode. destruct (fst r); eexists; (split; [reflexivity | discriminate]).
Qed.

(** One call of [github_get], in every world. *)
Lemma github_get_cases py url params env tr :
  exists o evs,
    H1.github_get py url params env tr = (o, (tr ++ evs)%list) /\
    o <> Diverged /\ one_call (H1.request url params) evs.
Proof.
  unfold H1.github_get. set (req := H1.request url params).
  unfold try_except. unfold bind at 1. unfold urlopen at 1.
  assert (Hraise : forall e : exn, exists o evs,
            raise (A := Payload * list (string * string)) e env (tr ++ [EvGet req])%list
              = (o, (tr ++ evs)%list) /\ o <> Diverged /\ one_call req evs).
  { intros e. exists (Raised e), [EvGet req]. split; [reflexivity|].
    split; [discriminate | now left]. }
  destruct (respond env tr req) as [body headers|e].
  - destruct (decode_ends (body, headers) env (tr ++ [EvGet req])%list) as [o [Hd Ho]].
    rewrite Hd. destruct o as [r|e|]; [| | contradiction].
    + exists (Done r), [EvGet req]. split; [reflexivity|]. split; [discriminate | now left].
    + destruct e as [code b h| | | | |]; try apply Hraise.
      exfalso. revert Hd. unfold H1.decode. destruct body; discriminate.
  - destruct e as [code body headers| | | | |]; try apply Hraise.
    destruct ((code =? 403)%Z && contains "rate limit" (lower body)); [|apply Hraise].
    destruct (message_get "X-RateLimit-Reset" headers) as [[|c s]|]; try apply Hraise.
    destruct (py_int py (String c s)) as [reset_s|]; [|apply Hraise].
    unfold bind at 1. unfold time_time at 1. unfold bind at 1. unfold sleep at 1.
    unfold bind at 1. unfold urlopen at 1.
    set (ms := (1000 * Z.min (Z.max 0 (reset_s - clock env (tr ++ [EvGet req])%list + 2)) 60)%Z).
    set (tr2 := ((tr ++ [EvGet req]) ++ [EvSleep ms])%list).
    assert (Hshape : one_call req [EvGet req; EvSleep ms; EvGet req]).
    { right. exists ms. split; [unfold ms; lia | reflexivity]. }
    assert (Etr : (tr2 ++ [EvGet req])%list = (tr ++ [EvGet req; EvSleep ms; EvGet req])%list).
    { unfold tr2. now rewrite <- !app_assoc. }
    destruct (respond env tr2 req) as [body2 headers2|e2].
    + destruct (decode_ends (body2, headers2) env (tr2 ++ [EvGet req])%list) as [o [Hd Ho]].
      rewrite Hd, Etr. exists o, [EvGet req; EvSleep ms; EvGet req].
      split; [reflexivity|]. split; assumption.
    + rewrite Etr. exists (Raised e2), [EvGet req; EvSleep ms; EvGet req].
      split; [reflexivity|]. split; [discriminate | assumption].
Qed.

Lemma one_call_bounds (req : Request) (evs : list Event) :
  one_call req evs ->
  (1 <= List.length (gets evs) <= 2)%nat /\ (0 <= slept evs <= 60000)%Z.
Proof.
  intros [-> | [ms [Hms ->]]]; unfold slept; simpl; lia.
Qed.

(** X4: whatever the server answers, one call of [github_get] comes to
    an end having sent the request once, or the request, one sleep and the
    request again: at most two requests and at most sixty seconds of
    sleep. *)
Theorem github_get_in_every_world (py : Python) (url : string)
    (params : list (string * string)) (env : Env) (tr : Trace) :
  exists o evs,
    H1.github_get py url params env tr = (o, (tr ++ evs)%list) /\
    o <> Diverged /\
    one_call (H1.request url params) evs /\
    (1 <= List.length (gets evs) <= 2)%nat /\ (0 <= slept evs <= 60000)%Z.
Proof.
  destruct (github_get_cases py url params env tr) as [o [evs [E [Ho Hc]]]].
  exists o, evs. split; [exact E|]. split; [exact Ho|]. split; [exact Hc|].
  now apply one_call_bounds with (req := H1.request url params).
Qed.

(** With [r] pages to go up to page 10, the loop of [search_github] calls
    the client at most [r] times in every world, and comes to an end if it
    has fuel for [r] turns. *)
Lemma h1_search_loop_bounded py url :
  forall (r fuel : nat) (params : list (string * string)) (page : Z) (results : list Item)
         env tr,
    (1 <= r)%nat -> (11 - Z.of_nat r <= page)%Z ->
    exists o evs,
      H1.search_loop py fuel url params page results env tr = (o, (tr ++ evs)%list) /\
      (List.length (gets evs) <= 2 * r)%nat /\
      (0 <= slept evs <= 60000 * Z.of_nat r)%Z /\
      ((r <= fuel)%nat -> o <> Diverged).
Proof.
  induction r as [|r IH]; intros fuel params page results env tr Hr Hpage; [lia|].
  destruct fuel as [|fuel].
  { exists Diverged, []. split; [simpl; now rewrite app_nil_r|].
    split; [simpl; lia|]. split; [unfold slept; simpl; lia | lia]. }
  cbn [H1.search_loop].
  set (params' := dict_set "page" (str_of_Z page) params).
  destruct (github_get_cases py url params' env tr) as [o [evs [Hget [Ho Hc]]]].
  apply one_call_bounds in Hc as [Hg Hs].
  unfold bind at 1. rewrite Hget.
  assert (Hone : forall (o : outcome (list Item)), o <> Diverged ->
            exists o' evs', (o, (tr ++ evs)%list) = (o', (tr ++ evs')%list) /\
                        (List.length (gets evs') <= 2 * S r)%nat /\
                        (0 <= slept evs' <= 60000 * Z.of_nat (S r))%Z /\
                        ((S r <= S fuel)%nat -> o' <> Diverged)).
  { intros o' Ho'. exists o', evs. split; [reflexivity|]. split; [lia|].
    split; [lia | now intros _]. }
  destruct o as [[data headers]|e|]; [| now apply Hone | contradiction].
  unfold bind at 1. unfold lift at 1.
  pose proof (get_items_ends data) as Hends.
  destruct (get_items data) as [items|e|]; [| now apply Hone | contradiction].
  destruct ((len items <? 100)%Z || (10 <=? page)%Z) eqn:Hstop; [now apply Hone|].
  apply orb_false_iff in Hstop. destruct Hstop as [_ H2]. apply Z.leb_gt in H2.
  destruct (IH fuel params' (page + 1)%Z (results ++ items)%list env (tr ++ evs)%list)
    as [o [evs' [E [L [S' D]]]]]; try lia.
  exists o, (evs ++ evs')%list. rewrite E. split; [now rewrite app_assoc|].
  rewrite gets_app, length_app, slept_app. split; [lia|]. split; [lia|].
  intros Hf. apply D. lia.
Qed.

(** X5: whatever the server answers, [search_github] sends at most
    twenty requests (ten pages, each asked for at most twice) and sleeps
    at most ten minutes in all; with fuel for ten turns it comes to an
    end. *)
Theorem search_github_in_every_world (py : Python) (fuel : nat) (query : string)
    (sort : option string) (order : string) (env : Env) (tr : Trace) :
  exists o evs,
    H1.search_github py fuel query sort order env tr = (o, (tr ++ evs)%list) /\
    (List.length (gets evs) <= 20)%nat /\
    (0 <= slept evs <= 600000)%Z /\
    ((10 <= fuel)%nat -> o <> Diverged).
Proof.
  unfold H1.search_github.
  match goal with
  | |- context [H1.search_loop py fuel ?u ?p 1%Z [] env tr] =>
      destruct (@h1_search_loop_bounded py u 10 fuel p 1%Z [] env tr)
        as [o [evs [E [L [S' D]]]]]; try lia
  end.
  exists o, evs. split; [exact E|]. split; [exact L|]. split; [lia | exact D].
Qed.

(** ** Link headers and repository names *)

Lemma string_app_assoc (a b c : string) : (a ++ b) ++ c = a ++ b ++ c.
Proof. induction a as [|x a IH]; simpl; [reflexivity | now rewrite IH]. Qed.

Lemma string_app_nil_r (a : string) : a ++ "" = a.
Proof. induction a as [|x a IH]; simpl; [reflexivity | now rewrite IH]. Qed.

Lemma lacks_app c (a b : string) : lacks c (a ++ b) = lacks c a && lacks c b.
Proof.
  induction a as [|x a IH]; simpl; [reflexivity|]. now rewrite IH, andb_assoc.
Qed.

Lemma split_nonempty sep (s : string) : split sep s <> [].
Proof.
  induction s as [|c t IH]; simpl; [discriminate|].
  destruct (Ascii.eqb c sep); [discriminate|]. destruct (split sep t); discriminate.
Qed.

(** [split] cuts at every separator. *)
Lemma split_app sep (a b : string) :
  split sep (a ++ String sep b) = (split sep a ++ split sep b)%list.
Proof.
  induction a as [|c a IH]; simpl.
  - now rewrite Ascii.eqb_refl.
  - destruct (Ascii.eqb c sep); [now rewrite IH|].
    rewrite IH. pose proof (split_nonempty sep a) as Hn.
    destruct (split sep a) as [|h r]; [contradiction | reflexivity].
Qed.

Lemma split_lacks sep (s : string) : lacks sep s = true -> split sep s = [s].
Proof.
  induction s as [|c t IH]; simpl; [reflexivity|].
  intros H. apply andb_true_iff in H as [Hc Ht]. apply negb_true_iff in Hc.
  rewrite Hc, (IH Ht). reflexivity.
Qed.

Lemma rstrip_lacks c (s : string) : lacks c s = true -> rstrip c s = s.
Proof.
  induction s as [|a t IH]; simpl; [reflexivity|].
  intros H. apply andb_true_iff in H as [Ha Ht]. apply negb_true_iff in Ha.
  rewrite (IH Ht), Ha. destruct t; reflexivity.
Qed.

Lemma rstrip_snoc c (s : string) : rstrip c (s ++ String c "") = rstrip c s.
Proof.
  induction s as [|a t IH]; simpl.
  - now rewrite Ascii.eqb_refl.
  - now rewrite IH.
Qed.

Lemma lstrip_lacks c (s : string) : lacks c s = true -> lstrip c s = s.
Proof.
  destruct s as [|a t]; simpl; [reflexivity|].
  intros H. apply andb_true_iff in H as [Ha _]. apply negb_true_iff in Ha. now rewrite Ha.
Qed.

(** Stripping white space leaves a string alone that begins and ends with
    other characters. *)
Lemma rstrip_space_snoc (s : string) (c : ascii) :
  is_space c = false -> rstrip_space (s ++ String c "") = s ++ String c "".
Proof.
  intros Hc. induction s as [|a t IH]; simpl.
  - now rewrite Hc.
  - rewrite IH. destruct (t ++ String c "") eqn:E; [|reflexivity].
    destruct t; discriminate E.
Qed.

Lemma strip_between (a c : ascii) (s : string) :
  is_space a = false -> is_space c = false ->
  strip (String a (s ++ String c "")) = String a (s ++ String c "").
Proof.
  intros Ha Hc. unfold strip. simpl lstrip_space. rewrite Ha.
  change (String a (s ++ String c "")) with (String a s ++ String c "").
  now apply rstrip_space_snoc.
Qed.

Lemma strip_leading_space (s : string) : strip (String " " s) = strip s.
Proof. reflexivity. Qed.

Lemma substring_all (s : string) : String.substring 0 (String.length s) s = s.
Proof. induction s as [|c t IH]; simpl; [reflexivity | now rewrite IH]. Qed.

Lemma lstrip_other c (a : ascii) (t : string) :
  Ascii.eqb a c = false -> lstrip c (String a t) = String a t.
Proof. intros H. simpl. now rewrite H. Qed.

Lemma lacks_cons c (a : ascii) (t : string) :
  lacks c (String a t) = true -> Ascii.eqb a c = false /\ lacks c t = true.
Proof.
  simpl. intros H. apply andb_true_iff in H as [Ha Ht]. apply negb_true_iff in Ha. now split.
Qed.

Lemma plain_link_spec (rel url : string) :
  plain_link (rel, url) = true ->
  (lacks "," url = true /\ lacks ";" url = true /\ lacks "<" url = true /\
   lacks ">" url = true) /\
  (lacks "," rel = true /\ lacks ";" rel = true /\ lacks Analyzer.dquote rel = true /\
   rel <> "").
Proof.
  unfold plain_link. rewrite !andb_true_iff, negb_true_iff. intros H.
  destruct H as [[[[[[[H1 H2] H3] H4] H5] H6] H7] H8].
  repeat split; try assumption. intros ->. discriminate H8.
Qed.

(** The relation name [find_rel] reads in the second section of a link. *)
Lemma find_rel_link (rel : string) :
  lacks Analyzer.dquote rel = true -> rel <> "" ->
  Analyzer.find_rel [" rel=" ++ String Analyzer.dquote (rel ++ String Analyzer.dquote "")]
    = Some rel.
Proof.
  intros Hq Hne. cbn [Analyzer.find_rel].
  change (" rel=" ++ String Analyzer.dquote (rel ++ String Analyzer.dquote ""))
    with (String " " (String "r" (("el=" ++ String Analyzer.dquote rel)
                                   ++ String Analyzer.dquote ""))) at 1.
  assert (E : " rel=" ++ String Analyzer.dquote (rel ++ String Analyzer.dquote "")
              = String " " (String "r" (("el=" ++ String Analyzer.dquote rel)
                                          ++ String Analyzer.dquote ""))) by reflexivity.
  rewrite E, strip_leading_space, strip_between by reflexivity.
  cbn [startswith Ascii.eqb Bool.eqb andb append].
  unfold Analyzer.drop4. cbn [String.length Nat.sub String.substring].
  rewrite substring_all.
  destruct rel as [|a t]; [contradiction|].
  apply lacks_cons in Hq as Hq'. destruct Hq' as [Ha Ht].
  change (lstrip Analyzer.dquote (String Analyzer.dquote (String a t ++ String Analyzer.dquote "")))
    with (lstrip Analyzer.dquote (String a (t ++ String Analyzer.dquote ""))).
  rewrite lstrip_other by exact Ha.
  change (String a (t ++ String Analyzer.dquote "")) with (String a t ++ String Analyzer.dquote "").
  rewrite rstrip_snoc, rstrip_lacks by exact Hq. reflexivity.
Qed.

(** One well-formed link, with or without the blank that follows a
    comma, adds its entry to the dictionary. *)
Lemma parse_link_part (rel url : string) (blank : bool) (rest : list string)
    (links : list (string * string)) :
  plain_link (rel, url) = true ->
  Analyzer.parse_link_parts
    ((if blank then " " ++ link_value rel url else link_value rel url) :: rest) links
  = Analyzer.parse_link_parts rest (dict_set rel url links).
Proof.
  intros Hp. apply plain_link_spec in Hp as [[Hu1 [Hu2 [Hu3 Hu4]]] [Hr1 [Hr2 [Hr3 Hne]]]].
  cbn [Analyzer.parse_link_parts].
  assert (Es : strip (if blank then " " ++ link_value rel url else link_value rel url)
               = link_value rel url).
  { assert (E : link_value rel url
                = String "<" ((url ++ ">; rel=" ++ String Analyzer.dquote rel)
                                ++ String Analyzer.dquote "")).
    { unfold link_value. simpl. f_equal. rewrite string_app_assoc. f_equal. }
    destruct blank; [change (" " ++ link_value rel url) with (String " " (link_value rel url));
                     rewrite strip_leading_space|];
      rewrite E; now apply strip_between. }
  rewrite Es.
  assert (Esplit : split ";" (link_value rel url)
                   = ["<" ++ url ++ ">";
                      " rel=" ++ String Analyzer.dquote (rel ++ String Analyzer.dquote "")]).
  { assert (E : link_value rel url
                = ("<" ++ url ++ ">")
                  ++ String ";" (" rel=" ++ String Analyzer.dquote
                                              (rel ++ String Analyzer.dquote ""))).
    { unfold link_value. simpl. f_equal. now rewrite string_app_assoc. }
    rewrite E, split_app, !split_lacks; [reflexivity| |].
    - simpl. rewrite lacks_app, Hr2. reflexivity.
    - simpl. rewrite lacks_app, Hu2. reflexivity. }
  rewrite Esplit.
  rewrite find_rel_link by assumption.
  destruct rel as [|a t]; [contradiction|].
  f_equal. f_equal.
  assert (E0 : "<" ++ url ++ ">" = String "<" (url ++ String ">" "")) by reflexivity.
  rewrite E0, strip_between by reflexivity.
  cbn [lstrip Ascii.eqb Bool.eqb].
  assert (Hl : lacks "<" (url ++ ">") = true) by (rewrite lacks_app, Hu3; reflexivity).
  rewrite lstrip_lacks by exact Hl. rewrite rstrip_snoc, rstrip_lacks by exact Hu4. reflexivity.
Qed.

Lemma parse_link_blank_parts (links : list (string * string)) :
  forallb plain_link links = true ->
  forall d,
    Analyzer.parse_link_parts (map (fun l => " " ++ link_value (fst l) (snd l)) links) d
    = fold_left (fun d link => dict_set (fst link) (snd link) d) links d.
Proof.
  induction links as [|[rel url] rest IH]; intros Hp d; [reflexivity|].
  simpl in Hp. apply andb_true_iff in Hp as [Hp Hrest].
  cbn [map fold_left fst snd].
  rewrite (@parse_link_part rel url true _ d Hp). now apply IH.
Qed.

Lemma split_cons_other sep (c : ascii) (s : string) :
  Ascii.eqb c sep = false ->
  split sep (String c s) = match split sep s with
                           | h :: r => String c h :: r
                           | [] => [String c ""]
                           end.
Proof. intros H. simpl. now rewrite H. Qed.

Lemma link_value_lacks_comma (rel url : string) :
  plain_link (rel, url) = true -> lacks "," (link_value rel url) = true.
Proof.
  intros Hp. apply plain_link_spec in Hp as [[Hu1 _] [Hr1 _]].
  unfold link_value. simpl. rewrite lacks_app, Hu1. simpl. rewrite lacks_app, Hr1. reflexivity.
Qed.

(** The parts of a header of well-formed links. *)
Lemma split_link_header (rel url : string) (rest : list (string * string)) :
  forallb plain_link ((rel, url) :: rest) = true ->
  split "," (link_header ((rel, url) :: rest))
  = link_value rel url :: map (fun l => " " ++ link_value (fst l) (snd l)) rest.
Proof.
  revert rel url. induction rest as [|[rel' url'] rest IH]; intros rel url Hp.
  - simpl in Hp. rewrite andb_true_r in Hp. cbn [link_header map].
    now apply split_lacks, link_value_lacks_comma.
  - cbn [forallb] in Hp. apply andb_true_iff in Hp as [Hp Hrest].
    change (link_header ((rel, url) :: (rel', url') :: rest))
      with (link_value rel url ++ String "," (String " " (link_header ((rel', url') :: rest)))).
    rewrite split_app, (@split_lacks _ _ (@link_value_lacks_comma _ _ Hp)).
    rewrite split_cons_other by reflexivity.
    rewrite (IH rel' url' Hrest). reflexivity.
Qed.

Lemma parse_link_header_links (links : list (string * string)) :
  forallb plain_link links = true ->
  Analyzer.parse_link_header (Some (link_header links)) = links_dict links.
Proof.
  intros Hp. destruct links as [|[rel url] rest]; [reflexivity|].
  unfold Analyzer.parse_link_header.
  assert (Ht : truthy (Some (link_header ((rel, url) :: rest))) = true).
  { destruct rest as [|[r u] rest]; reflexivity. }
  rewrite Ht. cbn [or_empty]. rewrite (@split_link_header _ _ _ Hp).
  cbn [forallb] in Hp. apply andb_true_iff in Hp as [Hp Hrest].
  rewrite (@parse_link_part rel url false _ [] Hp).
  rewrite (@parse_link_blank_parts _ Hrest). reflexivity.
Qed.

(** X6: [parse_link_header] reads back a [Link] header written in the
    usual form: for links [<url>; rel="name"] joined by a comma and a
    blank, with no comma or semicolon in a URL or a name, no angle bracket
    in a URL and no double quote in a name, it gives the dictionary from
    each name to its URL. *)
Theorem parse_link_header_round_trip (links : list (string * string)) :
  forallb plain_link links = true ->
  Analyzer.parse_link_header (Some (link_header links)) = links_dict links.
Proof.
  apply parse_link_header_links.
Qed.

Lemma parse_link_header_round_trip_witness :
  Analyzer.parse_link_header
    (Some (link_header [("next", "https://api.github.com/search/issues?q=a&page=2");
                        ("last", "https://api.github.com/search/issues?q=a&page=5")]))
  = [("next", "https://api.github.com/search/issues?q=a&page=2");
     ("last", "https://api.github.com/search/issues?q=a&page=5")].
Proof.
  exact (@parse_link_header_round_trip
           [("next", "https://api.github.com/search/issues?q=a&page=2");
            ("last", "https://api.github.com/search/issues?q=a&page=5")] eq_refl).
Defined.

Lemma rstrip_app_lacks c (a b : string) :
  lacks c b = true -> b <> "" -> rstrip c (a ++ b) = a ++ b.
Proof.
  intros Hb Hne. induction a as [|x a IH]; simpl.
  - now apply rstrip_lacks.
  - rewrite IH. destruct (a ++ b) eqn:E; [|reflexivity].
    destruct a; [simpl in E; contradiction | discriminate E].
Qed.

Lemma rstrip_slashes (s : string) (n : nat) : rstrip "/" (s ++ slashes n) = rstrip "/" s.
Proof.
  revert s. induction n as [|n IH]; intros s; simpl.
  - now rewrite string_app_nil_r.
  - change (s ++ String "/" (slashes n)) with (s ++ (String "/" "" ++ slashes n)).
    rewrite <- string_app_assoc, IH. apply rstrip_snoc.
Qed.

Lemma split_two_more sep (s : string) :
  lacks sep s = false -> (2 <= List.length (split sep s))%nat.
Proof.
  induction s as [|c t IH]; simpl; [discriminate|].
  destruct (Ascii.eqb c sep) eqn:E; simpl.
  - intros _. pose proof (split_nonempty sep t). destruct (split sep t); [contradiction|].
    simpl. lia.
  - intros H. specialize (IH H). destruct (split sep t) as [|h r]; simpl in *; lia.
Qed.

(** The last two segments of a path. *)
Lemma split_last_two (p owner repo : string) :
  lacks "/" owner = true -> lacks "/" repo = true ->
  split "/" (p ++ "/" ++ owner ++ "/" ++ repo) = (split "/" p ++ [owner; repo])%list.
Proof.
  intros Ho Hr.
  change (p ++ "/" ++ owner ++ "/" ++ repo) with (p ++ String "/" (owner ++ String "/" repo)).
  rewrite !split_app, (split_lacks _ _ Ho), (split_lacks _ _ Hr). reflexivity.
Qed.

Lemma safe_repo_full_name_path (item : Item) (prefix owner repo : string) (n : nat) :
  lacks "/" owner = true -> lacks "/" repo = true -> repo <> "" ->
  it_repository_url item = Some (prefix ++ "/" ++ owner ++ "/" ++ repo ++ slashes n) ->
  Analyzer.safe_repo_full_name item = Some (owner ++ "/" ++ repo).
Proof.
  intros Ho Hr Hne Hurl. unfold Analyzer.safe_repo_full_name. rewrite Hurl.
  assert (Ht : truthy (Some (prefix ++ "/" ++ owner ++ "/" ++ repo ++ slashes n)) = true)
    by (destruct prefix; reflexivity).
  rewrite Ht. cbn [negb or_empty].
  assert (E : prefix ++ "/" ++ owner ++ "/" ++ repo ++ slashes n
              = (prefix ++ "/" ++ owner ++ "/" ++ repo) ++ slashes n).
  { now rewrite !string_app_assoc. }
  rewrite E, rstrip_slashes.
  assert (E2 : prefix ++ "/" ++ owner ++ "/" ++ repo = (prefix ++ "/" ++ owner ++ "/") ++ repo).
  { now rewrite !string_app_assoc. }
  rewrite E2, rstrip_app_lacks by assumption. rewrite <- E2.
  rewrite split_last_two by assumption.
  unfold nth_last. rewrite rev_app_distr. cbn [rev app nth].
  rewrite len_app.
  destruct (Z.ltb_spec (len (split "/" prefix) + len [owner; repo]) 2) as [Hlt|_];
    [|reflexivity].
  unfold len in Hlt. simpl in Hlt. lia.
Qed.

(** X7: for a search item whose ["repository_url"] ends in
    [/owner/repo], with or without slashes after it, [safe_repo_full_name]
    is [owner/repo], whatever comes before. *)
Theorem safe_repo_full_name_owner_repo (item : Item) (prefix owner repo : string) (n : nat) :
  lacks "/" owner = true -> lacks "/" repo = true -> repo <> "" ->
  it_repository_url item = Some (prefix ++ "/" ++ owner ++ "/" ++ repo ++ slashes n) ->
  Analyzer.safe_repo_full_name item = Some (owner ++ "/" ++ repo).
Proof.
  apply safe_repo_full_name_path.
Qed.

Lemma safe_repo_full_name_owner_repo_witness :
  Analyzer.safe_repo_full_name demo_pr_item = Some "octo/demo".
Proof.
  exact (@safe_repo_full_name_owner_repo demo_pr_item "https://api.github.com/repos"
           "octo" "demo" 0 eq_refl eq_refl ltac:(discriminate) eq_refl).
Defined.

(** X8: [safe_repo_full_name] gives nothing exactly when the
    ["repository_url"] is absent or empty, or has no slash left once the
    slashes at its end are removed; any other URL gives a name. *)
Theorem safe_repo_full_name_none (item : Item) :
  Analyzer.safe_repo_full_name item = None <->
  truthy (it_repository_url item) = false \/
  lacks "/" (rstrip "/" (or_empty (it_repository_url item))) = true.
Proof.
  unfold Analyzer.safe_repo_full_name.
  destruct (truthy (it_repository_url item)); cbn [negb]; [|split; [now left | reflexivity]].
  set (s := rstrip "/" (or_empty (it_repository_url item))).
  destruct (lacks "/" s) eqn:Hl.
  - rewrite (split_lacks _ _ Hl). cbn. split; [now right | reflexivity].
  - pose proof (split_two_more _ _ Hl) as H2.
    destruct (Z.ltb_spec (len (split "/" s)) 2) as [Hlt|_].
    + unfold len in Hlt. lia.
    + split; [discriminate | intros [H|H]; discriminate H].
Qed.

(** X9: a commit item without ["repository"]["full_name"] gets its
    repository from ["html_url"]: for [https://host/owner/repo/commit/sha]
    it is [owner/repo]. *)
Theorem commit_repo_from_html_url (item : Item) (host owner repo sha : string) :
  truthy (it_repository_full_name item) = false ->
  lacks "/" host = true -> lacks "/" owner = true -> lacks "/" repo = true ->
  it_html_url item =
    Some ("https://" ++ host ++ "/" ++ owner ++ "/" ++ repo ++ "/commit/" ++ sha) ->
  Analyzer.commit_repo item = Some (owner ++ "/" ++ repo).
Proof.
  intros Hfull Hh Ho Hr Hurl. unfold Analyzer.commit_repo. rewrite Hfull, Hurl.
  cbn [or_empty].
  assert (E : "https://" ++ host ++ "/" ++ owner ++ "/" ++ repo ++ "/commit/" ++ sha
              = "https:" ++ String "/" ("" ++ String "/" (host ++ String "/" (owner ++
                  String "/" (repo ++ String "/" ("commit" ++ String "/" sha))))))
    by reflexivity.
  rewrite E, !split_app.
  rewrite (split_lacks _ _ Hh), (split_lacks _ _ Ho), (split_lacks _ _ Hr).
  change (split "/" "https:") with ["https:"]. change (split "/" "") with [""].
  change (split "/" "commit") with ["commit"].
  pose proof (split_nonempty "/" sha) as Hn.
  destruct (split "/" sha) as [|h r]; [contradiction|].
  cbn [app nth_str nth].
  destruct (Z.leb_spec 7 (len ("https:" :: "" :: host :: owner :: repo :: "commit" :: h :: r)))
    as [_|Hlt]; [reflexivity|].
  unfold len in Hlt. simpl in Hlt. lia.
Qed.

Lemma commit_repo_from_html_url_witness :
  Analyzer.commit_repo (commit_item_at None (Some "https://github.com/octo/demo/commit/abc123"))
  = Some "octo/demo".
Proof.
  exact (@commit_repo_from_html_url
           (commit_item_at None (Some "https://github.com/octo/demo/commit/abc123"))
           "github.com" "octo" "demo" "abc123" eq_refl eq_refl eq_refl eq_refl eq_refl).
Defined.

Lemma substring_skip (a b : string) :
  String.substring (String.length a) (String.length (a ++ b) - String.length a) (a ++ b) = b.
Proof.
  induction a as [|c a IH]; simpl.
  - rewrite Nat.sub_0_r. apply substring_all.
  - exact IH.
Qed.

(** Where [what] does not occur there is nothing to remove. *)
Lemma remove_all_absent (what : string) :
  forall (fuel : nat) (s : string), contains what s = false -> H1.remove_all fuel what s = s.
Proof.
  induction fuel as [|fuel IH]; intros s H; [reflexivity|].
  destruct s as [|c t]; [reflexivity|].
  cbn [H1.remove_all]. cbn [contains] in H. apply orb_false_iff in H as [Hs Ht].
  rewrite Hs. cbn [andb]. now rewrite (IH t Ht).
Qed.

Lemma length_split_app sep (a b : string) :
  List.length (split sep (a ++ String sep b))
  = (List.length (split sep a) + List.length (split sep b))%nat.
Proof. now rewrite split_app, length_app. Qed.


(** Removing a text from a string that begins with it and holds it
    nowhere else leaves the rest. *)
Lemma remove_all_prefix (what rest : string) (fuel : nat) :
  what <> "" -> contains what rest = false ->
  H1.remove_all (S fuel) what (what ++ rest) = rest.
Proof.
  intros Hne Habs.
  assert (Hs : startswith what (what ++ rest) = true) by (apply startswith_spec; now exists rest).
  cbn [H1.remove_all].
  destruct (what ++ rest) as [|c t] eqn:Es.
  { destruct what; [contradiction | discriminate Es]. }
  rewrite Hs.
  assert (Hw : (what =? "")%string = false) by (now apply String.eqb_neq).
  rewrite Hw. cbn [negb andb].
  rewrite <- Es, substring_skip.
  now apply remove_all_absent.
Qed.



(** ** Time differences keep the order of the intervals *)

Lemma round_half_lt up1 up2 (n1 n2 den : Z) :
  (0 < den)%Z -> (n1 < n2)%Z ->
  (Round.round_half up1 n1 den <= Round.round_half up2 n2 den)%Z.
Proof.
  intros Hden Hlt. unfold Round.round_half.
  pose proof (Z.div_mod n1 den ltac:(lia)) as D1.
  pose proof (Z.div_mod n2 den ltac:(lia)) as D2.
  pose proof (Z.mod_pos_bound n1 den Hden) as B1.
  pose proof (Z.mod_pos_bound n2 den Hden) as B2.
  assert (Hq : (n1 / den <= n2 / den)%Z) by (apply Z.div_le_mono; lia).
  destruct (Z.eq_dec (n1 / den) (n2 / den)) as [E|NE].
  - assert (Hr : (n1 mod den < n2 mod den)%Z) by nia.
    rewrite <- E.
    destruct (Z.ltb_spec (2 * (n1 mod den)) den); destruct (Z.ltb_spec (2 * (n2 mod den)) den);
      destruct (Z.ltb_spec den (2 * (n1 mod den))); destruct (Z.ltb_spec den (2 * (n2 mod den)));
      destruct up1; destruct up2; lia.
  - destruct (Z.ltb_spec (2 * (n1 mod den)) den); destruct (Z.ltb_spec (2 * (n2 mod den)) den);
      destruct (Z.ltb_spec den (2 * (n1 mod den))); destruct (Z.ltb_spec den (2 * (n2 mod den)));
      destruct up1; destruct up2; lia.
Qed.

Lemma days_between_le py (s1 e1 s2 e2 d1 d2 : Z) :
  (e1 - s1 <= e2 - s2)%Z ->
  Analyzer.days_between py (Some s1) (Some e1) = Some d1 ->
  Analyzer.days_between py (Some s2) (Some e2) = Some d2 ->
  (d1 <= d2)%Z.
Proof.
  intros Hle H1 H2. unfold Analyzer.days_between in H1, H2.
  assert (E1 : Round.round_half (tie_delta py (e1 - s1)) (100 * (e1 - s1)) (86400 * 1000000)
               = d1) by congruence.
  assert (E2 : Round.round_half (tie_delta py (e2 - s2)) (100 * (e2 - s2)) (86400 * 1000000)
               = d2) by congruence.
  subst d1 d2. clear H1 H2.
  destruct (Z.eq_dec (e1 - s1) (e2 - s2)) as [E|NE].
  - rewrite E. lia.
  - apply round_half_lt; lia.
Qed.

(** X11: of two intervals the longer one never gets the smaller number of
    days, whatever [round] does at a tie: [days_between] keeps the order
    of the time differences, and so does [calc_mttr_hours]. *)
Theorem time_difference_monotone (py : Python) (s1 e1 s2 e2 : Z) :
  (e1 - s1 <= e2 - s2)%Z ->
  (forall d1 d2,
      Analyzer.days_between py (Some s1) (Some e1) = Some d1 ->
      Analyzer.days_between py (Some s2) (Some e2) = Some d2 ->
      (d1 <= d2)%Z) /\
  (forall created1 closed1 created2 closed2 h1 h2,
      fromisoformat py (replace_Z (or_empty created1)) = Some s1 ->
      fromisoformat py (replace_Z (or_empty closed1)) = Some e1 ->
      fromisoformat py (replace_Z (or_empty created2)) = Some s2 ->
      fromisoformat py (replace_Z (or_empty closed2)) = Some e2 ->
      H1.calc_mttr_hours py created1 closed1 = Done (Some h1) ->
      H1.calc_mttr_hours py created2 closed2 = Done (Some h2) ->
      (h1 <= h2)%Z).
Proof.
  intros Hle. split.
  - intros d1 d2. now apply days_between_le.
  - intros created1 closed1 created2 closed2 h1 h2 P1 P2 P3 P4 C1 C2.
    unfold H1.calc_mttr_hours in C1, C2.
    destruct (negb (truthy created1) || negb (truthy closed1)); [discriminate|].
    destruct (negb (truthy created2) || negb (truthy closed2)); [discriminate|].
    rewrite P1, P2 in C1. rewrite P3, P4 in C2.
    assert (E1 : Round.round_half (tie_delta py (e1 - s1)) (100 * (e1 - s1)) (3600 * 1000000)
                 = h1) by congruence.
    assert (E2 : Round.round_half (tie_delta py (e2 - s2)) (100 * (e2 - s2)) (3600 * 1000000)
                 = h2) by congruence.
    subst h1 h2. clear C1 C2.
    destruct (Z.eq_dec (e1 - s1) (e2 - s2)) as [E|NE].
    + rewrite E. lia.
    + apply round_half_lt; lia.
Qed.

Lemma time_difference_monotone_witness :
  exists d1 d2,
    Analyzer.days_between Sample.python (Some 0%Z) (Some 86400000000%Z) = Some d1 /\
    Analyzer.days_between Sample.python (Some 0%Z) (Some 172800000000%Z) = Some d2 /\
    (d1 <= d2)%Z.
Proof.
  eexists. eexists. split; [reflexivity|]. split; [reflexivity|].
  exact (proj1 (@time_difference_monotone Sample.python 0%Z 86400000000%Z 0%Z 172800000000%Z
                  ltac:(lia)) _ _ eq_refl eq_refl).
Defined.

(** ** The two label rules *)

Lemma existsb_eqb_In (k : string) (l : list string) :
  existsb (String.eqb k) l = true <-> In k l.
Proof.
  rewrite existsb_exists. split.
  - intros [x [Hin E]]. apply String.eqb_eq in E. now subst x.
  - intros Hin. exists k. split; [exact Hin | apply String.eqb_refl].
Qed.

(** Each label keyword of the H1 report holds a marker of the analyzer. *)
Lemma label_keyword_has_marker (k : string) :
  In k H1.label_keywords ->
  existsb (fun marker => contains marker k) Analyzer.incident_markers = true.
Proof.
  unfold H1.label_keywords. simpl.
  intros [<-|[<-|[<-|[<-|[<-|[<-|[]]]]]]]; reflexivity.
Qed.

(** X12: a list of labels that the H1 report takes for an incident by its
    labels alone (the title being absent) is taken for an incident by the
    analyzer too: the exact label words of the report each hold a marker
    that the analyzer looks for as a substring. *)
Theorem label_rule_included (names : list string) :
  H1.detect_incident_issue None (Some names) = true ->
  Analyzer.is_incident_issue (Some (labels_named names)) = Done true.
Proof.
  unfold H1.detect_incident_issue. cbn [or_empty lower].
  change (existsb (fun k => contains k "") H1.title_keywords) with false. cbv iota.
  destruct (existsb _ H1.label_keywords) eqn:H; [intros _ | discriminate].
  apply existsb_exists in H as [k [Hk Hin]].
  apply existsb_eqb_In, in_map_iff in Hin as [n [Hn Hin]].
  apply label_keyword_has_marker, existsb_contains_spec in Hk as [marker [Hm Hs]].
  apply is_incident_issue_spec. unfold labels_or_empty, labels_named. split.
  - intros lbl Hl. apply in_map_iff in Hl as [n' [<- _]]. discriminate.
  - exists {| lbl_name_key := Present n |}, marker. split; [|split].
    + apply in_map_iff. now exists n.
    + exact Hm.
    + unfold lbl_name. cbn [lbl_name_key get or_empty]. now rewrite Hn.
Qed.

Lemma label_rule_included_witness :
  Analyzer.is_incident_issue (Some (labels_named ["bug"; "SEV2"])) = Done true.
Proof.
  exact (@label_rule_included ["bug"; "SEV2"] eq_refl).
Defined.

(** ** A label without a name *)


Lemma label_strings_only_attribute_error (labels : list (option string)) :
  (exists l, H1.label_strings labels = Done l) \/
  H1.label_strings labels = Raised AttributeError.
Proof.
  induction labels as [|[s|] rest IH]; simpl.
  - left. now exists [].
  - destruct IH as [[l ->]| ->]; [left; now exists (s :: l) | now right].
  - now right.
Qed.




(** ** Issues: one record for each item *)





(** ** A search that fails *)

(** X15: when the first search request of [analyze] fails, the run ends
    there with the exception of that request: one request sent, no retry,
    no report. *)
Theorem search_failure_aborts (py : Python) (fuel : nat) (user start_date end_date : string)
    (env : Env) (tr : Trace) (e : exn) :
  respond env tr (first_request user start_date end_date) = Failure e ->
  Analyzer.analyze py (S fuel) user start_date end_date env tr =
    (Raised e, (tr ++ [EvGet (first_request user start_date end_date)])%list).
Proof.
  intros Hfail. unfold Analyzer.analyze. unfold bind at 1.
  unfold Analyzer.search_issues. cbn [Analyzer.search_loop]. unfold bind at 1.
  unfold Analyzer.http_get. unfold bind at 1. unfold urlopen.
  change (Analyzer.request (GITHUB_API ++ "/search/issues")
            [("q", "is:pr author:" ++ user ++ " created:" ++ start_date ++ ".." ++ end_date);
             ("per_page", str_of_Z 100); ("page", str_of_Z 1)] None)
    with (first_request user start_date end_date).
  rewrite Hfail. reflexivity.
Qed.

Lemma search_failure_aborts_witness :
  Analyzer.analyze Sample.python 10 "alice" "2025-01-01" "2025-06-30" failing_env [] =
    (Raised (HTTPError 500 "Internal Server Error" []),
     [EvGet (first_request "alice" "2025-01-01" "2025-06-30")]).
Proof.
  exact (@search_failure_aborts Sample.python 9 "alice" "2025-01-01" "2025-06-30"
           failing_env [] (HTTPError 500 "Internal Server Error" []) eq_refl).
Defined.

(** ** Pull requests that are left out *)

Lemma pr_step_skipped py (item : Item) env tr :
  skipped item = true -> Analyzer.pr_step py item env tr = (Done None, tr).
Proof.
  unfold skipped, Analyzer.pr_step.
  destruct (Analyzer.safe_repo_full_name item); [|reflexivity].
  destruct (it_number item) as [n|]; [|reflexivity].
  now intros ->.
Qed.

(** X16: the search items without a repository or without a number
    (absent, null or 0) are left out of the pull requests without a word:
    no request is sent for them and no record is made, so that a list of
    such items alone adds nothing to [prs_detailed]. *)
Theorem skipped_items_leave_no_trace (py : Python) (items : list Item)
    (acc : list Analyzer.PullRecord) (env : Env) (tr : Trace) :
  forallb skipped items = true ->
  Analyzer.prs_loop py items acc env tr = (Done acc, tr).
Proof.
  revert acc. induction items as [|item rest IH]; intros acc H; [reflexivity|].
  cbn [forallb] in H. apply andb_true_iff in H as [Hs Hrest].
  cbn [Analyzer.prs_loop]. unfold bind. rewrite (pr_step_skipped py item env tr Hs).
  now apply IH.
Qed.

Lemma skipped_items_leave_no_trace_witness :
  Analyzer.prs_loop Sample.python
    [Sample.item0; item_at (Some "https://api.github.com/repos/octo/demo")] [] failing_env []
  = (Done [], []).
Proof.
  exact (@skipped_items_leave_no_trace Sample.python
           [Sample.item0; item_at (Some "https://api.github.com/repos/octo/demo")] []
           failing_env [] eq_refl).
Defined.

(** ** The commits of the H1 report *)

Lemma commits_page_stale py (req : Request) (data : option Payload) env tr body headers :
  respond env tr req = Failure (HTTPError 403 body headers) ->
  contains "rate limit" (lower body) = true ->
  truthy (message_get "X-RateLimit-Reset" headers) = false ->
  H1.commits_page py req data env tr = (Done data, (tr ++ [EvGet req])%list).
Proof.
  intros Hresp Hbody Hreset. unfold H1.commits_page, try_except.
  unfold bind at 1. unfold urlopen at 1. rewrite Hresp.
  rewrite Z.eqb_refl, Hbody. cbn [andb].
  destruct (message_get "X-RateLimit-Reset" headers) as [[|c s]|]; try reflexivity.
  discriminate Hreset.
Qed.

(** X17: in the commit search of [fetch_commits], a page refused for rate
    limiting (403) without an [X-RateLimit-Reset] header leaves [data] as
    it was: on the first page the variable is unbound and the function
    ends in [UnboundLocalError]; on a later page the items of the page
    before are added a second time, and the loop goes on or stops by their
    number as if they were the answer. *)
Theorem fetch_commits_reuses_stale_page (py : Python) (fuel : nat) (query : string)
    (page : Z) (all_items : list Item) (env : Env) (tr : Trace)
    (body : string) (headers : list (string * string)) :
  respond env tr (H1.commits_request query page) = Failure (HTTPError 403 body headers) ->
  contains "rate limit" (lower body) = true ->
  truthy (message_get "X-RateLimit-Reset" headers) = false ->
  let tr1 := (tr ++ [EvGet (H1.commits_request query page)])%list in
  H1.commits_search_loop py (S fuel) query page None all_items env tr =
    (Done H1.UnboundLocalError, tr1) /\
  (forall data items,
      get_items data = Done items ->
      H1.commits_search_loop py (S fuel) query page (Some data) all_items env tr =
        if (len items <? 100)%Z || (10 <=? page)%Z
        then (Done (H1.Returned (all_items ++ items)%list), tr1)
        else H1.commits_search_loop py fuel query (page + 1)%Z (Some data)
               (all_items ++ items)%list env tr1).
Proof.
  intros Hresp Hbody Hreset tr1. split.
  - cbn [H1.commits_search_loop]. unfold bind at 1.
    rewrite (commits_page_stale py _ None env tr Hresp Hbody Hreset). reflexivity.
  - intros data items Hitems. cbn [H1.commits_search_loop]. unfold bind at 1.
    rewrite (commits_page_stale py _ (Some data) env tr Hresp Hbody Hreset).
    unfold bind at 1. unfold lift at 1. rewrite Hitems.
    destruct ((len items <? 100)%Z || (10 <=? page)%Z); reflexivity.
Qed.

(** The second page of the search above, refused: the hundred items of
    the first page are taken once more. *)
Lemma fetch_commits_reuses_stale_page_witness :
  H1.commits_search_loop Sample.python 2 "author:alice" 2 (Some (JSearch (Some hundred_items)))
    hundred_items stale_env [] =
  H1.commits_search_loop Sample.python 1 "author:alice" 3 (Some (JSearch (Some hundred_items)))
    (hundred_items ++ hundred_items)%list stale_env
    [EvGet (H1.commits_request "author:alice" 2)].
Proof.
  exact (proj2 (@fetch_commits_reuses_stale_page Sample.python 1 "author:alice" 2 hundred_items
                  stale_env [] "API rate limit exceeded" [] eq_refl eq_refl eq_refl)
           (JSearch (Some hundred_items)) hundred_items eq_refl).
Defined.

(** The whole search in that world: three requests, and the items of the
    first page twice in the result. *)
Example stale_page_counted_twice :
  H1.commits_search_loop Sample.python 3 "author:alice" 1 None [] stale_env [] =
  (Done (H1.Returned (hundred_items ++ hundred_items)%list),
   [EvGet (H1.commits_request "author:alice" 1);
    EvGet (H1.commits_request "author:alice" 2);
    EvGet (H1.commits_request "author:alice" 3)]).
Proof.
  vm_compute. reflexivity.
Qed.

(** One turn of the [try] statement of the commit search, in every
    world: like a call of [github_get], it sends the request once, or the
    request, one sleep and the request again. *)
Lemma commits_page_cases py (req : Request) (data : option Payload) env tr :
  exists o evs,
    H1.commits_page py req data env tr = (o, (tr ++ evs)%list) /\
    o <> Diverged /\ one_call req evs.
Proof.
  unfold H1.commits_page. unfold try_except. unfold bind at 1. unfold urlopen at 1.
  assert (Hone : forall o : outcome (option Payload), o <> Diverged ->
            exists o' evs, (o, (tr ++ [EvGet req])%list) = (o', (tr ++ evs)%list) /\
                           o' <> Diverged /\ one_call req evs).
  { intros o Ho. exists o, [EvGet req]. split; [reflexivity|]. split; [exact Ho | now left]. }
  destruct (respond env tr req) as [body headers|e].
  - unfold bind at 1. destruct (decode_ends (body, headers) env (tr ++ [EvGet req])%list)
      as [o [Hd Ho]]. rewrite Hd.
    destruct o as [r|e|]; [| | contradiction].
    + apply Hone. discriminate.
    + destruct e as [code b h| | | | |]; try (apply Hone; discriminate).
      exfalso. revert Hd. unfold H1.decode. destruct body; discriminate.
  - destruct e as [code body headers| | | | |]; try (apply Hone; discriminate).
    destruct ((code =? 403)%Z && contains "rate limit" (lower body));
      [|apply Hone; discriminate].
    destruct (message_get "X-RateLimit-Reset" headers) as [[|c s]|];
      try (apply Hone; discriminate).
    destruct (py_int py (String c s)) as [reset_s|]; [|apply Hone; discriminate].
    unfold bind at 1. unfold time_time at 1. unfold bind at 1. unfold sleep at 1.
    unfold bind at 1. unfold urlopen at 1.
    set (ms := (1000 * Z.min (Z.max 0 (reset_s - clock env (tr ++ [EvGet req])%list + 2)) 60)%Z).
    set (tr2 := ((tr ++ [EvGet req]) ++ [EvSleep ms])%list).
    assert (Hshape : one_call req [EvGet req; EvSleep ms; EvGet req]).
    { right. exists ms. split; [unfold ms; lia | reflexivity]. }
    assert (Etr : (tr2 ++ [EvGet req])%list = (tr ++ [EvGet req; EvSleep ms; EvGet req])%list).
    { unfold tr2. now rewrite <- !app_assoc. }
    destruct (respond env tr2 req) as [body2 headers2|e2].
    + unfold bind at 1.
      destruct (decode_ends (body2, headers2) env (tr2 ++ [EvGet req])%list) as [o [Hd Ho]].
      rewrite Hd, Etr. destruct o as [r|e|]; [| | contradiction].
      * eexists. exists [EvGet req; EvSleep ms; EvGet req].
        split; [reflexivity|]. split; [discriminate | assumption].
      * exists (Raised e), [EvGet req; EvSleep ms; EvGet req].
        split; [reflexivity|]. split; [discriminate | assumption].
    + rewrite Etr. exists (Raised e2), [EvGet req; EvSleep ms; EvGet req].
      split; [reflexivity|]. split; [discriminate | assumption].
Qed.

Lemma commits_search_loop_bounded py query :
  forall (r fuel : nat) (page : Z) (data : option Payload) (all_items : list Item) env tr,
    (1 <= r)%nat -> (11 - Z.of_nat r <= page)%Z ->
    exists o evs,
      H1.commits_search_loop py fuel query page data all_items env tr
        = (o, (tr ++ evs)%list) /\
      (List.length (gets evs) <= 2 * r)%nat /\
      (0 <= slept evs <= 60000 * Z.of_nat r)%Z /\
      ((r <= fuel)%nat -> o <> Diverged).
Proof.
  induction r as [|r IH]; intros fuel page data all_items env tr Hr Hpage; [lia|].
  destruct fuel as [|fuel].
  { exists Diverged, []. split; [simpl; now rewrite app_nil_r|].
    split; [simpl; lia|]. split; [unfold slept; simpl; lia | lia]. }
  cbn [H1.commits_search_loop].
  destruct (commits_page_cases py (H1.commits_request query page) data env tr)
    as [o [evs [Hget [Ho Hc]]]].
  apply one_call_bounds in Hc as [Hg Hs].
  unfold bind at 1. rewrite Hget.
  assert (Hone : forall (o : outcome (H1.result (list Item))), o <> Diverged ->
            exists o' evs', (o, (tr ++ evs)%list) = (o', (tr ++ evs')%list) /\
                        (List.length (gets evs') <= 2 * S r)%nat /\
                        (0 <= slept evs' <= 60000 * Z.of_nat (S r))%Z /\
                        ((S r <= S fuel)%nat -> o' <> Diverged)).
  { intros o' Ho'. exists o', evs. split; [reflexivity|]. split; [lia|].
    split; [lia | now intros _]. }
  destruct o as [[d|]|e|]; [| apply Hone; discriminate | apply Hone; discriminate
                            | contradiction].
  unfold bind at 1. unfold lift at 1.
  pose proof (get_items_ends d) as Hends.
  destruct (get_items d) as [items|e|]; [| apply Hone; discriminate | contradiction].
  destruct ((len items <? 100)%Z || (10 <=? page)%Z) eqn:Hstop; [apply Hone; discriminate|].
  apply orb_false_iff in Hstop. destruct Hstop as [_ H2]. apply Z.leb_gt in H2.
  destruct (IH fuel (page + 1)%Z (Some d) (all_items ++ items)%list env (tr ++ evs)%list)
    as [o [evs' [E [L [S' D]]]]]; try lia.
  exists o, (evs ++ evs')%list. rewrite E. split; [now rewrite app_assoc|].
  rewrite gets_app, length_app, slept_app. split; [lia|]. split; [lia|].
  intros Hf. apply D. lia.
Qed.

(** X18: whatever the server answers, the commit search of
    [fetch_commits] sends at most twenty requests (ten pages, each asked
    for at most twice) and sleeps at most ten minutes in all; with fuel
    for ten turns it comes to an end. *)
Theorem fetch_commits_search_in_every_world (py : Python) (fuel : nat) (query : string)
    (env : Env) (tr : Trace) :
  exists o evs,
    H1.commits_search_loop py fuel query 1 None [] env tr = (o, (tr ++ evs)%list) /\
    (List.length (gets evs) <= 20)%nat /\
    (0 <= slept evs <= 600000)%Z /\
    ((10 <= fuel)%nat -> o <> Diverged).
Proof.
  destruct (@commits_search_loop_bounded py query 10 fuel 1%Z None [] env tr)
    as [o [evs [E [L [S' D]]]]]; try lia.
  exists o, evs. split; [exact E|]. split; [exact L|]. split; [lia | exact D].
Qed.

Lemma terminates_github_get py url params : terminates (H1.github_get py url params).
Proof.
  intros env tr. destruct (github_get_cases py url params env tr) as [o [evs [E [Ho _]]]].
  now rewrite E.
Qed.

Lemma terminates_search_github py fuel query sort order :
  (10 <= fuel)%nat -> terminates (H1.search_github py fuel query sort order).
Proof.
  intros Hf env tr. unfold H1.search_github.
  match goal with
  | |- context [H1.search_loop py fuel ?u ?p 1%Z [] env tr] =>
      destruct (@h1_search_loop_bounded py u 10 fuel p 1%Z [] env tr)
        as [o [evs [E [_ [_ D]]]]]; try lia
  end.
  rewrite E. apply D. exact Hf.
Qed.

Lemma terminates_fetch_prs_loop py (items : list Item) :
  forall prs, terminates (H1.fetch_prs_loop py items prs).
Proof.
  induction items as [|it rest IH]; intros prs; cbn [H1.fetch_prs_loop];
    [apply terminates_ret|].
  apply terminates_bind.
  - unfold H1.fetch_pr_step. destruct (negb (truthy (it_pull_request_url it)));
      [apply terminates_ret|].
    apply terminates_bind.
    + apply terminates_try; [|intros e; apply terminates_ret].
      apply terminates_bind; [apply terminates_github_get | intros r; apply terminates_ret].
    + intros [data|]; [|apply terminates_ret].
      apply terminates_bind; [apply terminates_lift, as_pull_ends|].
      intros pr. apply terminates_ret.
  - intros [pr|]; apply IH.
Qed.

Lemma within_h1_2025_ends py (s : string) : H1.within_h1_2025 py s <> Diverged.
Proof.
  unfold H1.within_h1_2025.
  destruct (fromisoformat py (replace_Z s)); [|discriminate].
  destruct (fromisoformat py (replace_Z H1.H1_START)); [|discriminate].
  destruct (_ <=? _)%Z; [|discriminate].
  destruct (fromisoformat py (replace_Z H1.H1_END)); discriminate.
Qed.

Lemma filter_h1_ends py (commits : list H1.CommitRecord) :
  H1.filter_h1 py commits <> Diverged.
Proof.
  induction commits as [|c rest IH]; simpl; [discriminate|].
  pose proof (within_h1_2025_ends py (or_empty (H1.cm_date c))) as Hw.
  destruct (truthy (H1.cm_date c)).
  - destruct (H1.within_h1_2025 py _); try discriminate; try contradiction.
    destruct (H1.filter_h1 py rest); try discriminate; try contradiction.
  - destruct (H1.filter_h1 py rest); try discriminate; try contradiction.
Qed.

Lemma h1_incident_issues_ends (issues : list H1.IssueRecord) :
  H1.incident_issues issues <> Diverged.
Proof.
  induction issues as [|i rest IH]; simpl; [discriminate|].
  destruct (label_strings_only_attribute_error (H1.is_labels i)) as [[l ->]| ->];
    [|discriminate].
  destruct (H1.incident_issues rest); try discriminate; try contradiction.
Qed.

Lemma h1_mttrs_ends py (incidents : list H1.IssueRecord) : H1.mttrs py incidents <> Diverged.
Proof.
  induction incidents as [|i rest IH]; simpl; [discriminate|].
  unfold H1.calc_mttr_hours.
  destruct (negb (truthy (H1.is_created_at i)) || negb (truthy (H1.is_closed_at i))).
  - destruct (H1.mttrs py rest); try discriminate; try contradiction.
  - destruct (fromisoformat py _); [|discriminate].
    destruct (fromisoformat py _); [|discriminate].
    destruct (H1.mttrs py rest); try discriminate; try contradiction.
Qed.

Lemma incident_mttr_hours_avg_ends py (issues : list H1.IssueRecord) :
  H1.incident_mttr_hours_avg py issues <> Diverged.
Proof.
  unfold H1.incident_mttr_hours_avg.
  pose proof (h1_incident_issues_ends issues) as Hi.
  destruct (H1.incident_issues issues) as [incidents|e|]; [|discriminate|contradiction].
  pose proof (h1_mttrs_ends py incidents) as Hm.
  destruct (H1.mttrs py incidents) as [ms|e|]; [|discriminate|contradiction].
  destruct (average_spec py (non_null ms)) as [a [-> _]]. discriminate.
Qed.

Lemma totals_ends py prs issues commits : H1.totals py prs issues commits <> Diverged.
Proof.
  unfold H1.totals.
  pose proof (h1_incident_issues_ends issues) as Hi.
  destruct (H1.incident_issues issues) as [incidents|e|]; [|discriminate|contradiction].
  pose proof (incident_mttr_hours_avg_ends py issues) as Ha.
  destruct (H1.incident_mttr_hours_avg py issues); try discriminate; try contradiction.
Qed.

Section FetchCommitsEnds.
Variable get_hash : Item -> option string.

Lemma commit_target_ends (it : Item) : H1.commit_target get_hash it <> Diverged.
Proof.
  unfold H1.commit_target.
  destruct (it_repository it); try discriminate;
    repeat match goal with
           | |- context [let (_, _) := ?p in _] => destruct p
           | |- context [if ?b then _ else _] => destruct b
           end; discriminate.
Qed.

Lemma terminates_fetch_commits_loop py (items : list Item) :
  forall commits, terminates (H1.fetch_commits_loop get_hash py items commits).
Proof.
  induction items as [|it rest IH]; intros commits; cbn [H1.fetch_commits_loop];
    [apply terminates_ret|].
  apply terminates_bind.
  - unfold H1.fetch_commit_step.
    apply terminates_bind; [apply terminates_lift, commit_target_ends|].
    intros [[repo sha]|]; [|apply terminates_ret].
    apply terminates_try; [|intros e; apply terminates_ret].
    apply terminates_bind; [apply terminates_github_get | intros r].
    apply terminates_bind; [apply terminates_lift, as_commit_ends | intros d].
    apply terminates_ret.
  - intros [c|]; apply IH.
Qed.

Lemma terminates_fetch_commits py fuel user :
  (10 <= fuel)%nat -> terminates (H1.fetch_commits get_hash py fuel user).
Proof.
  intros Hf. unfold H1.fetch_commits. apply terminates_bind.
  - intros env tr.
    destruct (@commits_search_loop_bounded py
                ("author:" ++ user ++ " committer-date:2025-01-01..2025-06-30")
                10 fuel 1%Z None [] env tr) as [o [evs [E [_ [_ D]]]]]; try lia.
    rewrite E. now apply D.
  - intros [all_items|]; [|apply terminates_ret].
    apply terminates_bind; [apply terminates_fetch_commits_loop | intros commits].
    apply terminates_bind; [apply terminates_lift, filter_h1_ends | intros kept].
    apply terminates_ret.
Qed.

Lemma terminates_aggregate py fuel user :
  (10 <= fuel)%nat -> terminates (H1.aggregate get_hash py fuel user).
Proof.
  intros Hf. unfold H1.aggregate.
  apply terminates_bind.
  { unfold H1.fetch_prs. apply terminates_bind; [now apply terminates_search_github|].
    intros items. apply terminates_fetch_prs_loop. }
  intros prs. apply terminates_bind.
  { unfold H1.fetch_issues. apply terminates_bind; [now apply terminates_search_github|].
    intros items. apply terminates_ret. }
  intros issues. apply terminates_bind; [now apply terminates_fetch_commits|].
  intros [commits|]; [|apply terminates_ret].
  apply terminates_bind; [apply terminates_lift, totals_ends | intros t].
  apply terminates_ret.
Qed.

End FetchCommitsEnds.

(** X19: with fuel for ten turns of each search loop, [aggregate] of the
    H1 report comes to an end in every world: it returns a report, raises,
    or stops on the unbound [data] of [fetch_commits]; it never stays in a
    loop. *)
Theorem aggregate_terminates (get_hash : Item -> option string) (py : Python) (fuel : nat)
    (user : string) (env : Env) (tr : Trace) :
  (10 <= fuel)%nat ->
  fst (H1.aggregate get_hash py fuel user env tr) <> Diverged.
Proof.
  intros Hf. now apply terminates_aggregate.
Qed.

Lemma aggregate_terminates_witness :
  fst (H1.aggregate (fun _ => None) Sample.python 10 "alice" full_env []) <> Diverged.
Proof.
  apply aggregate_terminates. apply le_n.
Defined.

Lemma within_h1_2025_true py (a b : Z) (d : string) :
  fromisoformat py (replace_Z H1.H1_START) = Some a ->
  fromisoformat py (replace_Z H1.H1_END) = Some b ->
  H1.within_h1_2025 py d = Done true ->
  exists t, fromisoformat py (replace_Z d) = Some t /\ (a <= t <= b)%Z.
Proof.
  intros Ha Hb. unfold H1.within_h1_2025.
  destruct (fromisoformat py (replace_Z d)) as [t|]; [|discriminate].
  rewrite Ha. destruct (Z.leb_spec a t) as [Hat|]; [|discriminate].
  rewrite Hb. intros [= Htb]. apply Z.leb_le in Htb. exists t. split; [reflexivity | lia].
Qed.

Lemma filter_h1_within py (a b : Z) (commits : list H1.CommitRecord) :
  fromisoformat py (replace_Z H1.H1_START) = Some a ->
  fromisoformat py (replace_Z H1.H1_END) = Some b ->
  forall kept, H1.filter_h1 py commits = Done kept ->
               Forall (dated_within py a b) kept /\ incl kept commits.
Proof.
  intros Ha Hb. induction commits as [|c rest IH]; intros kept; cbn [H1.filter_h1].
  - intros [= <-]. split; [constructor | apply incl_refl].
  - destruct (truthy (H1.cm_date c)) eqn:Ht.
    + destruct (H1.within_h1_2025 py (or_empty (H1.cm_date c))) as [keep|e|] eqn:Hw;
        try discriminate.
      destruct (H1.filter_h1 py rest) as [l|e|]; try discriminate.
      destruct (IH l eq_refl) as [Hall Hincl].
      intros [= <-]. destruct keep.
      * split; [|now apply incl_cons; [left | apply incl_tl]].
        constructor; [|exact Hall].
        destruct (within_h1_2025_true py _ Ha Hb Hw) as [t [Hp Hin]].
        destruct (H1.cm_date c) as [d|] eqn:Hd; [|discriminate Ht].
        exists d, t. cbn [or_empty] in Hp. split; [exact Hd|]. split; [|now split].
        intros ->. discriminate Ht.
      * split; [exact Hall | now apply incl_tl].
    + destruct (H1.filter_h1 py rest) as [l|e|]; try discriminate.
      destruct (IH l eq_refl) as [Hall Hincl].
      intros [= <-]. split; [exact Hall | now apply incl_tl].
Qed.

(** X20: every commit that [fetch_commits] returns has a committer date
    that is present, not empty, and inside the first half of 2025, both
    bounds included: the others are dropped by the last filter. *)
Theorem fetch_commits_in_window (get_hash : Item -> option string) (py : Python)
    (fuel : nat) (user : string) (env : Env) (tr tr' : Trace)
    (commits : list H1.CommitRecord) (a b : Z) :
  fromisoformat py (replace_Z H1.H1_START) = Some a ->
  fromisoformat py (replace_Z H1.H1_END) = Some b ->
  H1.fetch_commits get_hash py fuel user env tr = (Done (H1.Returned commits), tr') ->
  Forall (dated_within py a b) commits.
Proof.
  intros Ha Hb H. unfold H1.fetch_commits in H.
  apply bind_done in H as [found [t1 [_ H]]].
  destruct found as [all_items|]; [|discriminate H].
  apply bind_done in H as [fetched [t2 [_ H]]].
  apply bind_done in H as [kept [t3 [Hf H]]]. apply lift_done in Hf as [Hf _].
  unfold ret in H. injection H as <- _.
  exact (proj1 (filter_h1_within py fetched Ha Hb Hf)).
Qed.

Lemma fetch_commits_in_window_witness :
  exists commits tr',
    H1.fetch_commits (fun _ => None) Sample.python 10 "alice" commit_env []
      = (Done (H1.Returned commits), tr') /\
    List.length commits = 1%nat /\
    Forall (dated_within Sample.python 1735689600000000 1751327999000000) commits.
Proof.
  eexists. eexists. split; [vm_compute; reflexivity|]. split; [reflexivity|].
  eapply (@fetch_commits_in_window (fun _ => None) Sample.python 10 "alice" commit_env []);
    [reflexivity | reflexivity | vm_compute; reflexivity].
Defined.

(** ** Counts *)

Lemma len_filter_le {A} (f : A -> bool) (l : list A) : (0 <= len (filter f l) <= len l)%Z.
Proof.
  unfold len. pose proof (filter_length_le f l). lia.
Qed.

Lemma h1_incident_issues_le (issues : list H1.IssueRecord) :
  forall incidents, H1.incident_issues issues = Done incidents ->
                    (List.length incidents <= List.length issues)%nat.
Proof.
  induction issues as [|i rest IH]; intros incidents; cbn [H1.incident_issues].
  - intros [= <-]. apply le_n.
  - destruct (H1.label_strings (H1.is_labels i)); try discriminate.
    destruct (H1.incident_issues rest) as [l|e|]; try discriminate.
    specialize (IH l eq_refl). intros [= <-].
    destruct (H1.detect_incident_issue _ _); simpl; lia.
Qed.

(** X21: in the totals of both reports a part never exceeds the whole:
    the merged pull requests are at most the pull requests, the closed
    issues at most the issues, the incident issues at most the issues they
    are taken from; no count is negative. *)
Theorem counts_bounded (py : Python) :
  (forall prs issues commits t,
      H1.totals py prs issues commits = Done t ->
      (0 <= H1.tot_prs_merged t <= H1.tot_prs_opened t)%Z /\
      (0 <= H1.tot_issues_closed t <= H1.tot_issues_opened t)%Z /\
      (0 <= H1.tot_incident_issues t <= H1.tot_issues_opened t)%Z /\
      H1.tot_commits t = len commits) /\
  (forall prs issues assigned reviews commits a,
      Analyzer.aggregates py prs issues assigned reviews commits = Done a ->
      (0 <= Analyzer.prs_merged a <= Analyzer.prs_created a)%Z /\
      (0 <= Analyzer.incident_issues_count a <= Analyzer.issues_created a + len assigned)%Z /\
      Analyzer.commits_count a = len commits).
Proof.
  split.
  - intros prs issues commits t. unfold H1.totals.
    destruct (H1.incident_issues issues) as [incidents|e|] eqn:Hi; try discriminate.
    destruct (H1.incident_mttr_hours_avg py issues) as [avg|e|]; try discriminate.
    intros [= <-]. cbn.
    pose proof (h1_incident_issues_le issues Hi) as Hle.
    split; [apply len_filter_le|]. split; [apply len_filter_le|].
    split; [unfold len; lia | reflexivity].
  - intros prs issues assigned reviews commits a. unfold Analyzer.aggregates.
    destruct (Analyzer.avg_cycle_time py prs); try discriminate.
    destruct (Analyzer.avg_incident_mttr py issues assigned); try discriminate.
    destruct (Analyzer.avg_issue_ttr py issues assigned); try discriminate.
    intros [= <-]. cbn.
    split; [apply len_filter_le|]. split; [|reflexivity].
    unfold Analyzer.incident_issues. rewrite len_app.
    pose proof (len_filter_le Analyzer.is_is_incident issues).
    pose proof (len_filter_le Analyzer.is_is_incident assigned). lia.
Qed.

(** ** The detail requests of the commits in the H1 report *)

(** The repository and the hash of an item are found, or found missing,
    unless the item's repository is [null]. *)
Lemma commit_target_cases (get_hash : Item -> option string) (it : Item) :
  (it_repository it <> Null /\ exists t, H1.commit_target get_hash it = Done t) \/
  (it_repository it = Null /\ H1.commit_target get_hash it = Raised AttributeError).
Proof.
  unfold H1.commit_target.
  destruct (it_repository it) eqn:E; [left | right; now split | left];
    (split; [discriminate|]);
    repeat match goal with
           | |- context [let (_, _) := ?p in _] => destruct p
           | |- context [if ?b then _ else _] => destruct b
           end; eexists; reflexivity.
Qed.

(** One turn of the loop of [fetch_commits] over the items found: for an
    item whose repository is not [null] it gives a result, a record or
    nothing, having called the client at most once; for an item whose
    repository is [null] it raises [AttributeError] before any request. *)
Lemma fetch_commit_step_cases (get_hash : Item -> option string) py (it : Item) env tr :
  (it_repository it <> Null /\
   exists r evs,
     H1.fetch_commit_step get_hash py it env tr = (Done r, (tr ++ evs)%list) /\
     (List.length (gets evs) <= 2)%nat /\
     (H1.commit_target get_hash it = Done None -> r = None /\ evs = [])) \/
  (it_repository it = Null /\
   H1.fetch_commit_step get_hash py it env tr = (Raised AttributeError, tr)).
Proof.
  unfold H1.fetch_commit_step. unfold bind at 1. unfold lift at 1.
  destruct (commit_target_cases get_hash it) as [[Hnn [t Ht]] | [Hn Ht]]; rewrite Ht;
    [left; split; [exact Hnn|] | right; now split].
  destruct t as [[repo sha]|].
  - set (url := GITHUB_API ++ "/repos/" ++ repo ++ "/commits/" ++ sha).
    destruct (github_get_cases py url [] env tr) as [o [evs [E [Ho Hc]]]].
    apply one_call_bounds in Hc as [Hg _].
    unfold try_except. unfold bind at 1. rewrite E.
    destruct o as [r|e|]; [| | contradiction].
    + unfold bind at 1. unfold lift at 1.
      pose proof (as_commit_ends (fst r)) as Hd.
      destruct (as_commit (fst r)) as [d|e|]; [| | contradiction].
      * eexists. exists evs. split; [reflexivity|]. split; [lia | discriminate].
      * exists None, evs. split; [reflexivity|]. split; [lia | discriminate].
    + exists None, evs. split; [reflexivity|]. split; [lia | discriminate].
  - exists None, []. split; [unfold ret; now rewrite app_nil_r|].
    split; [simpl; lia | now split].
Qed.

(** X22: the loop of [fetch_commits] over the items found raises in one
    case only, whatever the server answers: an item whose ["repository"]
    is [null] stops it with [AttributeError], the read of the repository
    name standing before the [try].  Where no item has a [null]
    repository it returns: every failure of a detail request, a body that
    is not JSON or not an object included, makes it pass over the item,
    and it adds at most one record for each item.  Either way it calls the
    client once for each item at most (two requests). *)
Theorem fetch_commits_loop_outcome (get_hash : Item -> option string) (py : Python)
    (items : list Item) (commits : list H1.CommitRecord) (env : Env) (tr : Trace) :
  exists o evs,
    H1.fetch_commits_loop get_hash py items commits env tr = (o, (tr ++ evs)%list) /\
    (List.length (gets evs) <= 2 * List.length items)%nat /\
    ((exists it, In it items /\ it_repository it = Null) -> o = Raised AttributeError) /\
    ((forall it, In it items -> it_repository it <> Null) ->
     exists added, o = Done (commits ++ added)%list /\
                   (List.length added <= List.length items)%nat).
Proof.
  revert commits tr. induction items as [|it rest IH]; intros commits tr.
  - exists (Done commits), []. cbn [H1.fetch_commits_loop]. unfold ret. rewrite app_nil_r.
    split; [reflexivity|]. split; [simpl; lia|]. split.
    + intros [it [[] _]].
    + intros _. exists []. rewrite app_nil_r. split; [reflexivity | simpl; lia].
  - cbn [H1.fetch_commits_loop]. unfold bind at 1.
    destruct (fetch_commit_step_cases get_hash py it env tr)
      as [[Hnn [r [evs [E [Hg _]]]]] | [Hn E]]; rewrite E.
    + assert (Hrest : exists (commits' : list H1.CommitRecord) (k : nat),
                 (k <= 1)%nat /\
                 (forall added, exists added',
                     (commits' ++ added = commits ++ added')%list /\
                     List.length added' = (k + List.length added)%nat) /\
                 match r with
                 | Some c => H1.fetch_commits_loop get_hash py rest (commits ++ [c])%list
                 | None => H1.fetch_commits_loop get_hash py rest commits
                 end = H1.fetch_commits_loop get_hash py rest commits').
      { destruct r as [c|].
        - exists (commits ++ [c])%list, 1%nat. split; [lia|]. split; [|reflexivity].
          intros added. exists (c :: added). now rewrite <- app_assoc.
        - exists commits, 0%nat. split; [lia|]. split; [|reflexivity].
          intros added. now exists added. }
      destruct Hrest as [commits' [k [Hk [Hadd ->]]]].
      destruct (IH commits' (tr ++ evs)%list) as [o [evs' [E' [Lg [Hraise Hdone]]]]].
      exists o, (evs ++ evs')%list. rewrite E'. split; [now rewrite <- app_assoc|].
      split; [rewrite gets_app, length_app; simpl; lia|]. split.
      * intros [it' [[<- | Hin] Hnull]]; [contradiction|]. apply Hraise. now exists it'.
      * intros Hall. destruct Hdone as [added [-> La]].
        { intros it' Hin. apply Hall. now right. }
        destruct (Hadd added) as [added' [-> Hlen]]. exists added'.
        split; [reflexivity | simpl; lia].
    + exists (Raised AttributeError), []. rewrite app_nil_r. split; [reflexivity|].
      split; [simpl; lia|]. split; [reflexivity|].
      intros Hall. destruct (Hall it (or_introl eq_refl) Hn).
Qed.

(** ** The time a run of the analyzer sleeps *)

Lemma slept_get (r : Request) : slept [EvGet r] = 0%Z.
Proof. reflexivity. Qed.

Lemma http_get_trace url params override env tr o tr' :
  Analyzer.http_get url params override env tr = (o, tr') ->
  tr' = (tr ++ [EvGet (Analyzer.request url params override)])%list.
Proof.
  intros H. destruct (http_get_step url params override env tr) as [o' [E _]].
  rewrite H in E. now injection E as _ ->.
Qed.

(** A search loop that returns has slept 0.15 s between two pages, and
    not otherwise. *)
Lemma search_loop_done_slept url override query :
  forall (r fuel : nat) (page total : Z) (acc : list Item) env tr items tr',
    (1 <= r)%nat -> (1000 - 100 * Z.of_nat r <= total)%Z ->
    Analyzer.search_loop fuel url override query page total acc env tr = (Done items, tr') ->
    exists evs, tr' = (tr ++ evs)%list /\ (0 <= slept evs <= 150 * (Z.of_nat r - 1))%Z.
Proof.
  induction r as [|r IH]; intros fuel page total acc env tr items tr' Hr Htotal H; [lia|].
  destruct fuel as [|fuel]; [discriminate H|].
  cbn [Analyzer.search_loop] in H.
  apply bind_done in H as [[data headers] [t1 [Hget H]]].
  apply http_get_trace in Hget. subst t1.
  apply bind_done in H as [page_items [t2 [Hl H]]]. apply lift_done in Hl as [_ ->].
  set (req := Analyzer.request url _ override) in *.
  assert (Hone : exists evs, (tr ++ [EvGet req])%list = (tr ++ evs)%list /\
                             (0 <= slept evs <= 150 * (Z.of_nat (S r) - 1))%Z).
  { exists [EvGet req]. split; [reflexivity|]. rewrite slept_get. lia. }
  destruct page_items as [|x xs]; [unfold ret in H; now injection H as _ <-|].
  set (its := x :: xs) in *.
  destruct ((len its <? 100)%Z || (1000 <=? total + len its)%Z) eqn:Hstop;
    [unfold ret in H; now injection H as _ <-|].
  apply orb_false_iff in Hstop. destruct Hstop as [H1 H2].
  apply Z.ltb_ge in H1. apply Z.leb_gt in H2.
  apply bind_done in H as [u [t3 [Hs H]]]. unfold sleep in Hs. injection Hs as _ <-.
  apply IH in H as [evs [-> Hsl]]; try lia.
  exists ([EvGet req] ++ [EvSleep 150] ++ evs)%list. split; [now rewrite <- !app_assoc|].
  rewrite !slept_app. change (slept [EvGet req]) with 0%Z.
  change (slept [EvSleep 150]) with 150%Z. lia.
Qed.

Lemma search_issues_done_slept fuel query env tr items tr' :
  Analyzer.search_issues fuel query env tr = (Done items, tr') ->
  exists evs, tr' = (tr ++ evs)%list /\ (0 <= slept evs <= 1350)%Z.
Proof.
  unfold Analyzer.search_issues. intros H.
  apply (@search_loop_done_slept _ _ _ 10) in H as [evs [E L]]; try lia.
  exists evs. split; [exact E | lia].
Qed.

Lemma search_commits_done_slept fuel query env tr items tr' :
  Analyzer.search_commits fuel query env tr = (Done items, tr') ->
  exists evs, tr' = (tr ++ evs)%list /\ (0 <= slept evs <= 1350)%Z.
Proof.
  unfold Analyzer.search_commits. intros H.
  apply (@search_loop_done_slept _ _ _ 10) in H as [evs [E L]]; try lia.
  exists evs. split; [exact E | lia].
Qed.

(** A turn of the loop over the pull requests that gives a record has
    slept 0.08 s; a turn that passes over the item has not slept. *)
Lemma pr_step_done_slept py (item : Item) env tr r tr' :
  Analyzer.pr_step py item env tr = (Done r, tr') ->
  exists evs, tr' = (tr ++ evs)%list /\
              slept evs = match r with Some _ => 80%Z | None => 0%Z end.
Proof.
  unfold Analyzer.pr_step.
  assert (Hskip : ret (A := option Analyzer.PullRecord) None env tr = (Done r, tr') ->
                  exists evs, tr' = (tr ++ evs)%list /\
                              slept evs = match r with Some _ => 80%Z | None => 0%Z end).
  { unfold ret. intros [= <- <-]. exists []. now rewrite app_nil_r. }
  destruct (Analyzer.safe_repo_full_name item) as [repo|]; [|exact Hskip].
  destruct (it_number item) as [number|]; [|exact Hskip].
  destruct (number =? 0)%Z; [exact Hskip|]. clear Hskip. intros H.
  apply bind_done in H as [data [t1 [Hget H]]].
  assert (Et1 : exists req, t1 = (tr ++ [EvGet req])%list).
  { revert Hget. unfold try_except, Analyzer.get_pr_details. unfold bind at 1.
    destruct (Analyzer.http_get _ [] None env tr) as [[[d h]|e|] t] eqn:E;
      apply http_get_trace in E; subst t; unfold ret; intros [= _ <-]; eauto. }
  destruct Et1 as [req ->].
  apply bind_done in H as [pr [t2 [Hl H]]]. apply lift_done in Hl as [_ ->].
  apply bind_done in H as [cycle [t3 [Hl H]]]. apply lift_done in Hl as [_ ->].
  unfold bind, sleep, ret in H. injection H as <- <-.
  exists [EvGet req; EvSleep 80]. split; [now rewrite <- app_assoc | reflexivity].
Qed.

Lemma prs_loop_done_slept py (items : list Item) :
  forall acc env tr recs tr',
    Analyzer.prs_loop py items acc env tr = (Done recs, tr') ->
    exists evs, tr' = (tr ++ evs)%list /\ (slept evs + 80 * len acc = 80 * len recs)%Z.
Proof.
  induction items as [|item rest IH]; intros acc env tr recs tr' H.
  - cbn in H. unfold ret in H. injection H as <- <-. exists []. rewrite app_nil_r.
    split; [reflexivity | change (slept []) with 0%Z; lia].
  - cbn [Analyzer.prs_loop] in H. apply bind_done in H as [r [t1 [Hstep H]]].
    apply pr_step_done_slept in Hstep as [ev1 [-> Hs1]].
    destruct r as [rec|]; apply IH in H as [ev2 [-> Hs2]];
      exists (ev1 ++ ev2)%list; (split; [now rewrite app_assoc|]);
      rewrite slept_app; rewrite ?len_app in Hs2;
      try change (len [rec]) with 1%Z in Hs2; lia.
Qed.

(** The enrichment of a commit that returns has slept 0.05 s. *)
Lemma commit_enrich_done_slept (item : Item) (sha : string) env tr rec tr' :
  Analyzer.commit_enrich item sha env tr = (Done rec, tr') ->
  exists evs, tr' = (tr ++ evs)%list /\ slept evs = 50%Z.
Proof.
  unfold Analyzer.commit_enrich. intros H.
  apply bind_done in H as [data [t1 [H1 H]]].
  assert (E1 : exists ev1, t1 = (tr ++ ev1)%list /\ slept ev1 = 0%Z).
  { revert H1. destruct (truthy (Analyzer.commit_repo item)).
    - unfold try_except, Analyzer.get_commit_details. unfold bind at 1.
      destruct (Analyzer.http_get _ [] None env tr) as [[[d h]|e|] t] eqn:E;
        apply http_get_trace in E; subst t; unfold ret; intros [= _ <-];
        eexists; (split; [reflexivity | reflexivity]).
    - unfold ret. intros [= _ <-]. exists []. now rewrite app_nil_r. }
  destruct E1 as [ev1 [-> Hs1]].
  apply bind_done in H as [detail [t2 [Hl H]]]. apply lift_done in Hl as [_ ->].
  apply bind_done in H as [prs [t3 [H3 H]]].
  assert (E3 : exists ev3, t3 = ((tr ++ ev1) ++ ev3)%list /\ slept ev3 = 0%Z).
  { revert H3. destruct (truthy (Analyzer.commit_repo item)).
    - unfold try_except, Analyzer.get_pulls_for_commit. unfold bind at 1.
      destruct (Analyzer.http_get _ [] (Some _) env (tr ++ ev1)%list) as [[[d h]|e|] t] eqn:E;
        apply http_get_trace in E; subst t.
      + destruct d; unfold ret; intros [= _ <-]; eexists; (split; reflexivity).
      + unfold ret; intros [= _ <-]; eexists; (split; reflexivity).
      + discriminate.
    - unfold ret. intros [= _ <-]. exists []. now rewrite app_nil_r. }
  destruct E3 as [ev3 [-> Hs3]].
  unfold bind, sleep, ret in H. injection H as _ <-.
  exists (ev1 ++ ev3 ++ [EvSleep 50])%list. split; [now rewrite <- !app_assoc|].
  rewrite !slept_app, Hs1, Hs3. reflexivity.
Qed.

Lemma commits_loop_done_slept (items : list Item) :
  forall seen acc env tr recs tr',
    Analyzer.commits_loop items seen acc env tr = (Done recs, tr') ->
    exists evs, tr' = (tr ++ evs)%list /\ (slept evs + 50 * len acc = 50 * len recs)%Z.
Proof.
  induction items as [|item rest IH]; intros seen acc env tr recs tr' H.
  - cbn in H. unfold ret in H. injection H as <- <-. exists []. rewrite app_nil_r.
    split; [reflexivity | change (slept []) with 0%Z; lia].
  - cbn [Analyzer.commits_loop] in H.
    destruct (it_sha item) as [[|c s]|]; try (now apply IH in H).
    destruct (Analyzer.mem (String c s) seen); [now apply IH in H|].
    apply bind_done in H as [rec [t1 [He H]]].
    apply commit_enrich_done_slept in He as [ev1 [-> Hs1]].
    apply IH in H as [ev2 [-> Hs2]].
    exists (ev1 ++ ev2)%list. split; [now rewrite app_assoc|].
    rewrite slept_app. rewrite len_app in Hs2. change (len [rec]) with 1%Z in Hs2. lia.
Qed.

(** X23: a run of [analyze] that returns a report has slept 0.08 s for
    each pull request in the report and 0.05 s for each commit in it, and
    between the pages of the six searches at most 8.1 s more (nine times
    0.15 s for each search). *)
Theorem analyze_sleep_budget (py : Python) (fuel : nat) (user start_date end_date : string)
    (env : Env) (tr tr' : Trace) (report : Analyzer.Report) :
  Analyzer.analyze py fuel user start_date end_date env tr = (Done report, tr') ->
  exists evs,
    tr' = (tr ++ evs)%list /\
    let fixed := (80 * len (Analyzer.rp_pull_requests report)
                  + 50 * len (Analyzer.rp_commits report))%Z in
    (fixed <= slept evs <= fixed + 8100)%Z.
Proof.
  unfold Analyzer.analyze. intros H.
  apply bind_done in H as [pr_items [t1 [H1 H]]].
  apply bind_done in H as [prs [t2 [H2 H]]].
  apply bind_done in H as [issue_items [t3 [H3 H]]].
  apply bind_done in H as [issues [t4 [H4 H]]]. apply lift_done in H4 as [_ ->].
  apply bind_done in H as [assigned_items [t5 [H5 H]]].
  apply bind_done in H as [assigned [t6 [H6 H]]]. apply lift_done in H6 as [_ ->].
  apply bind_done in H as [reviewed [t7 [H7 H]]].
  apply bind_done in H as [by_author [t8 [H8 H]]].
  apply bind_done in H as [by_committer [t9 [H9 H]]].
  apply bind_done in H as [commits [t10 [H10 H]]].
  apply bind_done in H as [aggs [t11 [H11 H]]]. apply lift_done in H11 as [_ ->].
  unfold ret in H. injection H as <- <-. cbn [Analyzer.rp_pull_requests Analyzer.rp_commits].
  apply search_issues_done_slept in H1 as [e1 [-> L1]].
  apply prs_loop_done_slept in H2 as [e2 [-> L2]].
  apply search_issues_done_slept in H3 as [e3 [-> L3]].
  apply search_issues_done_slept in H5 as [e5 [-> L5]].
  apply search_issues_done_slept in H7 as [e7 [-> L7]].
  apply search_commits_done_slept in H8 as [e8 [-> L8]].
  apply search_commits_done_slept in H9 as [e9 [-> L9]].
  apply commits_loop_done_slept in H10 as [e10 [-> L10]].
  exists (e1 ++ e2 ++ e3 ++ e5 ++ e7 ++ e8 ++ e9 ++ e10)%list.
  split; [now rewrite <- !app_assoc|].
  cbv zeta. rewrite !slept_app.
  change (len (@nil Analyzer.PullRecord)) with 0%Z in L2.
  change (len (@nil Analyzer.CommitRecord)) with 0%Z in L10. lia.
Qed.

Lemma analyze_sleep_budget_witness :
  exists report tr',
    Analyzer.analyze Sample.python 10 "alice" "2025-01-01" "2025-06-30" alice_env []
      = (Done report, tr') /\
    (80 <= slept tr' <= 8180)%Z.
Proof.
  eexists. eexists. split; [vm_compute; reflexivity|].
  match goal with
  | |- (_ <= slept ?t <= _)%Z =>
      destruct (@analyze_sleep_budget Sample.python 10 "alice" "2025-01-01" "2025-06-30"
                  alice_env [] t _ ltac:(vm_compute; reflexivity)) as [evs [E L]]
  end.
  simpl in E. subst evs. exact L.
Defined.

(** ** The repository of a commit in the H1 report *)

Lemma split_on_nonempty sep (s : string) : forall skip, H1.split_on sep skip s <> [].
Proof.
  induction s as [|c t IH]; intros skip; cbn [H1.split_on]; [discriminate|].
  destruct skip as [|k]; [|apply IH].
  destruct (startswith sep (String c t)); [discriminate|].
  destruct (H1.split_on sep 0 t); discriminate.
Qed.

Lemma split_on_skip sep (k post : string) :
  H1.split_on sep (String.length k) (k ++ post) = H1.split_on sep 0 post.
Proof.
  induction k as [|c k IH]; [reflexivity|]. exact IH.
Qed.

(** [split_on] cuts at the first occurrence of the separator. *)
Lemma split_on_first (c : ascii) (k pre post : string) :
  begins_nowhere (String c k) pre (String c k ++ post) = true ->
  H1.split_on (String c k) 0 (pre ++ String c k ++ post)
  = pre :: H1.split_on (String c k) 0 post.
Proof.
  set (sep := String c k). induction pre as [|a p IH]; intros H.
  - change ("" ++ sep ++ post) with (String c (k ++ post)). cbn [H1.split_on].
    assert (Hs : startswith sep (String c (k ++ post)) = true)
      by (apply startswith_spec; now exists post).
    rewrite Hs.
    assert (Hlen : (String.length sep - 1)%nat = String.length k)
      by (unfold sep; cbn [String.length]; lia).
    rewrite Hlen. now rewrite split_on_skip.
  - cbn [begins_nowhere] in H. apply andb_true_iff in H as [Hn Hrest].
    apply negb_true_iff in Hn.
    change (String a p ++ sep ++ post) with (String a (p ++ sep ++ post)) in *.
    cbn [H1.split_on]. rewrite Hn, (IH Hrest). reflexivity.
Qed.

Lemma begins_nowhere_app sep (a b rest : string) :
  begins_nowhere sep (a ++ b) rest
  = begins_nowhere sep a (b ++ rest) && begins_nowhere sep b rest.
Proof.
  induction a as [|x a IH]; [reflexivity|].
  cbn [append begins_nowhere]. rewrite IH, andb_assoc. do 2 f_equal.
  change (String x (a ++ b) ++ rest) with (String x ((a ++ b) ++ rest)).
  now rewrite string_app_assoc.
Qed.

(** Nothing that begins with a slash begins inside a word without
    slash. *)
Lemma begins_nowhere_lacks (k o rest : string) :
  lacks "/" o = true -> begins_nowhere (String "/" k) o rest = true.
Proof.
  induction o as [|x o IH]; [reflexivity|].
  intros H. apply lacks_cons in H as [Hx Ho].
  cbn [begins_nowhere append startswith]. rewrite (IH Ho), andb_true_r.
  rewrite Ascii.eqb_sym, Hx. reflexivity.
Qed.

Lemma split_on_lacks (k s : string) :
  lacks "/" s = true -> H1.split_on (String "/" k) 0 s = [s].
Proof.
  induction s as [|x s IH]; [reflexivity|].
  intros H. apply lacks_cons in H as [Hx Hs].
  cbn [H1.split_on startswith]. rewrite Ascii.eqb_sym, Hx. cbn [andb].
  now rewrite (IH Hs).
Qed.

(** Two words without slash that are followed by a slash in equal texts
    are the same word. *)
Lemma word_before_slash (a b x y : string) :
  lacks "/" a = true -> lacks "/" b = true ->
  a ++ String "/" x = b ++ String "/" y -> a = b.
Proof.
  revert b. induction a as [|c a IH]; intros b Ha Hb E.
  - destruct b as [|d b]; [reflexivity|]. cbn in E. injection E as <- _.
    apply lacks_cons in Hb as [Hd _]. discriminate Hd.
  - destruct b as [|d b].
    + cbn in E. injection E as -> _. apply lacks_cons in Ha as [Hc _]. discriminate Hc.
    + cbn in E. injection E as <- E.
      apply lacks_cons in Ha as [_ Ha]. apply lacks_cons in Hb as [_ Hb].
      f_equal. now apply IH with (b := b).
Qed.

Lemma no_commit_after (o rest : string) :
  lacks "/" o = true -> o <> "commit" ->
  startswith "/commit/" (String "/" (o ++ String "/" rest)) = false.
Proof.
  intros Ho Hne. destruct (startswith _ _) eqn:H; [|reflexivity]. exfalso.
  apply startswith_spec in H as [post H]. cbn in H. injection H as H.
  apply Hne. apply (@word_before_slash o "commit" rest post Ho eq_refl H).
Qed.

(** Where the path of a commit page begins and ends. *)
Lemma split_commit_url (owner repo sha : string) :
  lacks "/" owner = true -> lacks "/" repo = true -> lacks "/" sha = true ->
  owner <> "commit" -> repo <> "commit" ->
  H1.split_on "/commit/" 0
    ("https://github.com/" ++ owner ++ "/" ++ repo ++ "/commit/" ++ sha)
  = ["https://github.com/" ++ owner ++ "/" ++ repo; sha].
Proof.
  intros Ho Hr Hs Hno Hnr.
  assert (E : "https://github.com/" ++ owner ++ "/" ++ repo ++ "/commit/" ++ sha
              = ("https://github.com/" ++ owner ++ "/" ++ repo) ++ "/commit/" ++ sha).
  { now rewrite !string_app_assoc. }
  rewrite E.
  change "/commit/" with (String "/" "commit/") at 1 2.
  rewrite split_on_first.
  - now rewrite split_on_lacks.
  - set (rest := String "/" "commit/" ++ sha).
    change ("https://github.com/" ++ owner ++ "/" ++ repo)
      with ("https://github.com" ++ String "/" (owner ++ String "/" repo)).
    rewrite begins_nowhere_app. apply andb_true_iff. split; [reflexivity|].
    cbn [begins_nowhere]. apply andb_true_iff. split.
    + apply negb_true_iff.
      change (String "/" (owner ++ String "/" repo) ++ rest)
        with (String "/" ((owner ++ String "/" repo) ++ rest)).
      rewrite string_app_assoc.
      change (String "/" repo ++ rest) with (String "/" (repo ++ rest)).
      now apply no_commit_after.
    + rewrite begins_nowhere_app. apply andb_true_iff.
      split; [now apply begins_nowhere_lacks|].
      cbn [begins_nowhere]. apply andb_true_iff. split.
      * apply negb_true_iff.
        change (String "/" repo ++ rest) with (String "/" (repo ++ String "/" ("commit/" ++ sha))).
        now apply no_commit_after.
      * now apply begins_nowhere_lacks.
Qed.

Lemma owner_repo_no_site (owner repo : string) :
  lacks "/" owner = true -> lacks "/" repo = true ->
  contains "https://github.com/" (owner ++ "/" ++ repo) = false.
Proof.
  intros Ho Hr. destruct (contains _ _) eqn:H; [|reflexivity]. exfalso.
  apply contains_spec in H as [pre [post H]].
  assert (L : List.length (split "/" (owner ++ "/" ++ repo)) = 2%nat).
  { change (owner ++ "/" ++ repo) with (owner ++ String "/" repo).
    now rewrite split_app, (split_lacks _ _ Ho), (split_lacks _ _ Hr). }
  rewrite H in L.
  change ("https://github.com/" ++ post)
    with ("https:" ++ String "/" (String "/" ("github.com/" ++ post))) in L.
  rewrite <- string_app_assoc, length_split_app in L.
  cbn [split] in L. rewrite Ascii.eqb_refl in L.
  pose proof (split_nonempty "/" (pre ++ "https:")) as N1.
  pose proof (split_nonempty "/" ("github.com/" ++ post)) as N2.
  destruct (split "/" (pre ++ "https:")); [contradiction|].
  destruct (split "/" ("github.com/" ++ post)); [contradiction|].
  simpl in L. lia.
Qed.

(** X24: a commit item of the H1 report whose ["repository"] is not
    [null] (the read of its name does not raise) and gives no
    ["full_name"] is fetched by what its ["html_url"] says: for
    [https://github.com/owner/repo/commit/sha] the repository is
    [owner/repo] and the hash [sha], provided neither the owner nor the
    repository is itself called [commit] (the URL is cut at the first
    [/commit/]). *)
Theorem commit_target_from_html_url (get_hash : Item -> option string) (it : Item)
    (owner repo sha : string) :
  it_repository it <> Null ->
  truthy (it_repository_full_name it) = false ->
  lacks "/" owner = true -> lacks "/" repo = true -> lacks "/" sha = true ->
  owner <> "commit" -> repo <> "commit" -> sha <> "" ->
  it_html_url it = Some ("https://github.com/" ++ owner ++ "/" ++ repo ++ "/commit/" ++ sha) ->
  H1.commit_target get_hash it = Done (Some (owner ++ "/" ++ repo, sha)).
Proof.
  intros Hnull Hfull Ho Hr Hs Hno Hnr Hne Hurl.
  assert (Hc : contains "/commit/"
                 ("https://github.com/" ++ owner ++ "/" ++ repo ++ "/commit/" ++ sha) = true).
  { apply contains_spec. exists ("https://github.com/" ++ owner ++ "/" ++ repo), sha.
    now rewrite !string_app_assoc. }
  assert (Ht1 : truthy (Some (owner ++ "/" ++ repo)) = true) by (destruct owner; reflexivity).
  assert (Ht2 : truthy (Some sha) = true) by (destruct sha; [contradiction | reflexivity]).
  unfold H1.commit_target.
  destruct (it_repository it) eqn:E; [|congruence|];
    (rewrite Hfull, Hurl; cbn [negb orb or_empty];
     rewrite Hc; change (truthy (Some ("https://github.com/" ++ _))) with true; cbn [andb];
     rewrite split_commit_url by assumption; cbn [nth_str nth];
     rewrite remove_all_prefix; [|discriminate | now apply owner_repo_no_site];
     rewrite Ht1, Ht2; reflexivity).
Qed.

Lemma commit_target_from_html_url_witness :
  H1.commit_target (fun _ => None)
    (commit_item_at None (Some "https://github.com/octo/demo/commit/abc123"))
  = Done (Some ("octo/demo", "abc123")).
Proof.
  exact (@commit_target_from_html_url (fun _ => None)
           (commit_item_at None (Some "https://github.com/octo/demo/commit/abc123"))
           "octo" "demo" "abc123" ltac:(discriminate) eq_refl eq_refl eq_refl eq_refl
           ltac:(discriminate) ltac:(discriminate) ltac:(discriminate) eq_refl).
Defined.

(** A repository called [commit]: the URL is cut one segment early. *)
Example commit_target_repo_called_commit :
  H1.commit_target (fun _ => None)
    (commit_item_at None (Some "https://github.com/octo/commit/commit/abc123"))
  = Done (Some ("octo", "commit/abc123")).
Proof.
  vm_compute. reflexivity.
Qed.

(** ** The generic paginator of the analyzer and the Link header *)

Lemma dict_mem_set (k k' v : string) (d : list (string * string)) :
  dict_mem k (dict_set k' v d) = String.eqb k' k || dict_mem k d.
Proof.
  unfold dict_mem. induction d as [|[a b] rest IH]; cbn [dict_set existsb fst].
  - now rewrite orb_false_r.
  - destruct (String.eqb_spec a k') as [->|Hne]; cbn [existsb fst].
    + destruct (String.eqb k' k); reflexivity.
    + rewrite IH. destruct (String.eqb a k); destruct (String.eqb k' k); reflexivity.
Qed.

Lemma dict_mem_links (k : string) (links : list (string * string)) :
  forall d,
    dict_mem k (fold_left (fun d link => dict_set (fst link) (snd link) d) links d)
    = existsb (fun link => String.eqb (fst link) k) links || dict_mem k d.
Proof.
  induction links as [|[rel url] rest IH]; intros d; cbn [fold_left existsb fst snd].
  - reflexivity.
  - rewrite IH, dict_mem_set.
    destruct (existsb _ rest); destruct (String.eqb rel k); destruct (dict_mem k d); reflexivity.
Qed.

(** X25: [paginate] of the analyzer goes by the [Link] header of the
    page it has read: after a first page with items whose header, written
    in the usual form, names no [next] page it returns these items, one
    request sent; if the header names one it sleeps 0.15 s and asks for
    page 2 of the same URL, whatever URL the header gave. *)
Theorem paginate_follows_link_header (Elem : Type) (select : Payload -> outcome (list Elem))
    (fuel : nat) (url : string) (params : list (string * string)) (env : Env) (tr : Trace)
    (body : Payload) (headers links : list (string * string)) (x : Elem) (xs : list Elem) :
  let params1 := dict_set "page" (str_of_Z 1) (dict_set "per_page" (str_of_Z 100) params) in
  let req := Analyzer.request url params1 None in
  respond env tr req = Success body headers ->
  body <> JMalformed ->
  select body = Done (x :: xs) ->
  link_of headers = Some (link_header links) ->
  forallb plain_link links = true ->
  Analyzer.paginate select (S fuel) url params env tr =
    if names_next links
    then Analyzer.paginate_loop select fuel url (dict_set "page" (str_of_Z (1 + 1)) params1)
           (1 + 1) (x :: xs) env (tr ++ [EvGet req; EvSleep 150])%list
    else (Done (x :: xs), (tr ++ [EvGet req])%list).
Proof.
  intros params1 req Hresp Hbody Hsel Hlink Hplain.
  unfold Analyzer.paginate. fold params1. cbn [Analyzer.paginate_loop].
  unfold bind at 1. rewrite (http_get_success url params1 None env tr Hresp Hbody).
  unfold bind at 1. unfold lift at 1. rewrite Hsel. cbv iota.
  fold (link_of headers). rewrite Hlink, (parse_link_header_links links Hplain).
  unfold links_dict. rewrite dict_mem_links. cbn [dict_mem existsb]. rewrite orb_false_r.
  fold (names_next links). destruct (names_next links); cbn [negb app].
  - unfold bind at 1. unfold sleep at 1. fold req. now rewrite <- app_assoc.
  - reflexivity.
Qed.

Lemma paginate_follows_link_header_witness :
  Analyzer.paginate get_items 1 "https://api.github.com/search/issues" [("q", "is:pr")]
    last_page_env [] =
  (Done [demo_pr_item],
   [EvGet (Analyzer.request "https://api.github.com/search/issues"
             [("q", "is:pr"); ("per_page", "100"); ("page", "1")] None)]).
Proof.
  exact (@paginate_follows_link_header Item get_items 0 "https://api.github.com/search/issues"
           [("q", "is:pr")] last_page_env [] (JSearch (Some [demo_pr_item]))
           [("Link", link_header [("first", "https://api.github.com/search/issues?page=1")])]
           [("first", "https://api.github.com/search/issues?page=1")]
           demo_pr_item [] eq_refl ltac:(discriminate) eq_refl eq_refl eq_refl).
Defined.
